(** * Hospital management API: route handlers over an explicit store

    The repository is an Express/Mongoose REST API.  Two families of route
    files coexist:

    - [Numeric]: routes/patients.js, routes/doctors.js (first router) and
      routes/employees.js (the medicines router).  Documents carry a
      sequential numeric [id], looked up with [findOne({ id })].
    - [Keyed]: routes/doctorVisits.js, the medicines-assigned router and
      the wards router (second half of routes/doctors.js).  Documents are
      addressed by their Mongo [_id] through [findById], requests are
      checked with express-validator and roles are tested inline.  The
      schemas of the models these routers write (models/Employee.js,
      models/Express.js, models/MedicineAssigned.js) name their paths
      otherwise than the routes do; [Keyed.repository_schemas] is what
      they accept.

    Each handler is embedded as a function from the store to a response
    and a new store.  Store calls may throw; the handler's [try]/[catch]
    turns a throw into the response of its [catch] block.

    Conventions of the embedding: a number is an integer that a double
    holds exactly, kept as a [Z]; where a schema of the [Numeric] family
    has a Number, a request carries a value that casts to one ([Num n]:
    the JSON number [n], or the [:id] of a route that reads as [n]) or
    one that does not ([NotANumber]), and likewise for a Date ([ADate],
    [NotADate]); in the payloads of the [Keyed] family a number is a
    JSON number (a numeric string, which [isNumeric()] also lets
    through, is not a value of those types); dates that cast are
    carried as opaque strings; a field absent from a request body is
    [None]; the [createdAt]/[updatedAt] stamps that Mongoose maintains
    are not part of the documents; the middleware in front of a handler
    ([protect], [admin], [auth]; not among the sources) has let the
    request through and, for the [Keyed] routes, has put the caller's
    role in [req.user.role].  Requests are served one after the other,
    except where an interleaving is spelled out. *)

From Stdlib Require Import ZArith List String Bool Lia Permutation.
Import ListNotations.
Local Open Scope Z_scope.

(* ------------------------------------------------------------------ *)
(** ** Responses *)

Module Http.

(** What a handler hands to [res.status(..).json(..)] / [res.send]. *)
Inductive payload (D : Type) : Type :=
| Data (d : D)                 (* the document, alone or under [data] *)
| Message (m : string)         (* [{ message }] or [{ msg }] *)
| Errors (es : list string)    (* [{ errors: errors.array() }] *)
| ServerError (e : string).    (* the 500 of a [catch] block *)

Arguments Data {D} d.
Arguments Message {D} m.
Arguments Errors {D} es.
Arguments ServerError {D} e.

Record response (D : Type) : Type := Res { status : Z; body : payload D }.

Arguments Res {D} status body.
Arguments status {D} r.
Arguments body {D} r.

(** The failure kinds of the error taxonomy, read off a response:
    404 is NotFound, 401 is Forbidden, 400 carrying a validator's error
    array is ValidationError, any other 400 is Conflict, 500 is
    Unexpected. *)
Inductive outcome : Type :=
| Success | ValidationError | Conflict | Forbidden | NotFound | Unexpected.

Definition classify {D} (r : response D) : outcome :=
  if (status r =? 200) || (status r =? 201) then Success
  else if status r =? 404 then NotFound
  else if status r =? 401 then Forbidden
  else if status r =? 400 then
    match body r with Errors _ => ValidationError | _ => Conflict end
  else Unexpected.

End Http.
Import Http.

(* ------------------------------------------------------------------ *)
(** ** Store calls that may throw *)

(** Errors a Mongoose call rejects with.  [CastError] is the cast error
    whose [kind] is ['ObjectId'], [CastErrorOther] the one of a value that
    does not cast to a Number or a Date. *)
Inductive exn : Type := CastError | CastErrorOther | ValidationFailed | DuplicateKey.

Definition exn_message (e : exn) : string :=
  match e with
  | CastError => "Cast to ObjectId failed"
  | CastErrorOther => "Cast failed"
  | ValidationFailed => "Validation failed"
  | DuplicateKey => "E11000 duplicate key error"
  end.

Section Effects.
Variable S : Type.

(** A computation over the store [S] that returns or throws. *)
Definition M (A : Type) : Type := S -> (A + exn) * S.

Definition ret {A} (a : A) : M A := fun s => (inl a, s).

Definition bind {A B} (m : M A) (k : A -> M B) : M B :=
  fun s => match m s with
           | (inl a, s') => k a s'
           | (inr e, s') => (inr e, s')
           end.

Definition throw {A} (e : exn) : M A := fun s => (inr e, s).

Definition gets {A} (f : S -> A) : M A := fun s => (inl (f s), s).

Definition modify (f : S -> S) : M unit := fun s => (inl tt, f s).

(** [try { m } catch (err) { h err }]. *)
Definition try_catch {A} (m : M A) (h : exn -> A) : S -> A * S :=
  fun s => match m s with
           | (inl a, s') => (a, s')
           | (inr e, s') => (h e, s')
           end.
End Effects.

Arguments ret {S A} a.
Arguments bind {S A B} m k.
Arguments throw {S A} e.
Arguments gets {S A} f.
Arguments modify {S} f.
Arguments try_catch {S A} m h.

Declare Scope handler_scope.
Delimit Scope handler_scope with handler.
Notation "x <- m ;; k" := (bind m (fun x => k))
  (at level 61, m at next level, right associativity) : handler_scope.
Notation "m ;;; k" := (bind m (fun _ => k))
  (at level 61, right associativity) : handler_scope.

(** What a request carries where the schema has a Number, and where it
    has a Date: a value that casts to it, or one that does not. *)
Inductive numarg : Type := Num (n : Z) | NotANumber.
Inductive datearg : Type := ADate (d : string) | NotADate.

Coercion Num : Z >-> numarg.

(** The value a path is cast to, when it is carried and casts. *)
Definition number (v : option numarg) : option Z :=
  match v with Some (Num n) => Some n | _ => None end.

Definition date (v : option datearg) : option string :=
  match v with Some (ADate d) => Some d | _ => None end.

(** The cast of an optional path goes through. *)
Definition casts_num (v : option numarg) : bool :=
  match v with Some NotANumber => false | _ => true end.

Definition casts_date (v : option datearg) : bool :=
  match v with Some NotADate => false | _ => true end.

(** JavaScript numbers are IEEE doubles.  [js_succ n] is [n + 1] as
    JavaScript computes it on the double that holds the integer [n]:
    exact while [n] and [n + 1] are below 2^53 in magnitude; from there
    on the nearest double, a tie going to the even significand (doubles
    are 2 apart up to 2^54, where [n + 1] is a tie, and at least 4
    apart beyond, where the nearest double is [n] itself). *)
Definition js_succ (n : Z) : Z :=
  if (- 2 ^ 53 <=? n) && (n <? 2 ^ 53) then n + 1
  else if Z.abs n <=? 2 ^ 54 then (if Z.even (Z.abs n / 2) then n else n + 2)
  else n.

(** [Number.isSafeInteger] *)
Definition safe (n : Z) : bool := Z.abs n <? 2 ^ 53.

(** JavaScript truthiness of an optional number and of an optional string,
    as tested by [if (req.body.x)]; a value that does not cast to a
    number (a non-numeric string, an object) is truthy. *)
Definition truthy_num (v : option numarg) : bool :=
  match v with
  | Some (Num n) => negb (n =? 0)
  | Some NotANumber => true
  | None => false
  end.

Definition truthy_str (v : option string) : bool :=
  match v with Some s => negb (String.eqb s "") | None => false end.

(** What [required] accepts of a String path that an update sets: any
    string but the empty one. *)
Definition not_empty (v : option string) : bool :=
  match v with Some s => negb (String.eqb s "") | None => true end.

(** [v !== undefined]. *)
Definition defined {A} (v : option A) : bool :=
  match v with Some _ => true | None => false end.

(** A [$set] of one path: the payload's value when present, the stored
    value otherwise. *)
Definition set_req {A} (v : option A) (old : A) : A :=
  match v with Some x => x | None => old end.

Definition set_opt {A} (v : option A) (old : option A) : option A :=
  match v with Some x => Some x | None => old end.

(** A path a payload does not carry holds after the update what it held
    before. *)
Definition kept {A B} (v : option A) (old new : B) : Prop := v = None -> new = old.

Definition in_enum (vs : list string) (s : string) : bool :=
  existsb (String.eqb s) vs.

(* ------------------------------------------------------------------ *)
(** ** Collections with a numeric [id] *)

Section Collection.
Variable D : Type.
Variable key : D -> Z.

(** The filter [{ k: v }] on a numeric path; [v] is [None] when the
    request did not carry the value, which no stored document matches
    because the path is required. *)
Definition matches (v : option Z) (d : D) : bool :=
  match v with Some x => key d =? x | None => false end.

(** [Model.findOne({ k: v })]: the first document that matches. *)
Definition findOne (v : option Z) (c : list D) : option D :=
  find (matches v) c.

(** Insertion that keeps the collection ordered by decreasing key. *)
Fixpoint insert_desc (d : D) (c : list D) : list D :=
  match c with
  | [] => [d]
  | x :: c' => if key x <? key d then d :: x :: c' else x :: insert_desc d c'
  end.

(** [.sort('-id')] *)
Fixpoint sort_desc (c : list D) : list D :=
  match c with
  | [] => []
  | d :: c' => insert_desc d (sort_desc c')
  end.

(** [Model.findOne().sort('-id')]: the document with the highest key. *)
Definition findOne_sort_desc (c : list D) : option D :=
  hd_error (sort_desc c).

(** [highest ? highest.id + 1 : 1] *)
Definition newId (c : list D) : Z :=
  match findOne_sort_desc c with
  | Some highest => js_succ (key highest)
  | None => 1
  end.

(** The unique index on the key refuses a second document with it. *)
Definition key_taken (k : Z) (c : list D) : bool :=
  existsb (fun d => key d =? k) c.

(** Replace the first document that matches the filter. *)
Fixpoint update_first (v : option Z) (d' : D) (c : list D) : list D :=
  match c with
  | [] => []
  | x :: c' => if matches v x then d' :: c' else x :: update_first v d' c'
  end.

(** [Model.findOneAndDelete({ k: v })]: drop the first match. *)
Fixpoint delete_first (v : option Z) (c : list D) : list D :=
  match c with
  | [] => []
  | x :: c' => if matches v x then c' else x :: delete_first v c'
  end.
End Collection.

Arguments matches {D} key v d.
Arguments findOne {D} key v c.
Arguments insert_desc {D} key d c.
Arguments sort_desc {D} key c.
Arguments findOne_sort_desc {D} key c.
Arguments newId {D} key c.
Arguments key_taken {D} key k c.
Arguments update_first {D} key v d' c.
Arguments delete_first {D} key v c.

(* ------------------------------------------------------------------ *)
(** ** Routes over numeric ids: patients, doctors, medicines *)

Module Numeric.

Local Open Scope string_scope.
Local Open Scope list_scope.
Local Open Scope Z_scope.

(** The User and Employee models of this family: the handlers below only
    read their [id]. *)
Module User.
Record t : Type := mk { id : Z }.
End User.

Module Employee.
Record t : Type := mk { id : Z }.
End Employee.

(** doctorSchema: id (unique), empId, charges, all required Numbers. *)
Module Doctor.
Record t : Type := mk { id : Z; empId : Z; charges : Z }.

Module Body.
Record t : Type := mk {
  id : option numarg; empId : option numarg; charges : option numarg
}.
End Body.

(** Schema validation of [Doctor.create({ id, empId, charges })]: the
    required paths are present and cast. *)
Definition validate (newId : Z) (b : Body.t) : option t :=
  match Body.empId b, Body.charges b with
  | Some (Num e), Some (Num c) => Some (mk newId e c)
  | _, _ => None
  end.

(** The casts [findOneAndUpdate] runs on the paths of [req.body]. *)
Definition casts (b : Body.t) : bool :=
  casts_num (Body.id b) && casts_num (Body.empId b) && casts_num (Body.charges b).

(** The [$set] that [findOneAndUpdate(filter, req.body)] applies. *)
Definition apply (b : Body.t) (d : t) : t :=
  mk (set_req (number (Body.id b)) (id d))
     (set_req (number (Body.empId b)) (empId d))
     (set_req (number (Body.charges b)) (charges d)).

(** [d'] differs from [d] on no path that [b] leaves out. *)
Definition frame (b : Body.t) (d d' : t) : Prop :=
  kept (Body.id b) (id d) (id d')
  /\ kept (Body.empId b) (empId d) (empId d')
  /\ kept (Body.charges b) (charges d) (charges d').
End Doctor.

(** medicineSchema: id (unique), name, price, all required. *)
Module Medicine.
Record t : Type := mk { id : Z; name : string; price : Z }.

Module Body.
Record t : Type := mk {
  id : option numarg; name : option string; price : option numarg
}.
End Body.

(** Schema validation of [Medicine.create({ id, name, price })]: a
    required String is present and not empty, a required Number is
    present and casts. *)
Definition validate (newId : Z) (b : Body.t) : option t :=
  match Body.name b, Body.price b with
  | Some n, Some (Num p) => if String.eqb n "" then None else Some (mk newId n p)
  | _, _ => None
  end.

Definition casts (b : Body.t) : bool :=
  casts_num (Body.id b) && casts_num (Body.price b).

(** The update validators ([runValidators: true]) on the paths of
    [req.body]: [required] refuses an empty [name]. *)
Definition valid (b : Body.t) : bool := not_empty (Body.name b).

Definition apply (b : Body.t) (m : t) : t :=
  mk (set_req (number (Body.id b)) (id m))
     (set_req (Body.name b) (name m))
     (set_req (number (Body.price b)) (price m)).

Definition frame (b : Body.t) (m m' : t) : Prop :=
  kept (Body.id b) (id m) (id m')
  /\ kept (Body.name b) (name m) (name m')
  /\ kept (Body.price b) (price m) (price m').
End Medicine.

(** patientSchema (hospital-api/models/Patient.js). *)
Module Patient.
Record t : Type := mk {
  id : Z;
  userId : Z;
  wardId : option Z;
  doctorId : Z;
  dateOfAdm : string;
  bloodGroup : string;
  dob : string;
  prescription : option string;
  bedAllocated : option Z;
  paymentStatus : string;
  patientProblem : string
}.

Module Body.
Record t : Type := mk {
  id : option numarg;
  userId : option numarg;
  wardId : option numarg;
  doctorId : option numarg;
  dateOfAdm : option datearg;
  bloodGroup : option string;
  dob : option datearg;
  prescription : option string;
  bedAllocated : option numarg;
  paymentStatus : option string;
  patientProblem : option string
}.
End Body.

Definition bloodGroups : list string :=
  ["A+"; "A-"; "B+"; "B-"; "AB+"; "AB-"; "O+"; "O-"].

Definition paymentStatuses : list string := ["pending"; "paid"; "partial"].

(** The enum validators, run on the paths a payload carries. *)
Definition enums_ok (b : Body.t) : bool :=
  match Body.bloodGroup b with Some g => in_enum bloodGroups g | None => true end
  && match Body.paymentStatus b with Some p => in_enum paymentStatuses p | None => true end.

(** Schema validation of [Patient.create({ id: newId, userId, ... })]:
    required paths present (a String not empty), every path cast to its
    type, enums respected, [paymentStatus] defaulting to ['pending']. *)
Definition validate (newId : Z) (b : Body.t) : option t :=
  match Body.userId b, Body.doctorId b, Body.dateOfAdm b,
        Body.bloodGroup b, Body.dob b, Body.patientProblem b with
  | Some (Num u), Some (Num d), Some (ADate adm), Some g, Some (ADate birth), Some problem =>
      if enums_ok b && negb (String.eqb problem "")
         && casts_num (Body.wardId b) && casts_num (Body.bedAllocated b)
      then
        Some (mk newId u (number (Body.wardId b)) d adm g birth
                 (Body.prescription b) (number (Body.bedAllocated b))
                 (set_req (Body.paymentStatus b) "pending") problem)
      else None
  | _, _, _, _, _, _ => None
  end.

(** The casts [findOneAndUpdate] runs on the paths of [req.body]. *)
Definition casts (b : Body.t) : bool :=
  casts_num (Body.id b) && casts_num (Body.userId b) && casts_num (Body.wardId b)
  && casts_num (Body.doctorId b) && casts_date (Body.dateOfAdm b)
  && casts_date (Body.dob b) && casts_num (Body.bedAllocated b).

(** The update validators on the paths of [req.body]: the enums, and
    [required] on [patientProblem] (an empty [bloodGroup] is outside its
    enum). *)
Definition valid (b : Body.t) : bool :=
  enums_ok b && not_empty (Body.patientProblem b).

Definition apply (b : Body.t) (p : t) : t :=
  mk (set_req (number (Body.id b)) (id p))
     (set_req (number (Body.userId b)) (userId p))
     (set_opt (number (Body.wardId b)) (wardId p))
     (set_req (number (Body.doctorId b)) (doctorId p))
     (set_req (date (Body.dateOfAdm b)) (dateOfAdm p))
     (set_req (Body.bloodGroup b) (bloodGroup p))
     (set_req (date (Body.dob b)) (dob p))
     (set_opt (Body.prescription b) (prescription p))
     (set_opt (number (Body.bedAllocated b)) (bedAllocated p))
     (set_req (Body.paymentStatus b) (paymentStatus p))
     (set_req (Body.patientProblem b) (patientProblem p)).

Definition frame (b : Body.t) (p p' : t) : Prop :=
  kept (Body.id b) (id p) (id p')
  /\ kept (Body.userId b) (userId p) (userId p')
  /\ kept (Body.wardId b) (wardId p) (wardId p')
  /\ kept (Body.doctorId b) (doctorId p) (doctorId p')
  /\ kept (Body.dateOfAdm b) (dateOfAdm p) (dateOfAdm p')
  /\ kept (Body.bloodGroup b) (bloodGroup p) (bloodGroup p')
  /\ kept (Body.dob b) (dob p) (dob p')
  /\ kept (Body.prescription b) (prescription p) (prescription p')
  /\ kept (Body.bedAllocated b) (bedAllocated p) (bedAllocated p')
  /\ kept (Body.paymentStatus b) (paymentStatus p) (paymentStatus p')
  /\ kept (Body.patientProblem b) (patientProblem p) (patientProblem p').
End Patient.

(** The database: one collection per model, in insertion order. *)
Record store : Type := Store {
  users : list User.t;
  employees : list Employee.t;
  doctors : list Doctor.t;
  patients : list Patient.t;
  medicines : list Medicine.t
}.

Definition set_doctors (f : list Doctor.t -> list Doctor.t) (st : store) : store :=
  Store (users st) (employees st) (f (doctors st)) (patients st) (medicines st).

Definition set_patients (f : list Patient.t -> list Patient.t) (st : store) : store :=
  Store (users st) (employees st) (doctors st) (f (patients st)) (medicines st).

Definition set_medicines (f : list Medicine.t -> list Medicine.t) (st : store) : store :=
  Store (users st) (employees st) (doctors st) (patients st) (f (medicines st)).

Local Open Scope handler_scope.

(** *** Model calls *)

(** The cast of a filter value on a Number path: a value that does not
    cast makes the query throw. *)
Definition cast_filter (v : option numarg) : M store (option Z) :=
  match v with
  | Some NotANumber => throw CastErrorOther
  | _ => ret (number v)
  end.

(** [Model.findOne({ k: v })] *)
Definition Model_findOne {D} (key : D -> Z) (coll : store -> list D)
    (v : option numarg) : M store (option D) :=
  x <- cast_filter v ;;
  gets (fun st => findOne key x (coll st)).

(** [Model.create(doc)]: schema validation, then the insert, which the
    unique index on [id] may refuse. *)
Definition create {D} (key : D -> Z) (coll : store -> list D)
    (set : (list D -> list D) -> store -> store)
    (doc : option D) : M store D :=
  match doc with
  | None => throw ValidationFailed
  | Some d =>
      c <- gets coll ;;
      if key_taken key (key d) c then throw DuplicateKey
      else modify (set (fun c => c ++ [d])) ;;; ret d
  end.

(** [Model.findOneAndUpdate({ id }, req.body, { new: true, runValidators: true })]:
    the filter and the update are cast and the update validators run;
    then [None] when nothing matches; otherwise the unique index is
    consulted when the [id] moves, and the first match is replaced. *)
Definition findOneAndUpdate {D} (key : D -> Z) (coll : store -> list D)
    (set : (list D -> list D) -> store -> store)
    (casts valid : bool) (patch : D -> D) (id : numarg) : M store (option D) :=
  i <- cast_filter (Some id) ;;
  if negb casts then throw CastErrorOther
  else if negb valid then throw ValidationFailed
  else
    c <- gets coll ;;
    match findOne key i c with
    | None => ret None
    | Some d =>
        let d' := patch d in
        if negb (key d' =? key d) && key_taken key (key d') c
        then throw DuplicateKey
        else modify (set (update_first key i d')) ;;; ret (Some d')
    end.

(** [Model.findOneAndDelete({ id })]. *)
Definition findOneAndDelete {D} (key : D -> Z)
    (set : (list D -> list D) -> store -> store) (id : numarg) : M store unit :=
  i <- cast_filter (Some id) ;;
  modify (set (delete_first key i)).

(** The [catch] block shared by every handler of this family. *)
Definition server_error {D} (e : exn) : response D :=
  Res 500 (ServerError (exn_message e)).

(** *** routes/patients.js *)

(** POST /api/patients, from [Patient.create] on. *)
Definition post_patients_create (newId : Z) (b : Patient.Body.t)
    : M store (response Patient.t) :=
  patient <- create Patient.id patients set_patients (Patient.validate newId b) ;;
  ret (Res 201 (Data patient)).

(** POST /api/patients *)
Definition post_patients_body (b : Patient.Body.t) : M store (response Patient.t) :=
  user <- Model_findOne User.id users (Patient.Body.userId b) ;;
  match user with
  | None => ret (Res 404 (Message "User not found"))
  | Some _ =>
      doctor <- Model_findOne Doctor.id doctors (Patient.Body.doctorId b) ;;
      match doctor with
      | None => ret (Res 404 (Message "Doctor not found"))
      | Some _ =>
          newId <- gets (fun st => newId Patient.id (patients st)) ;;
          post_patients_create newId b
      end
  end.

Definition post_patients (b : Patient.Body.t) : store -> response Patient.t * store :=
  try_catch (post_patients_body b) server_error.

(** PUT /api/patients/:id *)
Definition put_patients_body (id : numarg) (b : Patient.Body.t)
    : M store (response (option Patient.t)) :=
  patient <- Model_findOne Patient.id patients (Some id) ;;
  match patient with
  | None => ret (Res 404 (Message "Patient not found"))
  | Some _ =>
      doctor_missing <-
        (if truthy_num (Patient.Body.doctorId b) then
           doctor <- Model_findOne Doctor.id doctors (Patient.Body.doctorId b) ;;
           ret (negb (defined doctor))
         else ret false) ;;
      if doctor_missing then ret (Res 404 (Message "Doctor not found"))
      else
        updatedPatient <- findOneAndUpdate Patient.id patients set_patients
                            (Patient.casts b) (Patient.valid b) (Patient.apply b) id ;;
        ret (Res 200 (Data updatedPatient))
  end.

Definition put_patients (id : numarg) (b : Patient.Body.t)
    : store -> response (option Patient.t) * store :=
  try_catch (put_patients_body id b) server_error.

(** DELETE /api/patients/:id *)
Definition delete_patients_body (id : numarg) : M store (response Patient.t) :=
  patient <- Model_findOne Patient.id patients (Some id) ;;
  match patient with
  | None => ret (Res 404 (Message "Patient not found"))
  | Some _ =>
      findOneAndDelete Patient.id set_patients id ;;;
      ret (Res 200 (Message "Patient deleted successfully"))
  end.

Definition delete_patients (id : numarg) : store -> response Patient.t * store :=
  try_catch (delete_patients_body id) server_error.

(** *** routes/doctors.js *)

(** POST /api/doctors, from [Doctor.create] on. *)
Definition post_doctors_create (newId : Z) (b : Doctor.Body.t)
    : M store (response Doctor.t) :=
  doctor <- create Doctor.id doctors set_doctors (Doctor.validate newId b) ;;
  ret (Res 201 (Data doctor)).

(** POST /api/doctors, up to the check on [empId]: the answer the
    handler returns with there, if it does. *)
Definition post_doctors_checks (b : Doctor.Body.t)
    : M store (option (response Doctor.t)) :=
  employee <- Model_findOne Employee.id employees (Doctor.Body.empId b) ;;
  match employee with
  | None => ret (Some (Res 404 (Message "Employee not found")))
  | Some _ =>
      doctorExists <- Model_findOne Doctor.empId doctors (Doctor.Body.empId b) ;;
      match doctorExists with
      | Some _ =>
          ret (Some (Res 400 (Message "Doctor already exists with this employee ID")))
      | None => ret None
      end
  end.

(** POST /api/doctors, from the read of the highest id on. *)
Definition post_doctors_allocate (b : Doctor.Body.t) : M store (response Doctor.t) :=
  newId <- gets (fun st => newId Doctor.id (doctors st)) ;;
  post_doctors_create newId b.

(** POST /api/doctors *)
Definition post_doctors_body (b : Doctor.Body.t) : M store (response Doctor.t) :=
  returned <- post_doctors_checks b ;;
  match returned with
  | Some r => ret r
  | None => post_doctors_allocate b
  end.

Definition post_doctors (b : Doctor.Body.t) : store -> response Doctor.t * store :=
  try_catch (post_doctors_body b) server_error.

(** PUT /api/doctors/:id *)
Definition put_doctors_body (id : numarg) (b : Doctor.Body.t)
    : M store (response (option Doctor.t)) :=
  doctor <- Model_findOne Doctor.id doctors (Some id) ;;
  match doctor with
  | None => ret (Res 404 (Message "Doctor not found"))
  | Some _ =>
      updatedDoctor <- findOneAndUpdate Doctor.id doctors set_doctors
                         (Doctor.casts b) true (Doctor.apply b) id ;;
      ret (Res 200 (Data updatedDoctor))
  end.

Definition put_doctors (id : numarg) (b : Doctor.Body.t)
    : store -> response (option Doctor.t) * store :=
  try_catch (put_doctors_body id b) server_error.

(** DELETE /api/doctors/:id *)
Definition delete_doctors_body (id : numarg) : M store (response Doctor.t) :=
  doctor <- Model_findOne Doctor.id doctors (Some id) ;;
  match doctor with
  | None => ret (Res 404 (Message "Doctor not found"))
  | Some _ =>
      findOneAndDelete Doctor.id set_doctors id ;;;
      ret (Res 200 (Message "Doctor deleted successfully"))
  end.

Definition delete_doctors (id : numarg) : store -> response Doctor.t * store :=
  try_catch (delete_doctors_body id) server_error.

(** *** routes/employees.js (the medicines router) *)

(** POST /api/medicines, up to its first store call: the id it will use. *)
Definition post_medicines_newId : M store Z :=
  gets (fun st => newId Medicine.id (medicines st)).

(** POST /api/medicines, from [Medicine.create] on. *)
Definition post_medicines_create (newId : Z) (b : Medicine.Body.t)
    : M store (response Medicine.t) :=
  medicine <- create Medicine.id medicines set_medicines (Medicine.validate newId b) ;;
  ret (Res 201 (Data medicine)).

Definition post_medicines_body (b : Medicine.Body.t) : M store (response Medicine.t) :=
  newId <- post_medicines_newId ;;
  post_medicines_create newId b.

Definition post_medicines (b : Medicine.Body.t) : store -> response Medicine.t * store :=
  try_catch (post_medicines_body b) server_error.

(** PUT /api/medicines/:id *)
Definition put_medicines_body (id : numarg) (b : Medicine.Body.t)
    : M store (response (option Medicine.t)) :=
  medicine <- Model_findOne Medicine.id medicines (Some id) ;;
  match medicine with
  | None => ret (Res 404 (Message "Medicine not found"))
  | Some _ =>
      updatedMedicine <- findOneAndUpdate Medicine.id medicines set_medicines
                           (Medicine.casts b) (Medicine.valid b) (Medicine.apply b) id ;;
      ret (Res 200 (Data updatedMedicine))
  end.

Definition put_medicines (id : numarg) (b : Medicine.Body.t)
    : store -> response (option Medicine.t) * store :=
  try_catch (put_medicines_body id b) server_error.

(** DELETE /api/medicines/:id *)
Definition delete_medicines_body (id : numarg) : M store (response Medicine.t) :=
  medicine <- Model_findOne Medicine.id medicines (Some id) ;;
  match medicine with
  | None => ret (Res 404 (Message "Medicine not found"))
  | Some _ =>
      findOneAndDelete Medicine.id set_medicines id ;;;
      ret (Res 200 (Message "Medicine deleted successfully"))
  end.

Definition delete_medicines (id : numarg) : store -> response Medicine.t * store :=
  try_catch (delete_medicines_body id) server_error.

(** *** Requests and runs *)

Inductive entity : Type := EPatient | EDoctor | EMedicine.

Inductive request : Type :=
| PostPatients (b : Patient.Body.t)
| PutPatients (id : numarg) (b : Patient.Body.t)
| DeletePatients (id : numarg)
| PostDoctors (b : Doctor.Body.t)
| PutDoctors (id : numarg) (b : Doctor.Body.t)
| DeleteDoctors (id : numarg)
| PostMedicines (b : Medicine.Body.t)
| PutMedicines (id : numarg) (b : Medicine.Body.t)
| DeleteMedicines (id : numarg).

Definition entity_of (r : request) : entity :=
  match r with
  | PostPatients _ | PutPatients _ _ | DeletePatients _ => EPatient
  | PostDoctors _ | PutDoctors _ _ | DeleteDoctors _ => EDoctor
  | PostMedicines _ | PutMedicines _ _ | DeleteMedicines _ => EMedicine
  end.

(** The store a request leaves behind. *)
Definition handle (r : request) (st : store) : store :=
  match r with
  | PostPatients b => snd (post_patients b st)
  | PutPatients i b => snd (put_patients i b st)
  | DeletePatients i => snd (delete_patients i st)
  | PostDoctors b => snd (post_doctors b st)
  | PutDoctors i b => snd (put_doctors i b st)
  | DeleteDoctors i => snd (delete_doctors i st)
  | PostMedicines b => snd (post_medicines b st)
  | PutMedicines i b => snd (put_medicines i b st)
  | DeleteMedicines i => snd (delete_medicines i st)
  end.

(** Requests served one after the other. *)
Definition run (rs : list request) (st : store) : store :=
  fold_left (fun s r => handle r s) rs st.

(** The ids stored for an entity type. *)
Definition ids (e : entity) (st : store) : list Z :=
  match e with
  | EPatient => map Patient.id (patients st)
  | EDoctor => map Doctor.id (doctors st)
  | EMedicine => map Medicine.id (medicines st)
  end.

(** The id of the record a request creates, when it creates one. *)
Definition created_id (r : request) (st : store) : option Z :=
  match r with
  | PostPatients b =>
      match body (fst (post_patients b st)) with
      | Data p => Some (Patient.id p) | _ => None
      end
  | PostDoctors b =>
      match body (fst (post_doctors b st)) with
      | Data d => Some (Doctor.id d) | _ => None
      end
  | PostMedicines b =>
      match body (fst (post_medicines b st)) with
      | Data m => Some (Medicine.id m) | _ => None
      end
  | _ => None
  end.

(** The creating requests that pass the handler's lookups and carry a
    document the schema accepts (the schema does not look at the value
    of [id]). *)
Definition accepted (r : request) (st : store) : bool :=
  match r with
  | PostPatients b =>
      defined (findOne User.id (number (Patient.Body.userId b)) (users st))
      && defined (findOne Doctor.id (number (Patient.Body.doctorId b)) (doctors st))
      && defined (Patient.validate 0 b)
  | PostDoctors b =>
      defined (findOne Employee.id (number (Doctor.Body.empId b)) (employees st))
      && negb (defined (findOne Doctor.empId (number (Doctor.Body.empId b)) (doctors st)))
      && defined (Doctor.validate 0 b)
  | PostMedicines b => defined (Medicine.validate 0 b)
  | _ => false
  end.

(** Every stored patient's [doctorId] is the [id] of a stored doctor. *)
Definition patients_reference_doctors (st : store) : bool :=
  forallb (fun p => key_taken Doctor.id (Patient.doctorId p) (doctors st)) (patients st).

(** Requests that cannot detach a patient from its doctor: anything but
    a patient update carrying [doctorId: 0], a doctor update that moves
    the doctor's [id], and the deletion of a doctor some stored patient
    refers to. *)
Definition keeps_references (r : request) (st : store) : bool :=
  match r with
  | PutPatients _ b =>
      match Patient.Body.doctorId b with Some (Num d) => negb (d =? 0) | _ => true end
  | PutDoctors _ b => negb (defined (Doctor.Body.id b))
  | DeleteDoctors (Num i) =>
      negb (existsb (fun p => Patient.doctorId p =? i) (patients st))
  | _ => true
  end.

(** Two POST /api/medicines requests whose handlers both pass their
    first [await] (the read of the highest id) before either reaches
    [Medicine.create]. *)
Definition post_medicines_interleaved (b1 b2 : Medicine.Body.t)
    : store -> (response Medicine.t * response Medicine.t) * store :=
  fun st =>
    match post_medicines_newId st with
    | (inl id1, st) =>
        match post_medicines_newId st with
        | (inl id2, st) =>
            let (r1, st) := try_catch (post_medicines_create id1 b1) server_error st in
            let (r2, st) := try_catch (post_medicines_create id2 b2) server_error st in
            ((r1, r2), st)
        | (inr e, st) => ((server_error e, server_error e), st)
        end
    | (inr e, st) => ((server_error e, server_error e), st)
    end.


(** *** Reads *)

(** GET /api/patients/:id *)
Definition get_patients_id_body (id : numarg) : M store (response Patient.t) :=
  patient <- Model_findOne Patient.id patients (Some id) ;;
  match patient with
  | None => ret (Res 404 (Message "Patient not found"))
  | Some p => ret (Res 200 (Data p))
  end.

Definition get_patients_id (id : numarg) : store -> response Patient.t * store :=
  try_catch (get_patients_id_body id) server_error.

(** GET /api/patients/doctor/:doctorId: [Patient.find({ doctorId })],
    answered with its length as [count]. *)
Definition get_patients_doctor_body (doctorId : numarg)
    : M store (response (nat * list Patient.t)) :=
  d <- cast_filter (Some doctorId) ;;
  found <- gets (fun st => filter (matches Patient.doctorId d) (patients st)) ;;
  ret (Res 200 (Data (List.length found, found))).

Definition get_patients_doctor (doctorId : numarg)
    : store -> response (nat * list Patient.t) * store :=
  try_catch (get_patients_doctor_body doctorId) server_error.

(** GET /api/doctors/:id *)
Definition get_doctors_id_body (id : numarg) : M store (response Doctor.t) :=
  doctor <- Model_findOne Doctor.id doctors (Some id) ;;
  match doctor with
  | None => ret (Res 404 (Message "Doctor not found"))
  | Some d => ret (Res 200 (Data d))
  end.

Definition get_doctors_id (id : numarg) : store -> response Doctor.t * store :=
  try_catch (get_doctors_id_body id) server_error.

(** GET /api/medicines/:id *)
Definition get_medicines_id_body (id : numarg) : M store (response Medicine.t) :=
  medicine <- Model_findOne Medicine.id medicines (Some id) ;;
  match medicine with
  | None => ret (Res 404 (Message "Medicine not found"))
  | Some m => ret (Res 200 (Data m))
  end.

Definition get_medicines_id (id : numarg) : store -> response Medicine.t * store :=
  try_catch (get_medicines_id_body id) server_error.

(** Payloads that carry no field. *)
Definition no_patient_fields : Patient.Body.t :=
  Patient.Body.mk None None None None None None None None None None None.

Definition no_doctor_fields : Doctor.Body.t := Doctor.Body.mk None None None.

Definition no_medicine_fields : Medicine.Body.t := Medicine.Body.mk None None None.

End Numeric.

(* ------------------------------------------------------------------ *)
(** ** Routes over Mongo [_id]s: wards, doctor visits, medicines assigned *)

Module Keyed.

Local Open Scope string_scope.
Local Open Scope list_scope.
Local Open Scope Z_scope.
Local Open Scope handler_scope.

(** An ObjectId. *)
Definition oid : Type := N.
Bind Scope N_scope with oid.

(** What a request puts where an ObjectId is expected: a string that
    casts to one, or one that does not. *)
Inductive idarg : Type := Oid (o : oid) | Malformed.

(** Every Mongoose document has an [_id]. *)
Class Document (D : Type) : Type := doc_id : D -> oid.

(** The Patient, Doctor and Medicine models these routers require: the
    handlers only test that a document with a given [_id] exists.  The
    documents of the three written models are carried with the paths
    the routers read and write ([pat_id], [medicine_qty], [max_cap],
    ...): what a route passes to [new Model(..)] and assigns before
    [save].  Whether [save] accepts such a document is the schema's
    say, see [schemas] and [repository_schemas] below. *)
Module Patient.
Record t : Type := mk { _id : oid }.
End Patient.

Module Doctor.
Record t : Type := mk { _id : oid }.
End Doctor.

Module Medicine.
Record t : Type := mk { _id : oid }.
End Medicine.

(** Ward documents, with the paths the wards router reads and writes
    (wardSchema itself declares [id], [type], [charges],
    [availability], [maxCap] and [currentOccupancy]). *)
Module Ward.
Record t : Type := mk {
  _id : oid; type : string; charges : Z; availability : bool; max_cap : Z
}.

Module Body.
Record t : Type := mk {
  type : option string; charges : option Z;
  availability : option bool; max_cap : option Z
}.
End Body.

(** [new Ward({ type, charges, availability, max_cap })] *)
Definition make (i : oid) (b : Body.t) : option t :=
  match Body.type b, Body.charges b, Body.availability b, Body.max_cap b with
  | Some ty, Some c, Some a, Some m => Some (mk i ty c a m)
  | _, _, _, _ => None
  end.

(** The four conditional assignments of PUT api/wards/:id. *)
Definition assign (b : Body.t) (w : t) : t :=
  let ty := if truthy_str (Body.type b) then set_req (Body.type b) (type w) else type w in
  let c := if defined (Body.charges b) then set_req (Body.charges b) (charges w) else charges w in
  let a := if defined (Body.availability b)
           then set_req (Body.availability b) (availability w) else availability w in
  let m := if defined (Body.max_cap b) then set_req (Body.max_cap b) (max_cap w) else max_cap w in
  mk (_id w) ty c a m.

(** [w'] is the same document as [w] and differs from it on no path
    that [b] leaves out. *)
Definition frame (b : Body.t) (w w' : t) : Prop :=
  _id w' = _id w
  /\ kept (Body.type b) (type w) (type w')
  /\ kept (Body.charges b) (charges w) (charges w')
  /\ kept (Body.availability b) (availability w) (availability w')
  /\ kept (Body.max_cap b) (max_cap w) (max_cap w').
End Ward.

(** Doctor visit documents as the router builds them: pat_id,
    doctor_id, visits (doctorVisitSchema declares [patId], [doctorId],
    a Number [visits], [visitDate] and [remarks]). *)
Module DoctorVisit.
Record t : Type := mk { _id : oid; pat_id : oid; doctor_id : oid; visits : string }.

Module Body.
Record t : Type := mk {
  pat_id : option idarg; doctor_id : option idarg; visits : option string
}.
End Body.

(** [new DoctorVisit({ pat_id, doctor_id, visits })] *)
Definition make (i : oid) (pat_id doctor_id : option idarg) (visits : option string)
    : option t :=
  match pat_id, doctor_id, visits with
  | Some (Oid p), Some (Oid d), Some v => Some (mk i p d v)
  | _, _, _ => None
  end.

(** [if (req.body.visits) visit.visits = req.body.visits] *)
Definition assign (b : Body.t) (v : t) : t :=
  mk (_id v) (pat_id v) (doctor_id v)
     (if truthy_str (Body.visits b) then set_req (Body.visits b) (visits v) else visits v).

Definition frame (b : Body.t) (v v' : t) : Prop :=
  _id v' = _id v
  /\ kept (Body.pat_id b) (pat_id v) (pat_id v')
  /\ kept (Body.doctor_id b) (doctor_id v) (doctor_id v')
  /\ kept (Body.visits b) (visits v) (visits v').
End DoctorVisit.

(** Medicine assignment documents as the router builds them: pat_id,
    medicine_id, prescription, medicine_qty (medicineAssignedSchema
    declares [patId], [medicineId], [prescription] and [medicineQty]). *)
Module MedicineAssigned.
Record t : Type := mk {
  _id : oid; pat_id : oid; medicine_id : oid; prescription : string; medicine_qty : Z
}.

Module Body.
Record t : Type := mk {
  pat_id : option idarg; medicine_id : option idarg;
  prescription : option string; medicine_qty : option Z
}.
End Body.

(** [new MedicineAssigned({ pat_id, medicine_id, prescription, medicine_qty })] *)
Definition make (i : oid) (pat_id medicine_id : option idarg)
    (prescription : option string) (medicine_qty : option Z) : option t :=
  match pat_id, medicine_id, prescription, medicine_qty with
  | Some (Oid p), Some (Oid m), Some rx, Some q => Some (mk i p m rx q)
  | _, _, _, _ => None
  end.

(** [existingAssignment.medicine_qty += medicine_qty;
     existingAssignment.prescription = prescription] *)
Definition merge (existing : t) (new_prescription : option string)
    (new_medicine_qty : option Z) : option t :=
  match new_prescription, new_medicine_qty with
  | Some rx, Some q =>
      Some (mk (_id existing) (pat_id existing) (medicine_id existing)
               rx (medicine_qty existing + q))
  | _, _ => None
  end.

(** The two conditional assignments of PUT api/medicinesassigned/:id. *)
Definition assign (b : Body.t) (a : t) : t :=
  let rx := if truthy_str (Body.prescription b)
            then set_req (Body.prescription b) (prescription a) else prescription a in
  let q := if defined (Body.medicine_qty b)
           then set_req (Body.medicine_qty b) (medicine_qty a) else medicine_qty a in
  mk (_id a) (pat_id a) (medicine_id a) rx q.

Definition frame (b : Body.t) (a a' : t) : Prop :=
  _id a' = _id a
  /\ kept (Body.pat_id b) (pat_id a) (pat_id a')
  /\ kept (Body.medicine_id b) (medicine_id a) (medicine_id a')
  /\ kept (Body.prescription b) (prescription a) (prescription a')
  /\ kept (Body.medicine_qty b) (medicine_qty a) (medicine_qty a').
End MedicineAssigned.

#[export] Instance Patient_Document : Document Patient.t := Patient._id.
#[export] Instance Doctor_Document : Document Doctor.t := Doctor._id.
#[export] Instance Medicine_Document : Document Medicine.t := Medicine._id.
#[export] Instance Ward_Document : Document Ward.t := Ward._id.
#[export] Instance DoctorVisit_Document : Document DoctorVisit.t := DoctorVisit._id.
#[export] Instance MedicineAssigned_Document : Document MedicineAssigned.t :=
  MedicineAssigned._id.

(** The database, and the counter behind freshly generated ObjectIds. *)
Record store : Type := Store {
  patients : list Patient.t;
  doctors : list Doctor.t;
  medicines : list Medicine.t;
  wards : list Ward.t;
  visits : list DoctorVisit.t;
  assigned : list MedicineAssigned.t;
  next_oid : oid
}.

Definition set_wards (f : list Ward.t -> list Ward.t) (st : store) : store :=
  Store (patients st) (doctors st) (medicines st) (f (wards st)) (visits st)
        (assigned st) (next_oid st).

Definition set_visits (f : list DoctorVisit.t -> list DoctorVisit.t) (st : store) : store :=
  Store (patients st) (doctors st) (medicines st) (wards st) (f (visits st))
        (assigned st) (next_oid st).

Definition set_assigned (f : list MedicineAssigned.t -> list MedicineAssigned.t)
    (st : store) : store :=
  Store (patients st) (doctors st) (medicines st) (wards st) (visits st)
        (f (assigned st)) (next_oid st).

(** The [_id] a document gets when it is constructed. *)
Definition ObjectId : M store oid :=
  n <- gets next_oid ;;
  modify (fun st => Store (patients st) (doctors st) (medicines st) (wards st)
                          (visits st) (assigned st) (N.succ n)) ;;;
  ret n.

(** *** Model calls *)

Section Model.
Context {D : Type} `{Document D}.
Variable coll : store -> list D.
Variable set : (list D -> list D) -> store -> store.
(** What the model's schema accepts on [save]. *)
Variable schema_ok : D -> bool.

Definition has_id (o : oid) (d : D) : bool := N.eqb (doc_id d) o.

(** [Model.findById(x)]: a string that is no ObjectId makes the cast
    throw; an undefined argument finds nothing. *)
Definition findById (x : option idarg) : M store (option D) :=
  match x with
  | Some (Oid o) => gets (fun st => find (has_id o) (coll st))
  | Some Malformed => throw CastError
  | None => ret None
  end.

(** [doc.save()] on a document built with [new Model(..)]; [None] is
    a document with a required path left undefined. *)
Definition insert (doc : option D) : M store D :=
  match doc with
  | None => throw ValidationFailed
  | Some d =>
      if schema_ok d then modify (set (fun c => c ++ [d])) ;;; ret d
      else throw ValidationFailed
  end.

Fixpoint replace_by_id (d' : D) (c : list D) : list D :=
  match c with
  | [] => []
  | x :: c' => if has_id (doc_id d') x then d' :: c' else x :: replace_by_id d' c'
  end.

(** [doc.save()] on a document loaded from the collection. *)
Definition save (doc : option D) : M store D :=
  match doc with
  | None => throw ValidationFailed
  | Some d =>
      if schema_ok d then modify (set (replace_by_id d)) ;;; ret d
      else throw ValidationFailed
  end.

Fixpoint remove_by_id (o : oid) (c : list D) : list D :=
  match c with
  | [] => []
  | x :: c' => if has_id o x then c' else x :: remove_by_id o c'
  end.

(** [doc.remove()] *)
Definition remove (d : D) : M store unit :=
  modify (set (remove_by_id (doc_id d))).
End Model.

(** [validationResult(req)] collects one message per failed check. *)
Definition check (passes : bool) (message : string) : list string :=
  if passes then [] else [message].

(** [.not().isEmpty()]: present and not the empty string. *)
Definition notEmpty_id (v : option idarg) : bool := defined v.
Definition notEmpty (v : option string) : bool := truthy_str v.

(** [.optional().not().isEmpty()]: absent, or not the empty string. *)
Definition optional_notEmpty (v : option string) : bool :=
  negb (defined v) || truthy_str v.

Definition isEmpty {A} (l : list A) : bool :=
  match l with [] => true | _ :: _ => false end.

(** The [catch] block of the POST handlers. *)
Definition server_error {D} (e : exn) : response D :=
  Res 500 (ServerError "Server Error").

(** The [catch] block of the PUT and DELETE handlers:
    [if (err.kind === 'ObjectId') return 404 ...; res.status(500)...]. *)
Definition not_found_or_server_error {D} (msg : string) (e : exn) : response D :=
  match e with
  | CastError => Res 404 (Message msg)
  | _ => Res 500 (ServerError "Server Error")
  end.

(** What the Mongoose schemas of the three written models accept on
    [save], and which strings cast to the type the DoctorVisit schema
    gives the path [visits] (all of them for a String path; for a Number
    path those that Mongoose's cast, which is not among the sources,
    reads as a number). *)
Record schemas : Type := Schemas {
  ward_ok : Ward.t -> bool;
  visit_ok : DoctorVisit.t -> bool;
  assigned_ok : MedicineAssigned.t -> bool;
  visits_casts : string -> bool
}.

(** The schemas of the repository's models directory.  wardSchema
    requires [id] and [maxCap], doctorVisitSchema [patId] and
    [doctorId], medicineAssignedSchema [patId], [medicineId] and
    [medicineQty]; the routers name the paths [max_cap], [pat_id],
    [doctor_id], [medicine_id] and [medicine_qty], which a strict schema
    drops.  Every document of the three types above therefore lacks a
    required path, and validation refuses each of them.  [visits] is a
    Number path; [numeric] tells which strings cast to a Number. *)
Definition repository_schemas (numeric : string -> bool) : schemas :=
  Schemas (fun _ => false) (fun _ => false) (fun _ => false) numeric.

(** The filter [{ pat_id, medicine_id }] and the filter
    [{ pat_id, doctor_id, visits }] on stored documents. *)
Definition assigned_to (p m : oid) (a : MedicineAssigned.t) : bool :=
  N.eqb (MedicineAssigned.pat_id a) p && N.eqb (MedicineAssigned.medicine_id a) m.

Definition visit_is (p d : oid) (v : string) (x : DoctorVisit.t) : bool :=
  N.eqb (DoctorVisit.pat_id x) p && N.eqb (DoctorVisit.doctor_id x) d
  && String.eqb (DoctorVisit.visits x) v.

Section Handlers.
Variable sch : schemas.

(** The inline role tests. *)
Definition not_doctor_admin_staff (role : string) : bool :=
  negb (String.eqb role "doctor") && negb (String.eqb role "admin")
  && negb (String.eqb role "staff").

Definition not_admin (role : string) : bool := negb (String.eqb role "admin").

(** *** The medicines-assigned router *)

(** [MedicineAssigned.findOne({ pat_id, medicine_id })], on the
    documents as the router builds them.  (The schema declares neither
    path; what Mongoose then does with the filter depends on its
    [strictQuery] setting, and is immaterial on an empty collection,
    which is all a run of requests ever sees under
    [repository_schemas].) *)
Definition findOne_assignment (pat_id medicine_id : option idarg)
    : M store (option MedicineAssigned.t) :=
  match pat_id, medicine_id with
  | Some Malformed, _ | _, Some Malformed => throw CastError
  | Some (Oid p), Some (Oid m) =>
      gets (fun st => find (assigned_to p m) (assigned st))
  | _, _ => ret None
  end.

(** POST api/medicinesassigned: the checks of the route. *)
Definition post_assigned_validation (b : MedicineAssigned.Body.t) : list string :=
  check (notEmpty_id (MedicineAssigned.Body.pat_id b)) "Patient ID is required"
  ++ check (notEmpty_id (MedicineAssigned.Body.medicine_id b)) "Medicine ID is required"
  ++ check (notEmpty (MedicineAssigned.Body.prescription b))
           "Prescription details are required"
  ++ check (defined (MedicineAssigned.Body.medicine_qty b)) "Medicine quantity is required".

(** POST api/medicinesassigned: the [try] block. *)
Definition post_assigned_body (role : string) (pat_id medicine_id : option idarg)
    (prescription : option string) (medicine_qty : option Z)
    : M store (response (option MedicineAssigned.t)) :=
  if not_doctor_admin_staff role
  then ret (Res 401 (Message "Not authorized to assign medicines"))
  else
    patient <- findById patients pat_id ;;
    match patient with
    | None => ret (Res 404 (Message "Patient not found"))
    | Some _ =>
        medicine <- findById medicines medicine_id ;;
        match medicine with
        | None => ret (Res 404 (Message "Medicine not found"))
        | Some _ =>
            existingAssignment <- findOne_assignment pat_id medicine_id ;;
            match existingAssignment with
            | Some existing =>
                save set_assigned (assigned_ok sch)
                     (MedicineAssigned.merge existing prescription medicine_qty) ;;;
                populatedAssignment <-
                  findById assigned (Some (Oid (MedicineAssigned._id existing))) ;;
                ret (Res 200 (Data populatedAssignment))
            | None =>
                i <- ObjectId ;;
                assignment <-
                  insert set_assigned (assigned_ok sch)
                         (MedicineAssigned.make i pat_id medicine_id prescription
                                                medicine_qty) ;;
                populatedAssignment <-
                  findById assigned (Some (Oid (MedicineAssigned._id assignment))) ;;
                ret (Res 200 (Data populatedAssignment))
            end
        end
    end.

Definition post_assigned (role : string) (b : MedicineAssigned.Body.t)
    : store -> response (option MedicineAssigned.t) * store :=
  fun st =>
    let errors := post_assigned_validation b in
    if negb (isEmpty errors) then (Res 400 (Errors errors), st)
    else
      try_catch (post_assigned_body role
                   (MedicineAssigned.Body.pat_id b) (MedicineAssigned.Body.medicine_id b)
                   (MedicineAssigned.Body.prescription b)
                   (MedicineAssigned.Body.medicine_qty b))
                server_error st.

(** PUT api/medicinesassigned/:id.  Of its two optional checks only the
    one on [prescription] can fail on a typed payload. *)
Definition put_assigned_validation (b : MedicineAssigned.Body.t) : list string :=
  check (optional_notEmpty (MedicineAssigned.Body.prescription b))
        "Prescription details are required".

Definition put_assigned_body (role : string) (id : idarg) (b : MedicineAssigned.Body.t)
    : M store (response (option MedicineAssigned.t)) :=
  if not_doctor_admin_staff role
  then ret (Res 401 (Message "Not authorized to update medicine assignments"))
  else
    assignment <- findById assigned (Some id) ;;
    match assignment with
    | None => ret (Res 404 (Message "Medicine assignment not found"))
    | Some a =>
        let a' := MedicineAssigned.assign b a in
        save set_assigned (assigned_ok sch) (Some a') ;;;
        populatedAssignment <- findById assigned (Some (Oid (MedicineAssigned._id a'))) ;;
        ret (Res 200 (Data populatedAssignment))
    end.

Definition put_assigned (role : string) (id : idarg) (b : MedicineAssigned.Body.t)
    : store -> response (option MedicineAssigned.t) * store :=
  fun st =>
    let errors := put_assigned_validation b in
    if negb (isEmpty errors) then (Res 400 (Errors errors), st)
    else
      try_catch (put_assigned_body role id b)
                (not_found_or_server_error "Medicine assignment not found") st.

(** DELETE api/medicinesassigned/:id *)
Definition delete_assigned_body (role : string) (id : idarg)
    : M store (response (option MedicineAssigned.t)) :=
  if not_doctor_admin_staff role
  then ret (Res 401 (Message "Not authorized to delete medicine assignments"))
  else
    assignment <- findById assigned (Some id) ;;
    match assignment with
    | None => ret (Res 404 (Message "Medicine assignment not found"))
    | Some a =>
        remove set_assigned a ;;;
        ret (Res 200 (Message "Medicine assignment removed"))
    end.

Definition delete_assigned (role : string) (id : idarg)
    : store -> response (option MedicineAssigned.t) * store :=
  try_catch (delete_assigned_body role id)
            (not_found_or_server_error "Medicine assignment not found").

(** *** routes/doctorVisits.js *)

(** [DoctorVisit.findOne({ pat_id, doctor_id, visits: visits })]: the
    filter value of [visits], a path of the schema, is cast to the type
    of the path; [pat_id] and [doctor_id] are as in [findOne_assignment]. *)
Definition findOne_visit (pat_id doctor_id : option idarg) (visits' : option string)
    : M store (option DoctorVisit.t) :=
  match pat_id, doctor_id, visits' with
  | Some Malformed, _, _ | _, Some Malformed, _ => throw CastError
  | Some (Oid p), Some (Oid d), Some v =>
      if visits_casts sch v then gets (fun st => find (visit_is p d v) (visits st))
      else throw CastErrorOther
  | _, _, _ => ret None
  end.

Definition post_visits_validation (b : DoctorVisit.Body.t) : list string :=
  check (notEmpty_id (DoctorVisit.Body.pat_id b)) "Patient ID is required"
  ++ check (notEmpty_id (DoctorVisit.Body.doctor_id b)) "Doctor ID is required"
  ++ check (notEmpty (DoctorVisit.Body.visits b)) "Visit information is required".

(** POST api/doctorvisits: the [try] block.  The caller's role is not
    consulted. *)
Definition post_visits_body (role : string) (pat_id doctor_id : option idarg)
    (visits' : option string) : M store (response (option DoctorVisit.t)) :=
  patient <- findById patients pat_id ;;
  match patient with
  | None => ret (Res 404 (Message "Patient not found"))
  | Some _ =>
      doctor <- findById doctors doctor_id ;;
      match doctor with
      | None => ret (Res 404 (Message "Doctor not found"))
      | Some _ =>
          existingVisit <- findOne_visit pat_id doctor_id visits' ;;
          match existingVisit with
          | Some _ => ret (Res 400 (Message "This visit record already exists"))
          | None =>
              i <- ObjectId ;;
              visit <- insert set_visits (visit_ok sch)
                              (DoctorVisit.make i pat_id doctor_id visits') ;;
              populatedVisit <- findById visits (Some (Oid (DoctorVisit._id visit))) ;;
              ret (Res 200 (Data populatedVisit))
          end
      end
  end.

Definition post_visits (role : string) (b : DoctorVisit.Body.t)
    : store -> response (option DoctorVisit.t) * store :=
  fun st =>
    let errors := post_visits_validation b in
    if negb (isEmpty errors) then (Res 400 (Errors errors), st)
    else
      try_catch (post_visits_body role (DoctorVisit.Body.pat_id b)
                   (DoctorVisit.Body.doctor_id b) (DoctorVisit.Body.visits b))
                server_error st.

(** PUT api/doctorvisits/:id *)
Definition put_visits_validation (b : DoctorVisit.Body.t) : list string :=
  check (optional_notEmpty (DoctorVisit.Body.visits b)) "Visit information is required".

Definition put_visits_body (role : string) (id : idarg) (b : DoctorVisit.Body.t)
    : M store (response (option DoctorVisit.t)) :=
  visit <- findById visits (Some id) ;;
  match visit with
  | None => ret (Res 404 (Message "Visit record not found"))
  | Some v =>
      if not_doctor_admin_staff role
      then ret (Res 401 (Message "Not authorized to update visit records"))
      else
        let v' := DoctorVisit.assign b v in
        save set_visits (visit_ok sch) (Some v') ;;;
        populatedVisit <- findById visits (Some (Oid (DoctorVisit._id v'))) ;;
        ret (Res 200 (Data populatedVisit))
  end.

Definition put_visits (role : string) (id : idarg) (b : DoctorVisit.Body.t)
    : store -> response (option DoctorVisit.t) * store :=
  fun st =>
    let errors := put_visits_validation b in
    if negb (isEmpty errors) then (Res 400 (Errors errors), st)
    else
      try_catch (put_visits_body role id b)
                (not_found_or_server_error "Visit record not found") st.

(** DELETE api/doctorvisits/:id *)
Definition delete_visits_body (role : string) (id : idarg)
    : M store (response (option DoctorVisit.t)) :=
  if not_admin role
  then ret (Res 401 (Message "Not authorized to delete visit records"))
  else
    visit <- findById visits (Some id) ;;
    match visit with
    | None => ret (Res 404 (Message "Visit record not found"))
    | Some v =>
        remove set_visits v ;;;
        ret (Res 200 (Message "Visit record removed"))
    end.

Definition delete_visits (role : string) (id : idarg)
    : store -> response (option DoctorVisit.t) * store :=
  try_catch (delete_visits_body role id)
            (not_found_or_server_error "Visit record not found").

(** *** The wards router (second half of routes/doctors.js) *)

Definition post_wards_validation (b : Ward.Body.t) : list string :=
  check (notEmpty (Ward.Body.type b)) "Ward type is required"
  ++ check (defined (Ward.Body.charges b)) "Charges must be a number"
  ++ check (defined (Ward.Body.availability b)) "Availability status is required"
  ++ check (defined (Ward.Body.max_cap b)) "Maximum capacity must be a number".

(** POST api/wards *)
Definition post_wards_body (role : string) (b : Ward.Body.t)
    : M store (response (option Ward.t)) :=
  if not_admin role
  then ret (Res 401 (Message "Not authorized to add wards"))
  else
    i <- ObjectId ;;
    ward <- insert set_wards (ward_ok sch) (Ward.make i b) ;;
    ret (Res 200 (Data (Some ward))).

Definition post_wards (role : string) (b : Ward.Body.t)
    : store -> response (option Ward.t) * store :=
  fun st =>
    let errors := post_wards_validation b in
    if negb (isEmpty errors) then (Res 400 (Errors errors), st)
    else try_catch (post_wards_body role b) server_error st.

(** Of the four optional checks only the one on [type] can fail on a
    typed payload. *)
Definition put_wards_validation (b : Ward.Body.t) : list string :=
  check (optional_notEmpty (Ward.Body.type b)) "Ward type is required".

(** PUT api/wards/:id *)
Definition put_wards_body (role : string) (id : idarg) (b : Ward.Body.t)
    : M store (response (option Ward.t)) :=
  if not_admin role
  then ret (Res 401 (Message "Not authorized to update wards"))
  else
    ward <- findById wards (Some id) ;;
    match ward with
    | None => ret (Res 404 (Message "Ward not found"))
    | Some w =>
        let w' := Ward.assign b w in
        save set_wards (ward_ok sch) (Some w') ;;;
        ret (Res 200 (Data (Some w')))
    end.

Definition put_wards (role : string) (id : idarg) (b : Ward.Body.t)
    : store -> response (option Ward.t) * store :=
  fun st =>
    let errors := put_wards_validation b in
    if negb (isEmpty errors) then (Res 400 (Errors errors), st)
    else try_catch (put_wards_body role id b)
                   (not_found_or_server_error "Ward not found") st.

(** DELETE api/wards/:id *)
Definition delete_wards_body (role : string) (id : idarg)
    : M store (response (option Ward.t)) :=
  if not_admin role
  then ret (Res 401 (Message "Not authorized to delete wards"))
  else
    ward <- findById wards (Some id) ;;
    match ward with
    | None => ret (Res 404 (Message "Ward not found"))
    | Some w =>
        remove set_wards w ;;;
        ret (Res 200 (Message "Ward removed"))
    end.

Definition delete_wards (role : string) (id : idarg)
    : store -> response (option Ward.t) * store :=
  try_catch (delete_wards_body role id) (not_found_or_server_error "Ward not found").

(** *** Requests and runs *)

(** [Elsewhere]: the routers that own the Patient, Doctor and
    Medicine collections of this family change them at will. *)
Inductive request : Type :=
| PostAssigned (role : string) (b : MedicineAssigned.Body.t)
| PutAssigned (role : string) (id : idarg) (b : MedicineAssigned.Body.t)
| DeleteAssigned (role : string) (id : idarg)
| PostVisits (role : string) (b : DoctorVisit.Body.t)
| PutVisits (role : string) (id : idarg) (b : DoctorVisit.Body.t)
| DeleteVisits (role : string) (id : idarg)
| PostWards (role : string) (b : Ward.Body.t)
| PutWards (role : string) (id : idarg) (b : Ward.Body.t)
| DeleteWards (role : string) (id : idarg)
| Elsewhere (ps : list Patient.t) (ds : list Doctor.t) (ms : list Medicine.t).

Definition handle (r : request) (st : store) : store :=
  match r with
  | PostAssigned role b => snd (post_assigned role b st)
  | PutAssigned role id b => snd (put_assigned role id b st)
  | DeleteAssigned role id => snd (delete_assigned role id st)
  | PostVisits role b => snd (post_visits role b st)
  | PutVisits role id b => snd (put_visits role id b st)
  | DeleteVisits role id => snd (delete_visits role id st)
  | PostWards role b => snd (post_wards role b st)
  | PutWards role id b => snd (put_wards role id b st)
  | DeleteWards role id => snd (delete_wards role id st)
  | Elsewhere ps ds ms =>
      Store ps ds ms (wards st) (visits st) (assigned st) (next_oid st)
  end.

Definition run (rs : list request) (st : store) : store :=
  fold_left (fun s r => handle r s) rs st.

Definition empty : store := Store [] [] [] [] [] [] 0%N.

(** The stores the API can be in: those a run from the empty
    database ends in. *)
Definition reachable (st : store) : Prop := exists rs, run rs empty = st.

(** *** Reads of the wards router *)

(** GET api/wards/:id *)
Definition get_wards_id_body (id : idarg) : M store (response (option Ward.t)) :=
  ward <- findById wards (Some id) ;;
  match ward with
  | None => ret (Res 404 (Message "Ward not found"))
  | Some w => ret (Res 200 (Data (Some w)))
  end.

Definition get_wards_id (id : idarg) : store -> response (option Ward.t) * store :=
  try_catch (get_wards_id_body id) (not_found_or_server_error "Ward not found").

(** GET api/wards/status/available: [Ward.find({ availability: true })] *)
Definition get_wards_available_body : M store (response (list Ward.t)) :=
  found <- gets (fun st => filter Ward.availability (wards st)) ;;
  ret (Res 200 (Data found)).

Definition get_wards_available : store -> response (list Ward.t) * store :=
  try_catch get_wards_available_body server_error.

End Handlers.

(** Payloads that carry no field. *)
Definition no_ward_fields : Ward.Body.t := Ward.Body.mk None None None None.

Definition no_visit_fields : DoctorVisit.Body.t := DoctorVisit.Body.mk None None None.

Definition no_assigned_fields : MedicineAssigned.Body.t :=
  MedicineAssigned.Body.mk None None None None.

End Keyed.

(* ------------------------------------------------------------------ *)
(** ** Sample data *)

Module Examples.

Local Open Scope string_scope.
Local Open Scope list_scope.
Local Open Scope Z_scope.

(** A patient admitted under id [i] to doctor [d]. *)
Definition admitted (i d : Z) : Numeric.Patient.t :=
  Numeric.Patient.mk i 1 None d "2024-03-01" "O+" "1990-01-01" None None "pending" "fever".

(** The body of an admission to doctor [d]. *)
Definition admission (d : Z) : Numeric.Patient.Body.t :=
  Numeric.Patient.Body.mk None (Some (Num 1)) None (Some (Num d))
    (Some (ADate "2024-03-01")) (Some "O+") (Some (ADate "1990-01-01"))
    None None None (Some "fever").

(** One user, one employee, and the given doctors and patients. *)
Definition clinic (ds : list Numeric.Doctor.t) (ps : list Numeric.Patient.t)
    : Numeric.store :=
  Numeric.Store [Numeric.User.mk 1] [Numeric.Employee.mk 1] ds ps [].

Definition hire (e c : Z) : Numeric.Doctor.Body.t :=
  Numeric.Doctor.Body.mk None (Some (Num e)) (Some (Num c)).

Definition drug (n : string) (p : Z) : Numeric.Medicine.Body.t :=
  Numeric.Medicine.Body.mk None (Some n) (Some (Num p)).

(** One medicine, with the given id. *)
Definition pharmacy (i : Z) : Numeric.store :=
  Numeric.Store [] [] [] [] [Numeric.Medicine.mk i "iodine" 3].

(** A cast of strings to Number that reads the decimal numerals
    (Mongoose's reads more, a sign or an exponent for one; no sample
    below carries such a string). *)
Definition decimal (s : string) : bool :=
  negb (String.eqb s "")
  && forallb (fun c => (48 <=? Ascii.nat_of_ascii c)%nat && (Ascii.nat_of_ascii c <=? 57)%nat)
             (list_ascii_of_string s).

(** The repository's schemas. *)
Definition schemas : Keyed.schemas := Keyed.repository_schemas decimal.

Definition prescribe (p m : Keyed.oid) (rx : string) (q : Z)
    : Keyed.MedicineAssigned.Body.t :=
  Keyed.MedicineAssigned.Body.mk (Some (Keyed.Oid p)) (Some (Keyed.Oid m)) (Some rx) (Some q).

Definition visit (p d : Keyed.oid) (v : string) : Keyed.DoctorVisit.Body.t :=
  Keyed.DoctorVisit.Body.mk (Some (Keyed.Oid p)) (Some (Keyed.Oid d)) (Some v).

(** A database holding patient 7, doctor 8 and medicine 9 and nothing
    else. *)
Definition ward_round : Keyed.store :=
  Keyed.handle schemas
    (Keyed.Elsewhere [Keyed.Patient.mk 7] [Keyed.Doctor.mk 8] [Keyed.Medicine.mk 9])
    Keyed.empty.

End Examples.

(* ------------------------------------------------------------------ *)
(** ** Facts about responses, numbers and collections with a numeric [id] *)

(** The failure kinds, by status code. *)
Lemma classify_NotFound {D} (r : response D) : classify r = NotFound <-> status r = 404.
Proof.
  unfold classify. split.
  - destruct (Z.eqb_spec (status r) 200); [discriminate|].
    destruct (Z.eqb_spec (status r) 201); [discriminate|].
    destruct (Z.eqb_spec (status r) 404); [auto|]. simpl.
    destruct (status r =? 401); [discriminate|].
    destruct (status r =? 400); [destruct (body r)|]; discriminate.
  - intros ->. reflexivity.
Qed.

Lemma classify_Forbidden {D} (r : response D) : classify r = Forbidden <-> status r = 401.
Proof.
  unfold classify. split.
  - destruct (Z.eqb_spec (status r) 200); [discriminate|].
    destruct (Z.eqb_spec (status r) 201); [discriminate|].
    destruct (Z.eqb_spec (status r) 404); [discriminate|]. simpl.
    destruct (Z.eqb_spec (status r) 401); [auto|].
    destruct (status r =? 400); [destruct (body r)|]; discriminate.
  - intros ->. reflexivity.
Qed.

Lemma classify_Conflict {D} (r : response D) :
  classify r = Conflict <-> status r = 400 /\ forall es, body r <> Errors es.
Proof.
  unfold classify. split.
  - destruct (Z.eqb_spec (status r) 200); [discriminate|].
    destruct (Z.eqb_spec (status r) 201); [discriminate|].
    destruct (Z.eqb_spec (status r) 404); [discriminate|]. simpl.
    destruct (Z.eqb_spec (status r) 401); [discriminate|].
    destruct (Z.eqb_spec (status r) 400); [|discriminate].
    destruct (body r); try discriminate; intros _; split; auto; discriminate.
  - intros [-> N]. simpl. destruct (body r) eqn:B; try reflexivity.
    exfalso. exact (N es eq_refl).
Qed.

Lemma classify_Unexpected_500 {D} (r : response D) : status r = 500 -> classify r = Unexpected.
Proof. unfold classify. intros ->. reflexivity. Qed.

Lemma NoDup_snoc {A} (l : list A) (x : A) : NoDup l -> ~ In x l -> NoDup (l ++ [x]).
Proof.
  intros ND Hx. apply (Permutation_NoDup (l := x :: l)).
  - apply Permutation_cons_append.
  - constructor; assumption.
Qed.

Lemma js_succ_ge (n : Z) : n <= js_succ n.
Proof.
  unfold js_succ.
  destruct ((- 2 ^ 53 <=? n) && (n <? 2 ^ 53)); [lia|].
  destruct (Z.abs n <=? 2 ^ 54); [|lia].
  destruct (Z.even (Z.abs n / 2)); lia.
Qed.

(** On the safe integers JavaScript's [n + 1] is the integer [n + 1]. *)
Lemma js_succ_safe (n : Z) : safe n = true -> js_succ n = n + 1.
Proof.
  unfold safe, js_succ. intros S. apply Z.ltb_lt in S.
  assert (L : (- 2 ^ 53 <=? n) = true) by (apply Z.leb_le; lia).
  assert (U : (n <? 2 ^ 53) = true) by (apply Z.ltb_lt; lia).
  rewrite L, U. reflexivity.
Qed.

Section CollectionFacts.
Context {D : Type} (key : D -> Z).

Lemma insert_desc_head (d : D) (c : list D) :
  exists h t, insert_desc key d c = h :: t
    /\ key h = match c with [] => key d | x :: _ => Z.max (key x) (key d) end.
Proof.
  destruct c as [|x c']; simpl.
  - eauto.
  - destruct (key x <? key d) eqn:E.
    + exists d, (x :: c'). split; auto. apply Z.ltb_lt in E. lia.
    + exists x, (insert_desc key d c'). split; auto. apply Z.ltb_ge in E. lia.
Qed.

Lemma insert_desc_perm (d : D) (c : list D) :
  Permutation (d :: c) (insert_desc key d c).
Proof.
  induction c as [|x c' IH]; simpl; auto.
  destruct (key x <? key d); auto.
  rewrite perm_swap. constructor. exact IH.
Qed.

Lemma sort_desc_perm (c : list D) : Permutation c (sort_desc key c).
Proof.
  induction c as [|d c' IH]; simpl; auto.
  rewrite <- insert_desc_perm. constructor. exact IH.
Qed.

(** The head of the sorted collection bounds every key. *)
Lemma sort_desc_head_max (c : list D) (h : D) :
  findOne_sort_desc key c = Some h ->
  In h c /\ forall d, In d c -> key d <= key h.
Proof.
  unfold findOne_sort_desc.
  revert h. induction c as [|x c' IH]; simpl; intros h Hh.
  - discriminate.
  - destruct (insert_desc_head x (sort_desc key c')) as (h' & t & E & K).
    rewrite E in Hh. simpl in Hh. injection Hh as ->.
    assert (Hin : In h (x :: c')).
    { apply (Permutation_in h (Permutation_sym (sort_desc_perm (x :: c')))).
      simpl. rewrite E. left. reflexivity. }
    split; [exact Hin|].
    destruct (sort_desc key c') as [|y s] eqn:S.
    + assert (c' = []) as ->.
      { apply Permutation_nil. rewrite <- S. apply Permutation_sym, sort_desc_perm. }
      intros d [<-|[]]. lia.
    + destruct (IH y eq_refl) as [_ Hmax].
      intros d [<-|Hd]; [lia|]. specialize (Hmax d Hd). lia.
Qed.

Lemma findOne_sort_desc_none (c : list D) :
  findOne_sort_desc key c = None <-> c = [].
Proof.
  unfold findOne_sort_desc. split.
  - destruct c as [|x c']; [reflexivity|]. simpl.
    destruct (insert_desc_head x (sort_desc key c')) as (h & t & E & _).
    rewrite E. discriminate.
  - intros ->. reflexivity.
Qed.

Lemma newId_empty : newId key [] = 1.
Proof. reflexivity. Qed.

(** The allocator never answers below a stored key. *)
Lemma newId_ge (c : list D) (d : D) : In d c -> key d <= newId key c.
Proof.
  intros Hd. unfold newId.
  destruct (findOne_sort_desc key c) as [h|] eqn:E.
  - apply sort_desc_head_max in E. destruct E as [_ Hmax].
    specialize (Hmax d Hd). pose proof (js_succ_ge (key h)). lia.
  - apply findOne_sort_desc_none in E. subst. contradiction.
Qed.

Lemma newId_max (c : list D) (m : Z) :
  In m (map key c) -> (forall j, In j (map key c) -> j <= m) ->
  newId key c = js_succ m.
Proof.
  intros Hm Hmax. unfold newId.
  destruct (findOne_sort_desc key c) as [h|] eqn:E.
  - apply sort_desc_head_max in E. destruct E as [Hin Hh].
    apply in_map_iff in Hm. destruct Hm as (d & <- & Hd).
    specialize (Hh d Hd). specialize (Hmax (key h) (in_map key _ _ Hin)).
    f_equal. lia.
  - apply findOne_sort_desc_none in E. subst. contradiction.
Qed.

(** While the stored keys are safe integers the allocator answers above
    all of them. *)
Lemma newId_above (c : list D) (d : D) :
  (forall x, In x c -> safe (key x) = true) -> In d c -> key d < newId key c.
Proof.
  intros Safe Hd. unfold newId.
  destruct (findOne_sort_desc key c) as [h|] eqn:E.
  - apply sort_desc_head_max in E. destruct E as [Hin Hmax].
    specialize (Hmax d Hd). rewrite (js_succ_safe _ (Safe h Hin)). lia.
  - apply findOne_sort_desc_none in E. subst. contradiction.
Qed.

(** The allocator does not depend on the order of the collection. *)
Lemma newId_permutation (c c' : list D) :
  Permutation c c' -> newId key c = newId key c'.
Proof.
  intros P. destruct (findOne_sort_desc key c) as [h|] eqn:E.
  - pose proof (sort_desc_head_max c h E) as [Hin Hmax].
    rewrite (newId_max c (key h)), (newId_max c' (key h)); try reflexivity.
    + apply in_map. apply (Permutation_in h P Hin).
    + intros j Hj. apply in_map_iff in Hj. destruct Hj as (d & <- & Hd).
      apply Hmax. apply (Permutation_in d (Permutation_sym P) Hd).
    + apply in_map. exact Hin.
    + intros j Hj. apply in_map_iff in Hj. destruct Hj as (d & <- & Hd).
      apply Hmax. exact Hd.
  - apply findOne_sort_desc_none in E. subst c.
    apply Permutation_nil in P. subst c'. reflexivity.
Qed.

Lemma newId_not_taken (c : list D) :
  (forall x, In x c -> safe (key x) = true) -> key_taken key (newId key c) c = false.
Proof.
  intros Safe. unfold key_taken. apply not_true_is_false. intros H.
  apply existsb_exists in H. destruct H as (d & Hd & E).
  apply Z.eqb_eq in E. pose proof (newId_above c d Safe Hd). lia.
Qed.

(** While the stored keys are safe integers and the allocated key is
    below 2^53, it is a safe integer as well. *)
Lemma newId_safe (c : list D) :
  (forall x, In x c -> safe (key x) = true) -> newId key c < 2 ^ 53 ->
  safe (newId key c) = true.
Proof.
  intros Safe. unfold newId.
  destruct (findOne_sort_desc key c) as [h|] eqn:E; [|reflexivity].
  apply sort_desc_head_max in E. destruct E as [Hin _].
  pose proof (Safe h Hin) as Sh. rewrite (js_succ_safe _ Sh).
  unfold safe in *. apply Z.ltb_lt in Sh. intros U. apply Z.ltb_lt. lia.
Qed.

(** An allocated key that no document holds is above every stored key. *)
Lemma newId_free_above (c : list D) (d : D) :
  key_taken key (newId key c) c = false -> In d c -> key d < newId key c.
Proof.
  intros Free Hd. pose proof (newId_ge c d Hd) as G.
  destruct (Z.eq_dec (key d) (newId key c)) as [E|N]; [|lia].
  exfalso. unfold key_taken in Free.
  assert (X : existsb (fun x => key x =? newId key c) c = true).
  { apply existsb_exists. exists d. split; [exact Hd|]. apply Z.eqb_eq. exact E. }
  congruence.
Qed.

Lemma findOne_none (v : option Z) (c : list D) :
  findOne key v c = None <-> forall d, In d c -> v <> Some (key d).
Proof.
  unfold findOne. split.
  - intros H d Hd E. apply (find_none _ _ H) in Hd.
    subst v. simpl in Hd. rewrite Z.eqb_refl in Hd. discriminate.
  - intros H. induction c as [|x c' IH]; [reflexivity|]. simpl.
    destruct (matches key v x) eqn:E.
    + exfalso. destruct v as [k|]; simpl in E; [|discriminate].
      apply Z.eqb_eq in E. apply (H x); [left; reflexivity|congruence].
    + apply IH. intros d Hd. apply H. right. exact Hd.
Qed.

Lemma findOne_some (v : option Z) (c : list D) (d : D) :
  findOne key v c = Some d -> In d c /\ v = Some (key d).
Proof.
  unfold findOne. intros H. apply find_some in H. destruct H as [Hin E].
  split; [exact Hin|]. destruct v as [k|]; simpl in E; [|discriminate].
  apply Z.eqb_eq in E. congruence.
Qed.

Lemma key_taken_findOne (k : Z) (c : list D) :
  key_taken key k c = true <-> findOne key (Some k) c <> None.
Proof.
  unfold key_taken. rewrite existsb_exists. split.
  - intros (d & Hd & E) N. apply Z.eqb_eq in E.
    apply (proj1 (findOne_none _ _) N d Hd). congruence.
  - intros N. destruct (findOne key (Some k) c) as [d|] eqn:F; [|congruence].
    apply findOne_some in F. destruct F as [Hin E].
    exists d. split; [exact Hin|]. apply Z.eqb_eq. congruence.
Qed.

Lemma key_taken_app (k : Z) (c c' : list D) :
  key_taken key k (c ++ c') = key_taken key k c || key_taken key k c'.
Proof. unfold key_taken. apply existsb_app. Qed.

Lemma In_update_first (v : option Z) (d' x : D) (c : list D) :
  In x (update_first key v d' c) -> x = d' \/ In x c.
Proof.
  induction c as [|y c' IH]; simpl; [tauto|].
  destruct (matches key v y); simpl; intuition.
Qed.

Lemma In_delete_first (v : option Z) (x : D) (c : list D) :
  In x (delete_first key v c) -> In x c.
Proof.
  induction c as [|y c' IH]; simpl; [tauto|].
  destruct (matches key v y); simpl; intuition.
Qed.

(** Replacing a document by one with the same key leaves the set of
    keys as it was. *)
Lemma key_taken_update_first (k : Z) (v : option Z) (d d' : D) (c : list D) :
  findOne key v c = Some d -> key d' = key d ->
  key_taken key k (update_first key v d' c) = key_taken key k c.
Proof.
  unfold findOne, key_taken. intros F E.
  induction c as [|y c' IH]; simpl in *; [discriminate|].
  destruct (matches key v y).
  - injection F as ->. simpl. rewrite E. reflexivity.
  - simpl. rewrite (IH F). reflexivity.
Qed.

Lemma key_taken_delete_first (k i : Z) (c : list D) :
  k <> i -> key_taken key k (delete_first key (Some i) c) = key_taken key k c.
Proof.
  unfold key_taken. intros N.
  induction c as [|y c' IH]; simpl; [reflexivity|].
  destruct (key y =? i) eqn:E.
  - apply Z.eqb_eq in E. replace (key y =? k) with false; [reflexivity|].
    symmetry. apply Z.eqb_neq. lia.
  - simpl. rewrite IH. reflexivity.
Qed.

Lemma In_update_first_new (v : option Z) (d d' : D) (c : list D) :
  findOne key v c = Some d -> In d' (update_first key v d' c).
Proof.
  unfold findOne. induction c as [|y c' IH]; simpl; [discriminate|].
  destruct (matches key v y); simpl; auto.
Qed.

Lemma findOne_app_new (k : Z) (c : list D) (d : D) :
  key d = k -> findOne key (Some k) (c ++ [d]) <> None.
Proof.
  intros E N.
  assert (Hd : In d (c ++ [d])) by (apply in_or_app; right; left; reflexivity).
  apply (proj1 (findOne_none _ _) N d Hd). congruence.
Qed.

Lemma filter_key_app_new (k : Z) (c : list D) (d : D) :
  (forall x, In x c -> key x <> k) -> key d = k ->
  filter (fun x => key x =? k) (c ++ [d]) = [d].
Proof.
  intros N E. rewrite filter_app. simpl.
  rewrite (proj2 (Z.eqb_eq _ _) E).
  replace (filter _ c) with (@nil D); [reflexivity|].
  symmetry. induction c as [|y c' IH]; simpl; [reflexivity|].
  destruct (Z.eqb_spec (key y) k) as [Ey|_].
  - exfalso. exact (N y (or_introl eq_refl) Ey).
  - apply IH. intros x Hx. apply N. right. exact Hx.
Qed.
Lemma key_taken_In (k : Z) (c : list D) :
  key_taken key k c = true <-> In k (map key c).
Proof.
  unfold key_taken. rewrite existsb_exists, in_map_iff. split.
  - intros (d & Hd & E). apply Z.eqb_eq in E. eauto.
  - intros (d & E & Hd). exists d. split; [exact Hd|]. apply Z.eqb_eq. exact E.
Qed.

Lemma key_free (k : Z) (c : list D) :
  key_taken key k c = false <-> forall x, In x c -> key x <> k.
Proof.
  split.
  - intros F x Hx E. assert (T : key_taken key k c = true).
    { apply key_taken_In. rewrite <- E. apply in_map. exact Hx. }
    congruence.
  - intros F. apply not_true_is_false. intros T. apply key_taken_In in T.
    apply in_map_iff in T. destruct T as (x & E & Hx). exact (F x Hx E).
Qed.

Lemma findOne_app_fresh (k : Z) (c : list D) (d : D) :
  (forall x, In x c -> key x <> k) -> key d = k ->
  findOne key (Some k) (c ++ [d]) = Some d.
Proof.
  intros Fresh E. unfold findOne. induction c as [|y c' IH]; simpl.
  - rewrite (proj2 (Z.eqb_eq _ _) E). reflexivity.
  - destruct (Z.eqb_spec (key y) k) as [Ey|_].
    + exfalso. exact (Fresh y (or_introl eq_refl) Ey).
    + apply IH. intros x Hx. apply Fresh. right. exact Hx.
Qed.

(** Deleting the document just appended under a key nobody else holds
    gives the collection back. *)
Lemma delete_first_app_fresh (k : Z) (c : list D) (d : D) :
  (forall x, In x c -> key x <> k) -> key d = k ->
  delete_first key (Some k) (c ++ [d]) = c.
Proof.
  intros Fresh E. induction c as [|y c' IH]; simpl.
  - rewrite (proj2 (Z.eqb_eq _ _) E). reflexivity.
  - destruct (Z.eqb_spec (key y) k) as [Ey|_].
    + exfalso. exact (Fresh y (or_introl eq_refl) Ey).
    + f_equal. apply IH. intros x Hx. apply Fresh. right. exact Hx.
Qed.
End CollectionFacts.

Module NumericFacts.
Import Numeric.
Local Open Scope string_scope.
Local Open Scope list_scope.
Local Open Scope Z_scope.

Ltac unfold_handler :=
  unfold post_patients, post_patients_body, post_patients_create,
    put_patients, put_patients_body, delete_patients, delete_patients_body,
    post_doctors, post_doctors_body, post_doctors_checks, post_doctors_allocate,
    post_doctors_create,
    put_doctors, put_doctors_body, delete_doctors, delete_doctors_body,
    post_medicines, post_medicines_body, post_medicines_newId, post_medicines_create,
    put_medicines, put_medicines_body, delete_medicines, delete_medicines_body,
    Model_findOne, cast_filter, create, findOneAndUpdate, findOneAndDelete,
    try_catch, bind, gets, ret, throw, modify, server_error in *.

(** Case analysis on whatever a validation result still branches on. *)
Ltac split_validate H :=
  repeat match type of H with
         | match ?x with _ => _ end = _ => destruct x; try discriminate
         | (if ?x then _ else _) = _ => destruct x eqn:?; try discriminate
         end.

Lemma validate_patient_id n b p : Patient.validate n b = Some p -> Patient.id p = n.
Proof.
  unfold Patient.validate. intros H. split_validate H.
  injection H as <-. reflexivity.
Qed.

Lemma validate_doctor_id n b d : Doctor.validate n b = Some d -> Doctor.id d = n.
Proof.
  unfold Doctor.validate. intros H. split_validate H.
  injection H as <-. reflexivity.
Qed.

Lemma validate_medicine_id n b m : Medicine.validate n b = Some m -> Medicine.id m = n.
Proof.
  unfold Medicine.validate. intros H. split_validate H.
  injection H as <-. reflexivity.
Qed.

(** Validation does not look at the id the document is given. *)
Lemma validate_patient_any n n' b :
  defined (Patient.validate n b) = defined (Patient.validate n' b).
Proof.
  unfold Patient.validate.
  repeat match goal with
         | |- context [match ?x with _ => _ end] =>
             lazymatch x with
             | context [match _ with _ => _ end] => fail
             | _ => destruct x; try reflexivity
             end
         end.
Qed.

Lemma validate_doctor_any n n' b :
  defined (Doctor.validate n b) = defined (Doctor.validate n' b).
Proof.
  unfold Doctor.validate.
  destruct (Doctor.Body.empId b) as [[e|]|], (Doctor.Body.charges b) as [[c|]|]; reflexivity.
Qed.

Lemma validate_medicine_any n n' b :
  defined (Medicine.validate n b) = defined (Medicine.validate n' b).
Proof.
  unfold Medicine.validate.
  destruct (Medicine.Body.name b) as [s|], (Medicine.Body.price b) as [[p|]|];
    try reflexivity.
  destruct (String.eqb s ""); reflexivity.
Qed.

Lemma defined_Some {A} (v : option A) : defined v = true -> exists a, v = Some a.
Proof. destruct v; [eauto|discriminate]. Qed.

Lemma defined_not_None {A} (v : option A) : defined v = true <-> v <> None.
Proof. destruct v; simpl; split; congruence. Qed.

(** The filter [{ k: undefined }] finds nothing. *)
Lemma findOne_undefined {D} (key : D -> Z) (c : list D) : findOne key None c = None.
Proof. unfold findOne. induction c; simpl; auto. Qed.

Lemma number_casts {D} (key : D -> Z) (v : option numarg) (c : list D) :
  findOne key (number v) c <> None -> casts_num v = true.
Proof.
  destruct v as [[n|]|]; simpl; try reflexivity.
  rewrite findOne_undefined. congruence.
Qed.

Lemma Model_findOne_run {D} (key : D -> Z) coll (v : option numarg) (st : store) :
  Model_findOne key coll v st
  = if casts_num v then (inl (findOne key (number v) (coll st)), st)
    else (inr CastErrorOther, st).
Proof. destruct v as [[n|]|]; reflexivity. Qed.

(** A lookup that finds a document went through its cast. *)
Lemma Model_findOne_found {D} (key : D -> Z) coll (v : option numarg) (st : store) :
  findOne key (number v) (coll st) <> None ->
  Model_findOne key coll v st = (inl (findOne key (number v) (coll st)), st).
Proof.
  intros F. rewrite Model_findOne_run.
  destruct v as [[n|]|]; try reflexivity.
  simpl in F. rewrite findOne_undefined in F. congruence.
Qed.

(** What a successful POST /api/patients did. *)
Lemma post_patients_data b st r st' p :
  post_patients b st = (r, st') -> body r = Data p ->
  Patient.validate (newId Patient.id (patients st)) b = Some p
  /\ findOne User.id (number (Patient.Body.userId b)) (users st) <> None
  /\ findOne Doctor.id (number (Patient.Body.doctorId b)) (doctors st) <> None
  /\ r = Res 201 (Data p)
  /\ st' = set_patients (fun c => c ++ [p]) st
  /\ key_taken Patient.id (Patient.id p) (patients st) = false.
Proof.
  unfold post_patients, post_patients_body, post_patients_create, try_catch, bind.
  rewrite !Model_findOne_run.
  destruct (casts_num (Patient.Body.userId b)); simpl; [|intros [= <- <-]; discriminate].
  destruct (findOne User.id _ _); cbv beta iota; [|intros [= <- <-]; discriminate].
  rewrite Model_findOne_run.
  destruct (casts_num (Patient.Body.doctorId b)); simpl; [|intros [= <- <-]; discriminate].
  destruct (findOne Doctor.id _ _); simpl; [|intros [= <- <-]; discriminate].
  unfold gets, create, bind, throw, modify, ret.
  destruct (Patient.validate _ b) as [q|]; simpl; [|intros [= <- <-]; discriminate].
  destruct (key_taken _ _ _) eqn:T; simpl; intros [= <- <-]; [discriminate|].
  simpl. intros [= ->]. repeat split; congruence.
Qed.

Lemma post_patients_ok b st p :
  findOne User.id (number (Patient.Body.userId b)) (users st) <> None ->
  findOne Doctor.id (number (Patient.Body.doctorId b)) (doctors st) <> None ->
  Patient.validate (newId Patient.id (patients st)) b = Some p ->
  key_taken Patient.id (newId Patient.id (patients st)) (patients st) = false ->
  post_patients b st = (Res 201 (Data p), set_patients (fun c => c ++ [p]) st).
Proof.
  intros Hu Hd Hv T.
  unfold post_patients, post_patients_body, post_patients_create, try_catch, bind.
  rewrite (Model_findOne_found _ _ _ _ Hu).
  destruct (findOne User.id _ _); [|congruence].
  rewrite (Model_findOne_found _ _ _ _ Hd).
  destruct (findOne Doctor.id _ _); [|congruence].
  unfold gets, create, bind, throw, modify, ret.
  rewrite Hv. simpl. rewrite (validate_patient_id _ _ _ Hv), T. reflexivity.
Qed.

Lemma post_doctors_data b st r st' d :
  post_doctors b st = (r, st') -> body r = Data d ->
  Doctor.validate (newId Doctor.id (doctors st)) b = Some d
  /\ findOne Employee.id (number (Doctor.Body.empId b)) (employees st) <> None
  /\ findOne Doctor.empId (number (Doctor.Body.empId b)) (doctors st) = None
  /\ r = Res 201 (Data d)
  /\ st' = set_doctors (fun c => c ++ [d]) st
  /\ key_taken Doctor.id (Doctor.id d) (doctors st) = false.
Proof.
  unfold post_doctors, post_doctors_body, post_doctors_checks, post_doctors_allocate,
    post_doctors_create, try_catch, bind.
  rewrite !Model_findOne_run.
  destruct (casts_num (Doctor.Body.empId b)) eqn:C; simpl;
    [|intros [= <- <-]; discriminate].
  destruct (findOne Employee.id _ _); cbv beta iota; [|intros [= <- <-]; discriminate].
  rewrite Model_findOne_run, C.
  destruct (findOne Doctor.empId _ _); simpl; [intros [= <- <-]; discriminate|].
  unfold gets, create, bind, throw, modify, ret.
  destruct (Doctor.validate _ b) as [q|]; simpl; [|intros [= <- <-]; discriminate].
  destruct (key_taken _ _ _) eqn:T; simpl; intros [= <- <-]; [discriminate|].
  simpl. intros [= ->]. repeat split; congruence.
Qed.

Lemma post_doctors_ok b st d :
  findOne Employee.id (number (Doctor.Body.empId b)) (employees st) <> None ->
  findOne Doctor.empId (number (Doctor.Body.empId b)) (doctors st) = None ->
  Doctor.validate (newId Doctor.id (doctors st)) b = Some d ->
  key_taken Doctor.id (newId Doctor.id (doctors st)) (doctors st) = false ->
  post_doctors b st = (Res 201 (Data d), set_doctors (fun c => c ++ [d]) st).
Proof.
  intros He Hd Hv T. pose proof (number_casts _ _ _ He) as C.
  unfold post_doctors, post_doctors_body, post_doctors_checks, post_doctors_allocate,
    post_doctors_create, try_catch, bind.
  rewrite (Model_findOne_found _ _ _ _ He).
  destruct (findOne Employee.id _ _); [|congruence].
  rewrite Model_findOne_run, C, Hd.
  unfold gets, create, bind, throw, modify, ret.
  rewrite Hv. simpl. rewrite (validate_doctor_id _ _ _ Hv), T. reflexivity.
Qed.

Lemma post_medicines_data b st r st' m :
  post_medicines b st = (r, st') -> body r = Data m ->
  Medicine.validate (newId Medicine.id (medicines st)) b = Some m
  /\ r = Res 201 (Data m)
  /\ st' = set_medicines (fun c => c ++ [m]) st
  /\ key_taken Medicine.id (Medicine.id m) (medicines st) = false.
Proof.
  unfold_handler. simpl.
  destruct (Medicine.validate _ b) as [q|]; [|intros [= <- <-]; discriminate].
  simpl. destruct (key_taken _ _ _) eqn:T; intros [= <- <-]; [discriminate|].
  simpl. intros [= ->]. repeat split; congruence.
Qed.

Lemma post_medicines_ok b st m :
  Medicine.validate (newId Medicine.id (medicines st)) b = Some m ->
  key_taken Medicine.id (newId Medicine.id (medicines st)) (medicines st) = false ->
  post_medicines b st = (Res 201 (Data m), set_medicines (fun c => c ++ [m]) st).
Proof.
  intros Hv T. unfold_handler. simpl.
  rewrite Hv. simpl. rewrite (validate_medicine_id _ _ _ Hv), T.
  reflexivity.
Qed.

(** The id a creating request hands out is the allocator's, and no
    stored record has it. *)
Lemma created_id_newId r st i :
  created_id r st = Some i ->
  match entity_of r with
  | EPatient => i = newId Patient.id (patients st)
                /\ key_taken Patient.id i (patients st) = false
  | EDoctor => i = newId Doctor.id (doctors st)
               /\ key_taken Doctor.id i (doctors st) = false
  | EMedicine => i = newId Medicine.id (medicines st)
                 /\ key_taken Medicine.id i (medicines st) = false
  end.
Proof.
  destruct r; simpl; try discriminate.
  - destruct (post_patients b st) as [r st'] eqn:E. simpl.
    destruct (body r) eqn:B; try discriminate. intros [= <-].
    destruct (post_patients_data _ _ _ _ _ E B) as (V & _ & _ & _ & _ & T).
    split; [eapply validate_patient_id; eauto|exact T].
  - destruct (post_doctors b st) as [r st'] eqn:E. simpl.
    destruct (body r) eqn:B; try discriminate. intros [= <-].
    destruct (post_doctors_data _ _ _ _ _ E B) as (V & _ & _ & _ & _ & T).
    split; [eapply validate_doctor_id; eauto|exact T].
  - destruct (post_medicines b st) as [r st'] eqn:E. simpl.
    destruct (body r) eqn:B; try discriminate. intros [= <-].
    destruct (post_medicines_data _ _ _ _ _ E B) as (V & _ & _ & T).
    split; [eapply validate_medicine_id; eauto|exact T].
Qed.

Lemma map_nil_inv {A B} (f : A -> B) (l : list A) : map f l = [] -> l = [].
Proof. destruct l; [reflexivity|discriminate]. Qed.

(** *** The allocator *)

Lemma ids_safe_patients st :
  (forall j, In j (ids EPatient st) -> safe j = true) ->
  forall x, In x (patients st) -> safe (Patient.id x) = true.
Proof. intros S x Hx. apply S. simpl. apply in_map. exact Hx. Qed.

Lemma ids_safe_doctors st :
  (forall j, In j (ids EDoctor st) -> safe j = true) ->
  forall x, In x (doctors st) -> safe (Doctor.id x) = true.
Proof. intros S x Hx. apply S. simpl. apply in_map. exact Hx. Qed.

Lemma ids_safe_medicines st :
  (forall j, In j (ids EMedicine st) -> safe j = true) ->
  forall x, In x (medicines st) -> safe (Medicine.id x) = true.
Proof. intros S x Hx. apply S. simpl. apply in_map. exact Hx. Qed.

(** An accepted creating request whose allocated id is free stores its
    record under that id. *)
Lemma accepted_creates (r : request) (st : store) :
  accepted r st = true ->
  match r with
  | PostPatients b =>
      key_taken Patient.id (newId Patient.id (patients st)) (patients st) = false ->
      exists p, Patient.id p = newId Patient.id (patients st)
                /\ post_patients b st
                   = (Res 201 (Data p), set_patients (fun c => c ++ [p]) st)
  | PostDoctors b =>
      key_taken Doctor.id (newId Doctor.id (doctors st)) (doctors st) = false ->
      exists d, Doctor.id d = newId Doctor.id (doctors st)
                /\ post_doctors b st
                   = (Res 201 (Data d), set_doctors (fun c => c ++ [d]) st)
  | PostMedicines b =>
      key_taken Medicine.id (newId Medicine.id (medicines st)) (medicines st) = false ->
      exists m, Medicine.id m = newId Medicine.id (medicines st)
                /\ post_medicines b st
                   = (Res 201 (Data m), set_medicines (fun c => c ++ [m]) st)
  | _ => False
  end.
Proof.
  destruct r; simpl; try discriminate.
  - intros A T. apply andb_true_iff in A. destruct A as [A V].
    apply andb_true_iff in A. destruct A as [U Dr].
    rewrite (validate_patient_any 0 (newId Patient.id (patients st))) in V.
    apply defined_Some in V. destruct V as [p V].
    exists p. split; [eapply validate_patient_id; eauto|].
    apply post_patients_ok; auto; apply defined_not_None; assumption.
  - intros A T. apply andb_true_iff in A. destruct A as [A V].
    apply andb_true_iff in A. destruct A as [E Dr].
    rewrite (validate_doctor_any 0 (newId Doctor.id (doctors st))) in V.
    apply defined_Some in V. destruct V as [d V].
    exists d. split; [eapply validate_doctor_id; eauto|].
    apply post_doctors_ok; auto.
    + apply defined_not_None. exact E.
    + apply negb_true_iff in Dr.
      destruct (findOne Doctor.empId _ _); [discriminate|reflexivity].
  - intros V T.
    rewrite (validate_medicine_any 0 (newId Medicine.id (medicines st))) in V.
    apply defined_Some in V. destruct V as [m V].
    exists m. split; [eapply validate_medicine_id; eauto|].
    apply post_medicines_ok; auto.
Qed.

(** C2, as amended.  Sequential ID allocator: while the stored ids of
    the entity type are safe integers (below 2^53 in magnitude), a POST
    to patients, doctors or medicines that passes the handler's lookups
    with a document the schema accepts creates a record and appends it
    to its collection; the record's id is 1 if no record of that type
    was stored, and otherwise one more than the greatest stored id of
    that type.  The greatest id is characterised through membership
    only, so the order in which the stored records were inserted plays
    no part. *)
Theorem sequential_id_allocation (r : request) (st : store) :
  accepted r st = true ->
  (forall j, In j (ids (entity_of r) st) -> safe j = true) ->
  exists i,
    created_id r st = Some i
    /\ ids (entity_of r) (handle r st) = ids (entity_of r) st ++ [i]
    /\ (ids (entity_of r) st = [] -> i = 1)
    /\ (forall m, In m (ids (entity_of r) st) ->
                  (forall j, In j (ids (entity_of r) st) -> j <= m) -> i = m + 1).
Proof.
  intros A S. pose proof (accepted_creates r st A) as C.
  destruct r; try contradiction; cbn [entity_of] in S |- *.
  - destruct C as (p & Ep & R).
    { apply newId_not_taken. apply ids_safe_patients. exact S. }
    exists (Patient.id p). cbn [created_id handle]. rewrite R. cbn.
    rewrite map_app. repeat split.
    + intros E. apply map_nil_inv in E. rewrite Ep, E. reflexivity.
    + intros m Hm Hmax. rewrite Ep, (newId_max Patient.id _ m Hm Hmax).
      apply js_succ_safe. apply S. exact Hm.
  - destruct C as (d & Ed & R).
    { apply newId_not_taken. apply ids_safe_doctors. exact S. }
    exists (Doctor.id d). cbn [created_id handle]. rewrite R. cbn.
    rewrite map_app. repeat split.
    + intros E. apply map_nil_inv in E. rewrite Ed, E. reflexivity.
    + intros m Hm Hmax. rewrite Ed, (newId_max Doctor.id _ m Hm Hmax).
      apply js_succ_safe. apply S. exact Hm.
  - destruct C as (m0 & Em & R).
    { apply newId_not_taken. apply ids_safe_medicines. exact S. }
    exists (Medicine.id m0). cbn [created_id handle]. rewrite R. cbn.
    rewrite map_app. repeat split.
    + intros E. apply map_nil_inv in E. rewrite Em, E. reflexivity.
    + intros m Hm Hmax. rewrite Em, (newId_max Medicine.id _ m Hm Hmax).
      apply js_succ_safe. apply S. exact Hm.
Qed.

(** *** Missing references *)

Lemma findOne_no_match {D} (key : D -> Z) (v : option numarg) (c : list D) :
  (forall d, In d c -> number v <> Some (key d)) -> findOne key (number v) c = None.
Proof. intros H. apply findOne_none. exact H. Qed.

(** C4, as amended.  Create Patient on a missing reference: when the
    request's [userId] is absent or a number and the id of no stored
    user, or is the id of a stored user while its [doctorId] is absent
    or a number and the id of no stored doctor, POST /api/patients
    answers 404 (NotFound) and the store is what it was: no patient is
    inserted and the next id to be allocated is unchanged.  When the
    [userId] does not cast to a number, or the user is stored and the
    [doctorId] does not cast, the answer is 500 (Unexpected), and the
    store is unchanged as well. *)
Theorem create_patient_missing_reference (b : Patient.Body.t) (st : store) :
  ((casts_num (Patient.Body.userId b) = true
    /\ (forall u, In u (users st) -> number (Patient.Body.userId b) <> Some (User.id u)))
   \/ (findOne User.id (number (Patient.Body.userId b)) (users st) <> None
       /\ casts_num (Patient.Body.doctorId b) = true
       /\ (forall d, In d (doctors st) ->
                     number (Patient.Body.doctorId b) <> Some (Doctor.id d))) ->
   classify (fst (post_patients b st)) = NotFound
   /\ snd (post_patients b st) = st
   /\ newId Patient.id (patients (snd (post_patients b st))) = newId Patient.id (patients st))
  /\ (Patient.Body.userId b = Some NotANumber
      \/ (findOne User.id (number (Patient.Body.userId b)) (users st) <> None
          /\ Patient.Body.doctorId b = Some NotANumber) ->
      classify (fst (post_patients b st)) = Unexpected
      /\ snd (post_patients b st) = st).
Proof.
  split.
  - intros H.
    assert (E : exists m, post_patients b st = (Res 404 (Message m), st)).
    { unfold post_patients, post_patients_body, try_catch, bind.
      destruct H as [[C N]|(U & C & N)].
      - rewrite Model_findOne_run, C, (findOne_no_match _ _ _ N).
        unfold ret. cbv beta iota. eauto.
      - rewrite (Model_findOne_found _ _ _ _ U).
        destruct (findOne User.id _ _); [|congruence]. cbv beta iota.
        rewrite Model_findOne_run, C, (findOne_no_match _ _ _ N).
        unfold ret. cbv beta iota. eauto. }
    destruct E as [m ->]. simpl. auto.
  - intros H.
    assert (E : post_patients b st = (Res 500 (ServerError "Cast failed"), st)).
    { unfold post_patients, post_patients_body, try_catch, bind.
      destruct H as [E|(U & E)].
      - rewrite Model_findOne_run, E. reflexivity.
      - rewrite (Model_findOne_found _ _ _ _ U).
        destruct (findOne User.id _ _); [|congruence]. cbv beta iota.
        rewrite Model_findOne_run, E. reflexivity. }
    rewrite E. split; reflexivity.
Qed.

(** *** Ids of created records *)

(** Deleting the record a POST has just created gives the store back. *)
Lemma delete_created_patient b st p :
  post_patients b st = (Res 201 (Data p), set_patients (fun c => c ++ [p]) st) ->
  key_taken Patient.id (Patient.id p) (patients st) = false ->
  snd (delete_patients (Patient.id p) (set_patients (fun c => c ++ [p]) st)) = st.
Proof.
  intros _ T. pose proof (proj1 (key_free _ _ _) T) as F.
  unfold_handler. simpl.
  rewrite (findOne_app_fresh Patient.id _ _ p F eq_refl). simpl.
  destruct st as [us ps ds ms]; unfold set_patients, set_doctors, set_medicines;
    cbn [users patients doctors medicines] in *.
  rewrite (delete_first_app_fresh Patient.id _ _ p F eq_refl). reflexivity.
Qed.

Lemma delete_created_doctor b st d :
  post_doctors b st = (Res 201 (Data d), set_doctors (fun c => c ++ [d]) st) ->
  key_taken Doctor.id (Doctor.id d) (doctors st) = false ->
  snd (delete_doctors (Doctor.id d) (set_doctors (fun c => c ++ [d]) st)) = st.
Proof.
  intros _ T. pose proof (proj1 (key_free _ _ _) T) as F.
  unfold_handler. simpl.
  rewrite (findOne_app_fresh Doctor.id _ _ d F eq_refl). simpl.
  destruct st as [us ps ds ms]; unfold set_patients, set_doctors, set_medicines;
    cbn [users patients doctors medicines] in *.
  rewrite (delete_first_app_fresh Doctor.id _ _ d F eq_refl). reflexivity.
Qed.

Lemma delete_created_medicine b st m :
  post_medicines b st = (Res 201 (Data m), set_medicines (fun c => c ++ [m]) st) ->
  key_taken Medicine.id (Medicine.id m) (medicines st) = false ->
  snd (delete_medicines (Medicine.id m) (set_medicines (fun c => c ++ [m]) st)) = st.
Proof.
  intros _ T. pose proof (proj1 (key_free _ _ _) T) as F.
  unfold_handler. simpl.
  rewrite (findOne_app_fresh Medicine.id _ _ m F eq_refl). simpl.
  destruct st as [us ps ds ms]; unfold set_patients, set_doctors, set_medicines;
    cbn [users patients doctors medicines] in *.
  rewrite (delete_first_app_fresh Medicine.id _ _ m F eq_refl). reflexivity.
Qed.

(** C6, as amended.  The id given to a created patient, doctor or
    medicine is greater than every id of that type in the store at that
    moment, hence the id of no record still stored.  Ids are not
    remembered once their record is gone: when the created record is
    deleted and the creation is repeated, the same id is assigned
    again. *)
Theorem created_id_above_stored_ids (r : request) (st : store) (i : Z) :
  created_id r st = Some i ->
  (forall j, In j (ids (entity_of r) st) -> j < i)
  /\ match r with
     | PostPatients _ => created_id r (run [r; DeletePatients i] st) = Some i
     | PostDoctors _ => created_id r (run [r; DeleteDoctors i] st) = Some i
     | PostMedicines _ => created_id r (run [r; DeleteMedicines i] st) = Some i
     | _ => True
     end.
Proof.
  intros H. pose proof (created_id_newId r st i H) as N. split.
  - intros j Hj.
    destruct (entity_of r); simpl in *; destruct N as [-> T];
      apply in_map_iff in Hj; destruct Hj as (d & <- & Hd);
      apply newId_free_above; assumption.
  - destruct r; try exact I; cbn [run fold_left handle]; cbn [created_id] in H.
    + destruct (post_patients b st) as [r st'] eqn:E. cbn [fst snd] in *.
      destruct (body r) eqn:B; try discriminate. injection H as <-.
      destruct (post_patients_data _ _ _ _ _ E B) as (_ & _ & _ & -> & -> & T).
      rewrite (delete_created_patient b st d E T). cbn [created_id]. rewrite E.
      reflexivity.
    + destruct (post_doctors b st) as [r st'] eqn:E. cbn [fst snd] in *.
      destruct (body r) eqn:B; try discriminate. injection H as <-.
      destruct (post_doctors_data _ _ _ _ _ E B) as (_ & _ & _ & -> & -> & T).
      rewrite (delete_created_doctor b st d E T). cbn [created_id]. rewrite E.
      reflexivity.
    + destruct (post_medicines b st) as [r st'] eqn:E. cbn [fst snd] in *.
      destruct (body r) eqn:B; try discriminate. injection H as <-.
      destruct (post_medicines_data _ _ _ _ _ E B) as (_ & -> & -> & T).
      rewrite (delete_created_medicine b st d E T). cbn [created_id]. rewrite E.
      reflexivity.
Qed.

(** *** Effects of the patient and doctor handlers on the store *)

Lemma validate_patient_doctorId n b p :
  Patient.validate n b = Some p ->
  number (Patient.Body.doctorId b) = Some (Patient.doctorId p).
Proof.
  unfold Patient.validate. intros V. split_validate V.
  injection V as <-. reflexivity.
Qed.

(** A POST /api/patients that does not answer with the created patient
    leaves the store as it was. *)
Lemma post_patients_cases b st :
  snd (post_patients b st) = st
  \/ exists p, body (fst (post_patients b st)) = Data p.
Proof.
  unfold_handler.
  destruct (Patient.Body.userId b) as [[u|]|]; simpl; auto;
    (destruct (findOne User.id _ _); simpl; auto);
    (destruct (Patient.Body.doctorId b) as [[d|]|]; simpl; auto);
    (destruct (findOne Doctor.id _ _); simpl; auto);
    (destruct (Patient.validate _ b); simpl; auto);
    (destruct (key_taken _ _ _); simpl; eauto).
Qed.

Lemma post_patients_effect b st :
  snd (post_patients b st) = st
  \/ exists p, snd (post_patients b st) = set_patients (fun c => c ++ [p]) st
               /\ number (Patient.Body.doctorId b) = Some (Patient.doctorId p)
               /\ findOne Doctor.id (number (Patient.Body.doctorId b)) (doctors st) <> None.
Proof.
  destruct (post_patients_cases b st) as [U|[p B]]; [left; exact U|].
  destruct (post_patients b st) as [r st'] eqn:E. cbn [fst snd] in *.
  destruct (post_patients_data _ _ _ _ _ E B) as (V & _ & Hd & _ & -> & _).
  right. exists p. repeat split; [|exact Hd].
  eapply validate_patient_doctorId; eauto.
Qed.

(** [findOneAndUpdate] under a filter value that is a number. *)
Lemma findOneAndUpdate_Num {D} (key : D -> Z) coll set (casts valid : bool) patch
    (i : Z) (st : store) :
  findOneAndUpdate key coll set casts valid patch (Num i) st
  = if negb casts then (inr CastErrorOther, st)
    else if negb valid then (inr ValidationFailed, st)
    else match findOne key (Some i) (coll st) with
         | None => (inl None, st)
         | Some d =>
             if negb (key (patch d) =? key d) && key_taken key (key (patch d)) (coll st)
             then (inr DuplicateKey, st)
             else (inl (Some (patch d)), set (update_first key (Some i) (patch d)) st)
         end.
Proof.
  unfold findOneAndUpdate, cast_filter, bind, gets, ret, throw, modify.
  destruct casts, valid; simpl; try reflexivity.
  destruct (findOne key (Some i) (coll st)); [|reflexivity].
  destruct (_ && _); reflexivity.
Qed.

Lemma put_patients_effect (x : numarg) b st :
  snd (put_patients x b st) = st
  \/ exists i p, x = Num i
       /\ findOne Patient.id (Some i) (patients st) = Some p
       /\ snd (put_patients x b st)
          = set_patients (update_first Patient.id (Some i) (Patient.apply b p)) st
       /\ fst (put_patients x b st) = Res 200 (Data (Some (Patient.apply b p)))
       /\ Patient.casts b = true
       /\ Patient.valid b = true
       /\ (Patient.id (Patient.apply b p) = Patient.id p
           \/ key_taken Patient.id (Patient.id (Patient.apply b p)) (patients st) = false)
       /\ (truthy_num (Patient.Body.doctorId b) = true ->
           findOne Doctor.id (number (Patient.Body.doctorId b)) (doctors st) <> None).
Proof.
  destruct x as [i|]; [|left; reflexivity].
  unfold put_patients, put_patients_body, try_catch, bind.
  rewrite Model_findOne_run. cbn [casts_num number].
  destruct (findOne Patient.id (Some i) (patients st)) as [p|] eqn:F; [|left; reflexivity].
  assert (K : forall st0, st0 = st ->
            let run := match findOneAndUpdate Patient.id patients set_patients
                               (Patient.casts b) (Patient.valid b) (Patient.apply b) i st0 with
                       | (inl a, s') => ret (Res 200 (Data a)) s'
                       | (inr e, s') => (inr e, s')
                       end in
            let out := match run with
                       | (inl a, s') => (a, s')
                       | (inr e, s') => (server_error e, s')
                       end in
            snd out = st
            \/ (snd out = set_patients (update_first Patient.id (Some i) (Patient.apply b p)) st
                /\ fst out = Res 200 (Data (Some (Patient.apply b p)))
                /\ Patient.casts b = true /\ Patient.valid b = true
                /\ (Patient.id (Patient.apply b p) = Patient.id p
                    \/ key_taken Patient.id (Patient.id (Patient.apply b p)) (patients st)
                       = false))).
  { intros st0 ->. rewrite findOneAndUpdate_Num, F.
    destruct (Patient.casts b); [|left; reflexivity].
    destruct (Patient.valid b); [|left; reflexivity].
    cbn [negb]. cbv iota.
    destruct (Z.eqb_spec (Patient.id (Patient.apply b p)) (Patient.id p)) as [E|N];
      cbn [negb andb].
    - right. repeat split. left. exact E.
    - destruct (key_taken _ _ _) eqn:T; [left; reflexivity|].
      right. repeat split. right. reflexivity. }
  destruct (truthy_num (Patient.Body.doctorId b)) eqn:T.
  - rewrite Model_findOne_run.
    destruct (casts_num (Patient.Body.doctorId b)); [|left; reflexivity].
    destruct (findOne Doctor.id _ _) eqn:Dr; [|left; reflexivity].
    unfold ret at 1. cbn [defined negb]. cbv beta iota.
    destruct (K st eq_refl) as [U|(U & R & C & V & Key)]; [left; exact U|].
    right. exists i, p. repeat split; auto. discriminate.
  - unfold ret at 1. cbv beta iota.
    destruct (K st eq_refl) as [U|(U & R & C & V & Key)]; [left; exact U|].
    right. exists i, p. repeat split; auto. discriminate.
Qed.

Lemma delete_patients_effect (x : numarg) st :
  snd (delete_patients x st) = st
  \/ exists i, x = Num i
       /\ snd (delete_patients x st) = set_patients (delete_first Patient.id (Some i)) st.
Proof.
  destruct x as [i|]; [|left; reflexivity].
  unfold_handler. simpl.
  destruct (findOne Patient.id _ _); simpl; eauto.
Qed.

Lemma post_doctors_cases b st :
  snd (post_doctors b st) = st
  \/ exists d, snd (post_doctors b st) = set_doctors (fun c => c ++ [d]) st.
Proof.
  unfold_handler.
  destruct (Doctor.Body.empId b) as [[e|]|]; simpl; auto;
    (destruct (findOne Employee.id _ _); simpl; auto);
    (destruct (findOne Doctor.empId _ _); simpl; auto);
    (destruct (Doctor.validate _ b); simpl; auto);
    (destruct (key_taken _ _ _); simpl; eauto).
Qed.

Lemma put_doctors_effect (x : numarg) b st :
  snd (put_doctors x b st) = st
  \/ exists i d, x = Num i
       /\ findOne Doctor.id (Some i) (doctors st) = Some d
       /\ snd (put_doctors x b st)
          = set_doctors (update_first Doctor.id (Some i) (Doctor.apply b d)) st
       /\ fst (put_doctors x b st) = Res 200 (Data (Some (Doctor.apply b d)))
       /\ Doctor.casts b = true
       /\ (Doctor.id (Doctor.apply b d) = Doctor.id d
           \/ key_taken Doctor.id (Doctor.id (Doctor.apply b d)) (doctors st) = false).
Proof.
  destruct x as [i|]; [|left; reflexivity].
  unfold put_doctors, put_doctors_body, try_catch, bind.
  rewrite Model_findOne_run. cbn [casts_num number].
  destruct (findOne Doctor.id (Some i) (doctors st)) as [d|] eqn:F; [|left; reflexivity].
  rewrite findOneAndUpdate_Num, F.
  destruct (Doctor.casts b); [|left; reflexivity].
  cbn [negb]. cbv iota.
  destruct (Z.eqb_spec (Doctor.id (Doctor.apply b d)) (Doctor.id d)) as [E|N];
    cbn [negb andb].
  - right. exists i, d. repeat split; auto.
  - destruct (key_taken _ _ _) eqn:T; [left; reflexivity|].
    right. exists i, d. repeat split; auto.
Qed.

Lemma delete_doctors_effect (x : numarg) st :
  snd (delete_doctors x st) = st
  \/ exists i, x = Num i
       /\ snd (delete_doctors x st) = set_doctors (delete_first Doctor.id (Some i)) st.
Proof.
  destruct x as [i|]; [|left; reflexivity].
  unfold_handler. simpl.
  destruct (findOne Doctor.id _ _); simpl; eauto.
Qed.

Lemma put_medicines_effect (x : numarg) b st :
  snd (put_medicines x b st) = st
  \/ exists i m, x = Num i
       /\ findOne Medicine.id (Some i) (medicines st) = Some m
       /\ snd (put_medicines x b st)
          = set_medicines (update_first Medicine.id (Some i) (Medicine.apply b m)) st
       /\ fst (put_medicines x b st) = Res 200 (Data (Some (Medicine.apply b m)))
       /\ Medicine.casts b = true
       /\ Medicine.valid b = true
       /\ (Medicine.id (Medicine.apply b m) = Medicine.id m
           \/ key_taken Medicine.id (Medicine.id (Medicine.apply b m)) (medicines st) = false).
Proof.
  destruct x as [i|]; [|left; reflexivity].
  unfold put_medicines, put_medicines_body, try_catch, bind.
  rewrite Model_findOne_run. cbn [casts_num number].
  destruct (findOne Medicine.id (Some i) (medicines st)) as [m|] eqn:F; [|left; reflexivity].
  rewrite findOneAndUpdate_Num, F.
  destruct (Medicine.casts b); [|left; reflexivity].
  destruct (Medicine.valid b); [|left; reflexivity].
  cbn [negb]. cbv iota.
  destruct (Z.eqb_spec (Medicine.id (Medicine.apply b m)) (Medicine.id m)) as [E|N];
    cbn [negb andb].
  - right. exists i, m. repeat split; auto.
  - destruct (key_taken _ _ _) eqn:T; [left; reflexivity|].
    right. exists i, m. repeat split; auto.
Qed.

Lemma medicines_untouched r st :
  entity_of r = EMedicine ->
  patients (handle r st) = patients st /\ doctors (handle r st) = doctors st.
Proof.
  destruct r; simpl; try discriminate; intros _.
  - unfold_handler; simpl.
    destruct (Medicine.validate _ b); simpl; auto.
    destruct (key_taken _ _ _); simpl; auto.
  - destruct (put_medicines_effect id b st) as [->|(i & m & _ & _ & -> & _)]; auto.
  - destruct id as [i|]; [|auto]. unfold_handler; simpl.
    destruct (findOne Medicine.id _ _); simpl; auto.
Qed.

Lemma references_spec st :
  patients_reference_doctors st = true <->
  forall p, In p (patients st) -> key_taken Doctor.id (Patient.doctorId p) (doctors st) = true.
Proof. unfold patients_reference_doctors. apply forallb_forall. Qed.

(** C7, as amended.  Patient referential integrity, request by request:
    if every stored patient's [doctorId] is the id of a stored doctor,
    it still is after any request of the patients, doctors and medicines
    routers other than the deletion of a doctor some stored patient
    refers to, a doctor update whose payload carries an [id], and a
    patient update whose payload carries [doctorId: 0]
    ([keeps_references]).  Create Patient and Update Patient with a
    non-zero [doctorId] are among the requests that keep it. *)
Theorem references_kept (r : request) (st : store) :
  patients_reference_doctors st = true ->
  keeps_references r st = true ->
  patients_reference_doctors (handle r st) = true.
Proof.
  intros Inv Keep. rewrite references_spec in *.
  destruct r; cbn [handle keeps_references] in *.
  - (* POST /api/patients *)
    destruct (post_patients_effect b st) as [->|(p & -> & Eb & Hd)]; [exact Inv|].
    simpl. intros q Hq. apply in_app_or in Hq. destruct Hq as [Hq|[<-|[]]]; [auto|].
    apply key_taken_findOne. congruence.
  - (* PUT /api/patients/:id *)
    destruct (put_patients_effect id b st)
      as [->|(i & p & _ & F & -> & _ & C & _ & _ & Hd)]; [exact Inv|].
    simpl. intros q Hq. apply In_update_first in Hq. destruct Hq as [->|Hq]; [|auto].
    simpl. destruct (Patient.Body.doctorId b) as [[d|]|] eqn:Eb; simpl.
    + apply key_taken_findOne. apply Hd. simpl. exact Keep.
    + unfold Patient.casts in C. rewrite Eb in C. simpl in C.
      rewrite !andb_false_r in C. simpl in C. rewrite ?andb_false_r in C. discriminate.
    + apply Inv. apply (findOne_some _ _ _ _ F).
  - (* DELETE /api/patients/:id *)
    destruct (delete_patients_effect id st) as [->|(i & _ & ->)]; [exact Inv|].
    simpl. intros q Hq. apply In_delete_first in Hq. auto.
  - (* POST /api/doctors *)
    destruct (post_doctors_cases b st) as [->|(d & ->)]; [exact Inv|].
    simpl. intros q Hq. rewrite key_taken_app, (Inv q Hq). reflexivity.
  - (* PUT /api/doctors/:id *)
    destruct (put_doctors_effect id b st) as [->|(i & d & _ & F & -> & _)]; [exact Inv|].
    simpl. intros q Hq. rewrite (key_taken_update_first _ _ _ d); auto.
    unfold Doctor.apply. simpl.
    destruct (Doctor.Body.id b); [discriminate|reflexivity].
  - (* DELETE /api/doctors/:id *)
    destruct (delete_doctors_effect id st) as [->|(i & -> & ->)]; [exact Inv|].
    simpl. intros q Hq. rewrite key_taken_delete_first; [auto|].
    intros E. apply negb_true_iff in Keep.
    assert (X : existsb (fun p => Patient.doctorId p =? i) (patients st) = true).
    { apply existsb_exists. exists q. split; [exact Hq|]. apply Z.eqb_eq. exact E. }
    congruence.
  - destruct (medicines_untouched (PostMedicines b) st eq_refl) as [Ep Ed].
    simpl in Ep, Ed. rewrite Ep, Ed. exact Inv.
  - destruct (medicines_untouched (PutMedicines id b) st eq_refl) as [Ep Ed].
    simpl in Ep, Ed. rewrite Ep, Ed. exact Inv.
  - destruct (medicines_untouched (DeleteMedicines id) st eq_refl) as [Ep Ed].
    simpl in Ep, Ed. rewrite Ep, Ed. exact Inv.
Qed.

(** *** Unique keys *)

(** A create that reaches the store with an id already taken is thrown
    back, whatever the collection. *)
Lemma create_taken {D} (key : D -> Z) coll set (doc : option D) (st : store) :
  match doc with Some d => key_taken key (key d) (coll st) = true | None => True end ->
  exists e, create key coll set doc st = (inr e, st).
Proof.
  unfold create. destruct doc as [d|]; [|eexists; reflexivity].
  intros T. unfold bind, gets, throw. rewrite T. eexists; reflexivity.
Qed.

Lemma taken_is_unexpected {D} (key : D -> Z) coll set (n : Z) (doc : option D) (st : store) :
  key_taken key n (coll st) = true ->
  (forall d, doc = Some d -> key d = n) ->
  let run := try_catch (bind (create key coll set doc) (fun d => ret (Res 201 (Data d))))
                       server_error st in
  classify (fst run) = Unexpected /\ snd run = st.
Proof.
  intros T K.
  destruct (create_taken key coll set doc st) as [e E].
  { destruct doc as [d|]; [|exact I]. rewrite (K d eq_refl). exact T. }
  unfold try_catch, bind. rewrite E. split; reflexivity.
Qed.

Lemma post_doctors_checks_conflict b st :
  findOne Employee.id (number (Doctor.Body.empId b)) (employees st) <> None ->
  findOne Doctor.empId (number (Doctor.Body.empId b)) (doctors st) <> None ->
  post_doctors_checks b st
  = (inl (Some (Res 400 (Message "Doctor already exists with this employee ID"))), st).
Proof.
  intros He Hd. unfold post_doctors_checks, bind.
  rewrite (Model_findOne_found _ _ _ _ He).
  destruct (findOne Employee.id _ _); [|congruence].
  rewrite (Model_findOne_found _ _ _ _ Hd).
  destruct (findOne Doctor.empId _ _); [|congruence].
  reflexivity.
Qed.

Lemma post_doctors_checks_pass b st :
  findOne Employee.id (number (Doctor.Body.empId b)) (employees st) <> None ->
  findOne Doctor.empId (number (Doctor.Body.empId b)) (doctors st) = None ->
  post_doctors_checks b st = (inl None, st).
Proof.
  intros He Hd. pose proof (number_casts _ _ _ He) as C.
  unfold post_doctors_checks, bind.
  rewrite (Model_findOne_found _ _ _ _ He).
  destruct (findOne Employee.id _ _); [|congruence].
  rewrite Model_findOne_run, C, Hd. reflexivity.
Qed.

Lemma post_doctors_conflict b st :
  findOne Employee.id (number (Doctor.Body.empId b)) (employees st) <> None ->
  findOne Doctor.empId (number (Doctor.Body.empId b)) (doctors st) <> None ->
  post_doctors b st
  = (Res 400 (Message "Doctor already exists with this employee ID"), st).
Proof.
  intros He Hd. unfold post_doctors, post_doctors_body, try_catch, bind.
  rewrite (post_doctors_checks_conflict b st He Hd). reflexivity.
Qed.


(** C5, as amended.  Create Doctor twice with the same [empId] (an
    existing employee no doctor refers to yet), one request after the
    other, while the stored doctor ids are safe integers: the first
    request succeeds, the second is answered 400 (Conflict) and stores
    nothing, and exactly one doctor with that [empId] is stored.  The
    [id] of a patient, doctor or medicine is not taken from the request;
    when the create step of a POST reaches the store with an id that is
    already taken, the answer is 500 (Unexpected), not Conflict, and the
    store is unchanged. *)
Theorem unique_key_conflicts (st : store) :
  (forall (b1 b2 : Doctor.Body.t) (e c1 : Z),
      Doctor.Body.empId b1 = Some (Num e) -> Doctor.Body.empId b2 = Some (Num e) ->
      Doctor.Body.charges b1 = Some (Num c1) ->
      (exists emp, In emp (employees st) /\ Employee.id emp = e) ->
      (forall d, In d (doctors st) -> Doctor.empId d <> e) ->
      (forall d, In d (doctors st) -> safe (Doctor.id d) = true) ->
      let first := post_doctors b1 st in
      let second := post_doctors b2 (snd first) in
      classify (fst first) = Success
      /\ classify (fst second) = Conflict
      /\ snd second = snd first
      /\ List.length (filter (fun d => Doctor.empId d =? e) (doctors (snd second))) = 1%nat)
  /\ (forall (n : Z) (b : Patient.Body.t),
        key_taken Patient.id n (patients st) = true ->
        let run := try_catch (post_patients_create n b) server_error st in
        classify (fst run) = Unexpected /\ snd run = st)
  /\ (forall (n : Z) (b : Doctor.Body.t),
        key_taken Doctor.id n (doctors st) = true ->
        let run := try_catch (post_doctors_create n b) server_error st in
        classify (fst run) = Unexpected /\ snd run = st)
  /\ (forall (n : Z) (b : Medicine.Body.t),
        key_taken Medicine.id n (medicines st) = true ->
        let run := try_catch (post_medicines_create n b) server_error st in
        classify (fst run) = Unexpected /\ snd run = st).
Proof.
  split; [|split; [|split]].
  - intros b1 b2 e c1 E1 E2 C1 (emp & Hemp & Eemp) Free Safe first second.
    assert (Femp : findOne Employee.id (Some e) (employees st) <> None).
    { intros N. apply (proj1 (findOne_none _ _ _) N emp Hemp). congruence. }
    assert (Fdoc : findOne Doctor.empId (Some e) (doctors st) = None).
    { apply findOne_none. intros d Hd [= Ed]. exact (Free d Hd (eq_sym Ed)). }
    set (d1 := Doctor.mk (newId Doctor.id (doctors st)) e c1).
    assert (R1 : post_doctors b1 st = (Res 201 (Data d1), set_doctors (fun c => c ++ [d1]) st)).
    { apply post_doctors_ok; rewrite ?E1; auto.
      - unfold Doctor.validate. rewrite E1, C1. reflexivity.
      - apply newId_not_taken. exact Safe. }
    subst second first. rewrite R1. cbn [fst snd].
    rewrite (post_doctors_conflict b2 (set_doctors (fun c => c ++ [d1]) st)).
    2: { rewrite E2. exact Femp. }
    2: { rewrite E2. apply (findOne_app_new Doctor.empId e (doctors st) d1 eq_refl). }
    cbn [fst snd doctors set_doctors].
    repeat split.
    rewrite (filter_key_app_new Doctor.empId e (doctors st) d1 Free eq_refl).
    reflexivity.
  - intros n b T. unfold post_patients_create.
    apply (taken_is_unexpected Patient.id patients set_patients n); [exact T|].
    intros d V. eapply validate_patient_id; eauto.
  - intros n b T. unfold post_doctors_create.
    apply (taken_is_unexpected Doctor.id doctors set_doctors n); [exact T|].
    intros d V. eapply validate_doctor_id; eauto.
  - intros n b T. unfold post_medicines_create.
    apply (taken_is_unexpected Medicine.id medicines set_medicines n); [exact T|].
    intros d V. eapply validate_medicine_id; eauto.
Qed.

(** *** Updates *)

Lemma kept_set_req {A} (v : option A) (old : A) : kept v old (set_req v old).
Proof. intros ->. reflexivity. Qed.

Lemma kept_set_opt {A} (v : option A) (old : option A) : kept v old (set_opt v old).
Proof. intros ->. reflexivity. Qed.

Lemma kept_number_req (v : option numarg) (old : Z) : kept v old (set_req (number v) old).
Proof. intros ->. reflexivity. Qed.

Lemma kept_number_opt (v : option numarg) (old : option Z) :
  kept v old (set_opt (number v) old).
Proof. intros ->. reflexivity. Qed.

Lemma kept_date_req (v : option datearg) (old : string) : kept v old (set_req (date v) old).
Proof. intros ->. reflexivity. Qed.

Lemma patient_apply_frame b p : Patient.frame b p (Patient.apply b p).
Proof.
  unfold Patient.frame, Patient.apply. simpl.
  repeat split;
    solve [apply kept_set_req | apply kept_set_opt | apply kept_number_req
          | apply kept_number_opt | apply kept_date_req].
Qed.

Lemma doctor_apply_frame b d : Doctor.frame b d (Doctor.apply b d).
Proof. unfold Doctor.frame, Doctor.apply. simpl. repeat split; apply kept_number_req. Qed.

Lemma medicine_apply_frame b m : Medicine.frame b m (Medicine.apply b m).
Proof.
  unfold Medicine.frame, Medicine.apply. simpl.
  repeat split; solve [apply kept_set_req | apply kept_number_req].
Qed.

(** *** Sample runs *)

Example allocation_after_5 :
  created_id (PostPatients (Examples.admission 1))
             (Examples.clinic [Doctor.mk 1 1 300]
                [Examples.admitted 2 1; Examples.admitted 5 1; Examples.admitted 3 1])
  = Some (5 + 1)
  /\ created_id (PostDoctors (Examples.hire 1 300)) (Examples.clinic [] []) = Some 1
  /\ created_id (PostMedicines (Examples.drug "aspirin" 5)) (Examples.pharmacy 5)
     = Some (5 + 1).
Proof.
  split; [|split].
  - destruct (sequential_id_allocation
                (PostPatients (Examples.admission 1))
                (Examples.clinic [Doctor.mk 1 1 300]
                   [Examples.admitted 2 1; Examples.admitted 5 1; Examples.admitted 3 1])
                eq_refl) as (i & E & _ & _ & M).
    + simpl. intros j [<-|[<-|[<-|[]]]]; reflexivity.
    + rewrite E. f_equal. apply M.
      * simpl. auto.
      * simpl. intros j [<-|[<-|[<-|[]]]]; lia.
  - destruct (sequential_id_allocation
                (PostDoctors (Examples.hire 1 300)) (Examples.clinic [] []) eq_refl)
      as (i & E & _ & O & _).
    + simpl. contradiction.
    + rewrite E. f_equal. apply O. reflexivity.
  - destruct (sequential_id_allocation
                (PostMedicines (Examples.drug "aspirin" 5)) (Examples.pharmacy 5) eq_refl)
      as (i & E & _ & _ & M).
    + simpl. intros j [<-|[]]. reflexivity.
    + rewrite E. f_equal. apply M.
      * simpl. auto.
      * simpl. intros j [<-|[]]. lia.
Defined.

(** An id of 2^53 + 2 can be stored (an update may set [id]); the next
    creation is given 2^53 + 4, which is not the highest id plus one.
    With 2^53 as the highest id the creation computes 2^53 again and is
    answered 500. *)
Lemma unsafe_id_has_no_successor :
  medicines (run [PostMedicines (Examples.drug "iodine" 3);
                  PutMedicines 1 (Medicine.Body.mk (Some (Num (2 ^ 53 + 2))) None None)]
                 (Examples.clinic [] []))
  = medicines (Examples.pharmacy (2 ^ 53 + 2))
  /\ ids EMedicine (Examples.pharmacy (2 ^ 53 + 2)) = [2 ^ 53 + 2]
  /\ created_id (PostMedicines (Examples.drug "aspirin" 5)) (Examples.pharmacy (2 ^ 53 + 2))
     = Some (2 ^ 53 + 4)
  /\ 2 ^ 53 + 4 <> (2 ^ 53 + 2) + 1
  /\ created_id (PostMedicines (Examples.drug "aspirin" 5)) (Examples.pharmacy (2 ^ 53)) = None
  /\ post_medicines (Examples.drug "aspirin" 5) (Examples.pharmacy (2 ^ 53))
     = (Res 500 (ServerError "E11000 duplicate key error"), Examples.pharmacy (2 ^ 53)).
Proof. vm_compute. repeat split; discriminate. Qed.

Example admission_to_unknown_doctor :
  classify (fst (post_patients (Examples.admission 9) (Examples.clinic [Doctor.mk 1 1 300] [])))
  = NotFound
  /\ snd (post_patients (Examples.admission 9) (Examples.clinic [Doctor.mk 1 1 300] []))
     = Examples.clinic [Doctor.mk 1 1 300] []
  /\ newId Patient.id
       (patients (snd (post_patients (Examples.admission 9)
                                     (Examples.clinic [Doctor.mk 1 1 300] []))))
     = newId Patient.id (patients (Examples.clinic [Doctor.mk 1 1 300] [])).
Proof.
  apply (proj1 (create_patient_missing_reference (Examples.admission 9)
                  (Examples.clinic [Doctor.mk 1 1 300] []))).
  right. split; [discriminate|]. split; [reflexivity|].
  simpl. intros d [<-|[]]. discriminate.
Defined.

(** A [doctorId] that is no number is the id of no doctor, and the
    request is answered 500, not 404. *)
Lemma uncastable_doctor_is_a_server_error :
  post_patients
    (Patient.Body.mk None (Some (Num 1)) None (Some NotANumber)
       (Some (ADate "2024-03-01")) (Some "O+") (Some (ADate "1990-01-01"))
       None None None (Some "fever"))
    (Examples.clinic [Doctor.mk 1 1 300] [])
  = (Res 500 (ServerError "Cast failed"), Examples.clinic [Doctor.mk 1 1 300] [])
  /\ classify (fst (post_patients
                      (Patient.Body.mk None (Some (Num 1)) None (Some NotANumber)
                         (Some (ADate "2024-03-01")) (Some "O+") (Some (ADate "1990-01-01"))
                         None None None (Some "fever"))
                      (Examples.clinic [Doctor.mk 1 1 300] [])))
     <> NotFound.
Proof. vm_compute. split; [reflexivity|discriminate]. Qed.

Example same_employee_twice :
  classify (fst (post_doctors (Examples.hire 1 300) (Examples.clinic [] []))) = Success
  /\ classify (fst (post_doctors (Examples.hire 1 450)
                      (snd (post_doctors (Examples.hire 1 300) (Examples.clinic [] [])))))
     = Conflict
  /\ snd (post_doctors (Examples.hire 1 450)
            (snd (post_doctors (Examples.hire 1 300) (Examples.clinic [] []))))
     = snd (post_doctors (Examples.hire 1 300) (Examples.clinic [] []))
  /\ List.length
       (filter (fun d => Doctor.empId d =? 1)
          (doctors (snd (post_doctors (Examples.hire 1 450)
                           (snd (post_doctors (Examples.hire 1 300) (Examples.clinic [] [])))))))
     = 1%nat.
Proof.
  apply (proj1 (unique_key_conflicts (Examples.clinic [] []))
           (Examples.hire 1 300) (Examples.hire 1 450) 1 300 eq_refl eq_refl eq_refl).
  - exists (Employee.mk 1). simpl. auto.
  - simpl. contradiction.
  - simpl. contradiction.
Defined.

Example fresh_above_2_5_3 :
  created_id (PostPatients (Examples.admission 1))
             (Examples.clinic [Doctor.mk 1 1 300]
                [Examples.admitted 2 1; Examples.admitted 5 1; Examples.admitted 3 1])
  = Some 6
  /\ 5 < 6
  /\ created_id (PostPatients (Examples.admission 1))
       (run [PostPatients (Examples.admission 1); DeletePatients 6]
          (Examples.clinic [Doctor.mk 1 1 300]
             [Examples.admitted 2 1; Examples.admitted 5 1; Examples.admitted 3 1]))
     = Some 6.
Proof.
  split; [reflexivity|].
  destruct (created_id_above_stored_ids
              (PostPatients (Examples.admission 1))
              (Examples.clinic [Doctor.mk 1 1 300]
                 [Examples.admitted 2 1; Examples.admitted 5 1; Examples.admitted 3 1])
              6 eq_refl) as [A R].
  split; [|exact R].
  apply A. simpl. auto.
Defined.

Example unreferenced_doctor_deleted :
  patients_reference_doctors
    (handle (DeleteDoctors 2)
       (Examples.clinic [Doctor.mk 1 1 300; Doctor.mk 2 1 450] [Examples.admitted 1 1]))
  = true.
Proof.
  apply (references_kept (DeleteDoctors 2)
           (Examples.clinic [Doctor.mk 1 1 300; Doctor.mk 2 1 450] [Examples.admitted 1 1]));
    reflexivity.
Defined.

(** An update of a doctor that carries an [id] moves the doctor away
    from the patients that refer to it. *)
Lemma rekeyed_doctor_leaves_patient :
  patients_reference_doctors
    (handle (PutDoctors 1 (Doctor.Body.mk (Some (Num 2)) None None))
       (Examples.clinic [Doctor.mk 1 1 300] [Examples.admitted 1 1]))
  = false.
Proof. reflexivity. Qed.

(** [doctorId: 0] is falsy: the patient update skips the doctor lookup
    and stores it. *)
Lemma doctor_zero_skips_the_lookup :
  patients_reference_doctors
    (handle (PutPatients 1 (Patient.Body.mk None None None (Some (Num 0)) None None None
                                            None None None None))
       (Examples.clinic [Doctor.mk 1 1 300] [Examples.admitted 1 1]))
  = false.
Proof. reflexivity. Qed.

(** Create, delete, create: the second patient gets the id of the first. *)
Lemma deleted_id_is_reused :
  created_id (PostPatients (Examples.admission 1)) (Examples.clinic [Doctor.mk 1 1 300] [])
  = Some 1
  /\ patients (run [PostPatients (Examples.admission 1); DeletePatients 1]
                   (Examples.clinic [Doctor.mk 1 1 300] []))
     = []
  /\ created_id (PostPatients (Examples.admission 1))
       (run [PostPatients (Examples.admission 1); DeletePatients 1]
            (Examples.clinic [Doctor.mk 1 1 300] []))
     = Some 1.
Proof. vm_compute. auto. Qed.

(** Hire a doctor, admit a patient to them, delete the doctor: the
    patient stays, referring to a doctor that is gone. *)
Lemma deleted_doctor_leaves_patient :
  patients_reference_doctors (Examples.clinic [] []) = true
  /\ patients (run [PostDoctors (Examples.hire 1 300); PostPatients (Examples.admission 1);
                    DeleteDoctors 1] (Examples.clinic [] []))
     = [Examples.admitted 1 1]
  /\ doctors (run [PostDoctors (Examples.hire 1 300); PostPatients (Examples.admission 1);
                   DeleteDoctors 1] (Examples.clinic [] []))
     = []
  /\ patients_reference_doctors
       (run [PostDoctors (Examples.hire 1 300); PostPatients (Examples.admission 1);
             DeleteDoctors 1] (Examples.clinic [] []))
     = false.
Proof. vm_compute. auto. Qed.

(** Two medicine creations that both read the highest id before either
    inserts: both carry id 1, one is stored, the other is answered 500. *)
Lemma racing_creates_answer_500 :
  fst (post_medicines_interleaved (Examples.drug "aspirin" 5) (Examples.drug "ibuprofen" 7)
         (Examples.clinic [] []))
  = (Res 201 (Data (Medicine.mk 1 "aspirin" 5)),
     Res 500 (ServerError "E11000 duplicate key error"))
  /\ medicines (snd (post_medicines_interleaved (Examples.drug "aspirin" 5)
                       (Examples.drug "ibuprofen" 7) (Examples.clinic [] [])))
     = [Medicine.mk 1 "aspirin" 5]
  /\ classify (snd (fst (post_medicines_interleaved (Examples.drug "aspirin" 5)
                           (Examples.drug "ibuprofen" 7) (Examples.clinic [] []))))
     = Unexpected
  /\ classify (snd (fst (post_medicines_interleaved (Examples.drug "aspirin" 5)
                           (Examples.drug "ibuprofen" 7) (Examples.clinic [] []))))
     <> Conflict.
Proof. vm_compute. repeat split. discriminate. Qed.

End NumericFacts.

(* ------------------------------------------------------------------ *)
(** ** Facts about the routes over Mongo [_id]s *)

Module KeyedFacts.
Import Keyed.
Local Open Scope string_scope.
Local Open Scope list_scope.
Local Open Scope Z_scope.

Section Documents.
Context {D : Type} `{Document D}.

Lemma has_id_true (o : oid) (d : D) : has_id o d = true <-> doc_id d = o.
Proof. unfold has_id. apply N.eqb_eq. Qed.

Lemma find_has_id_In (o : oid) (c : list D) (d : D) :
  In d c -> doc_id d = o -> find (has_id o) c <> None.
Proof.
  intros Hin E N. apply (find_none _ _ N) in Hin.
  apply has_id_true in E. congruence.
Qed.

Lemma find_replace_by_id (d' : D) (c : list D) :
  find (has_id (doc_id d')) c <> None ->
  find (has_id (doc_id d')) (replace_by_id d' c) = Some d'.
Proof.
  induction c as [|x c' IH]; simpl; [congruence|].
  destruct (has_id (doc_id d') x) eqn:E; simpl.
  - intros _. unfold has_id at 1. rewrite N.eqb_refl. reflexivity.
  - rewrite E. exact IH.
Qed.

Lemma In_replace_by_id (d' : D) (c : list D) :
  find (has_id (doc_id d')) c <> None -> In d' (replace_by_id d' c).
Proof.
  intros F. apply find_replace_by_id in F. apply find_some in F. tauto.
Qed.

Lemma In_replace_by_id_inv (d' x : D) (c : list D) :
  In x (replace_by_id d' c) -> x = d' \/ In x c.
Proof.
  induction c as [|y c' IH]; simpl; [tauto|].
  destruct (has_id (doc_id d') y); simpl; intuition.
Qed.

End Documents.

Ltac unfold_keyed :=
  unfold post_assigned, post_assigned_body, put_assigned, put_assigned_body,
    delete_assigned, delete_assigned_body, findOne_assignment,
    post_visits, post_visits_body, put_visits, put_visits_body,
    delete_visits, delete_visits_body, findOne_visit,
    post_wards, post_wards_body, put_wards, put_wards_body,
    delete_wards, delete_wards_body,
    findById, insert, save, remove, ObjectId,
    server_error, not_found_or_server_error,
    try_catch, bind, gets, ret, throw, modify in *.

(** Case analysis on whatever the goal still branches on. *)
Ltac branch :=
  match goal with
  | |- context [match ?x with _ => _ end] =>
      lazymatch x with
      | context [match _ with _ => _ end] => fail
      | _ => destruct x eqn:?
      end
  end.

Lemma role_allowed role :
  role = "doctor" \/ role = "admin" \/ role = "staff" <->
  not_doctor_admin_staff role = false.
Proof.
  unfold not_doctor_admin_staff. split.
  - intros [->|[->| ->]]; reflexivity.
  - intros H.
    destruct (String.eqb_spec role "doctor"); [auto|].
    destruct (String.eqb_spec role "admin"); [auto|].
    destruct (String.eqb_spec role "staff"); [auto|].
    discriminate.
Qed.

Lemma truthy_str_Some s : s <> "" -> truthy_str (Some s) = true.
Proof.
  intros N. simpl. destruct (String.eqb_spec s ""); [contradiction|reflexivity].
Qed.

(** *** Lookups by [_id] *)

Lemma find_patient p (c : list Patient.t) :
  find (has_id p) c <> None <-> In (Patient.mk p) c.
Proof.
  split.
  - destruct (find (has_id p) c) as [[x]|] eqn:F; [intros _|congruence].
    apply find_some in F. destruct F as [Hin E]. apply has_id_true in E.
    simpl in E. unfold doc_id, Patient_Document in E. simpl in E. subst x. exact Hin.
  - intros Hin. exact (find_has_id_In p c _ Hin eq_refl).
Qed.

Lemma find_doctor d (c : list Doctor.t) :
  find (has_id d) c <> None <-> In (Doctor.mk d) c.
Proof.
  split.
  - destruct (find (has_id d) c) as [[x]|] eqn:F; [intros _|congruence].
    apply find_some in F. destruct F as [Hin E]. apply has_id_true in E.
    unfold doc_id, Doctor_Document in E. simpl in E. subst x. exact Hin.
  - intros Hin. exact (find_has_id_In d c _ Hin eq_refl).
Qed.

Lemma find_medicine m (c : list Medicine.t) :
  find (has_id m) c <> None <-> In (Medicine.mk m) c.
Proof.
  split.
  - destruct (find (has_id m) c) as [[x]|] eqn:F; [intros _|congruence].
    apply find_some in F. destruct F as [Hin E]. apply has_id_true in E.
    unfold doc_id, Medicine_Document in E. simpl in E. subst x. exact Hin.
  - intros Hin. exact (find_has_id_In m c _ Hin eq_refl).
Qed.

(** *** Under the repository's schemas *)

(** No request stores a ward, a visit or an assignment: every [save]
    of a document a route has built is refused. *)
Lemma repository_keeps_empty numeric r st :
  wards st = [] /\ visits st = [] /\ assigned st = [] ->
  wards (handle (repository_schemas numeric) r st) = []
  /\ visits (handle (repository_schemas numeric) r st) = []
  /\ assigned (handle (repository_schemas numeric) r st) = [].
Proof.
  intros (W & V & A).
  destruct r; simpl; unfold_keyed; simpl; rewrite ?W, ?V, ?A; simpl;
    repeat (branch; simpl); rewrite ?W, ?V, ?A; auto.
Qed.

Lemma repository_run_keeps_empty numeric rs st :
  wards st = [] /\ visits st = [] /\ assigned st = [] ->
  wards (run (repository_schemas numeric) rs st) = []
  /\ visits (run (repository_schemas numeric) rs st) = []
  /\ assigned (run (repository_schemas numeric) rs st) = [].
Proof.
  revert st. induction rs as [|r rs IH]; simpl; intros st E; [exact E|].
  apply IH. apply repository_keeps_empty. exact E.
Qed.

Lemma repository_stores_nothing numeric st :
  reachable (repository_schemas numeric) st ->
  wards st = [] /\ visits st = [] /\ assigned st = [].
Proof.
  intros [rs <-]. apply repository_run_keeps_empty. repeat split.
Qed.

(** POST api/medicinesassigned by an authorised caller for a stored
    patient and a stored medicine, where no assignment is stored: the
    document the handler builds is refused on [save]. *)
Lemma post_assigned_refused numeric role p m rx q st :
  not_doctor_admin_staff role = false ->
  rx <> "" ->
  In (Patient.mk p) (patients st) ->
  In (Medicine.mk m) (medicines st) ->
  assigned st = [] ->
  let answer := post_assigned (repository_schemas numeric) role
                  (MedicineAssigned.Body.mk (Some (Oid p)) (Some (Oid m)) (Some rx) (Some q))
                  st in
  fst answer = Res 500 (ServerError "Server Error")
  /\ patients (snd answer) = patients st
  /\ medicines (snd answer) = medicines st
  /\ assigned (snd answer) = [].
Proof.
  intros R Rx Hp Hm E. apply truthy_str_Some in Rx.
  apply find_patient in Hp. apply find_medicine in Hm.
  unfold post_assigned, post_assigned_validation, notEmpty.
  cbn [MedicineAssigned.Body.pat_id MedicineAssigned.Body.medicine_id
       MedicineAssigned.Body.prescription MedicineAssigned.Body.medicine_qty
       notEmpty_id defined check].
  rewrite Rx. cbn [app isEmpty negb]. unfold_keyed. rewrite R. cbv zeta.
  destruct (find (has_id p) (patients st)); [|congruence].
  destruct (find (has_id m) (medicines st)); [|congruence].
  rewrite E. cbn. repeat split. exact E.
Qed.

(** C1.  Assign Medicine twice for the same patient and medicine, in
    any state the API can reach: each call gets as far as building the
    assignment, and the document it saves is refused by the
    repository's MedicineAssigned schema, which requires [patId],
    [medicineId] and [medicineQty] where the route writes [pat_id],
    [medicine_id] and [medicine_qty].  Both calls are answered 500 and
    no assignment is stored after either: after quantities 3 and 4
    there is no record with quantity 7, and none for the pair at all. *)
Theorem assign_medicine_is_refused (numeric : string -> bool) (st : store) (role : string)
    (p m : oid) (rx1 rx2 : string) (q1 q2 : Z) :
  reachable (repository_schemas numeric) st ->
  role = "doctor" \/ role = "admin" \/ role = "staff" ->
  rx1 <> "" -> rx2 <> "" ->
  In (Patient.mk p) (patients st) ->
  In (Medicine.mk m) (medicines st) ->
  let sch := repository_schemas numeric in
  let first := post_assigned sch role
                 (MedicineAssigned.Body.mk (Some (Oid p)) (Some (Oid m)) (Some rx1) (Some q1))
                 st in
  let second := post_assigned sch role
                  (MedicineAssigned.Body.mk (Some (Oid p)) (Some (Oid m)) (Some rx2) (Some q2))
                  (snd first) in
  fst first = Res 500 (ServerError "Server Error")
  /\ assigned (snd first) = []
  /\ fst second = Res 500 (ServerError "Server Error")
  /\ assigned (snd second) = []
  /\ filter (assigned_to p m) (assigned (snd second)) = [].
Proof.
  intros Reach Role Rx1 Rx2 Hp Hm sch first second.
  apply role_allowed in Role.
  apply repository_stores_nothing in Reach. destruct Reach as (_ & _ & A).
  destruct (post_assigned_refused numeric role p m rx1 q1 st Role Rx1 Hp Hm A)
    as (R1 & P1 & M1 & A1).
  fold sch in R1, P1, M1, A1. fold first in R1, P1, M1, A1.
  rewrite <- P1 in Hp. rewrite <- M1 in Hm.
  destruct (post_assigned_refused numeric role p m rx2 q2 (snd first) Role Rx2 Hp Hm A1)
    as (R2 & _ & _ & A2).
  fold sch in R2, A2. fold second in R2, A2.
  rewrite A2. repeat split; assumption.
Qed.

(** *** Recording a doctor visit *)

Lemma isEmpty_nil {A} (l : list A) : l = [] -> negb (isEmpty l) = false.
Proof. intros ->. reflexivity. Qed.

Lemma isEmpty_cons {A} (l : list A) : l <> [] -> negb (isEmpty l) = true.
Proof. destruct l; [contradiction|reflexivity]. Qed.


(** POST api/doctorvisits for a stored patient and a stored doctor,
    where no visit is stored: the filter's [visits] does not cast, or
    the visit that is built is refused by the schema. *)
Lemma post_visits_refused numeric role p d v st :
  v <> "" ->
  In (Patient.mk p) (patients st) ->
  In (Doctor.mk d) (doctors st) ->
  visits st = [] ->
  let answer := post_visits (repository_schemas numeric) role
                  (DoctorVisit.Body.mk (Some (Oid p)) (Some (Oid d)) (Some v)) st in
  fst answer = Res 500 (ServerError "Server Error")
  /\ patients (snd answer) = patients st
  /\ doctors (snd answer) = doctors st
  /\ visits (snd answer) = [].
Proof.
  intros V Hp Hd E. apply truthy_str_Some in V.
  apply find_patient in Hp. apply find_doctor in Hd.
  unfold post_visits, post_visits_validation, notEmpty.
  cbn [DoctorVisit.Body.pat_id DoctorVisit.Body.doctor_id DoctorVisit.Body.visits
       notEmpty_id defined check].
  rewrite V. cbn [app isEmpty negb]. unfold_keyed. cbv zeta.
  destruct (find (has_id p) (patients st)); [|congruence].
  destruct (find (has_id d) (doctors st)); [|congruence].
  cbn [visits_casts repository_schemas].
  destruct (numeric v); cbn; rewrite ?E; cbn; repeat split; assumption.
Qed.

(** *** Authorization before lookups *)

Lemma role_refused role :
  role <> "doctor" -> role <> "admin" -> role <> "staff" ->
  not_doctor_admin_staff role = true.
Proof.
  intros Nd Na Ns. unfold not_doctor_admin_staff.
  destruct (String.eqb_spec role "doctor"); [contradiction|].
  destruct (String.eqb_spec role "admin"); [contradiction|].
  destruct (String.eqb_spec role "staff"); [contradiction|].
  reflexivity.
Qed.


(** C10, as amended.  Authorization precedes the existence checks of
    Assign Medicine: a request that passes the route's field checks and
    comes from a role other than doctor, admin and staff is answered 401
    (Forbidden) with the store unchanged, whether or not the patient and
    the medicine it names exist; and a 404 (NotFound) answer is only
    ever given to one of those three roles.  A request that fails a
    field check is answered 400 (ValidationError) before the role is
    read. *)
Theorem authorization_precedes_lookups (sch : schemas) (role : string)
    (b : MedicineAssigned.Body.t) (st : store) :
  (post_assigned_validation b = [] ->
   role <> "doctor" -> role <> "admin" -> role <> "staff" ->
   classify (fst (post_assigned sch role b st)) = Forbidden
   /\ snd (post_assigned sch role b st) = st)
  /\ (classify (fst (post_assigned sch role b st)) = NotFound ->
      role = "doctor" \/ role = "admin" \/ role = "staff")
  /\ (post_assigned_validation b <> [] ->
      classify (fst (post_assigned sch role b st)) = ValidationError
      /\ snd (post_assigned sch role b st) = st).
Proof.
  split; [|split].
  - intros Valid Nd Na Ns. unfold post_assigned. cbv zeta.
    rewrite (isEmpty_nil _ Valid). unfold_keyed.
    rewrite (role_refused role Nd Na Ns). split; reflexivity.
  - intros NF. apply role_allowed.
    destruct (not_doctor_admin_staff role) eqn:R; [|reflexivity].
    exfalso. revert NF. unfold post_assigned. cbv zeta.
    destruct (negb _); [discriminate|].
    unfold_keyed. rewrite R. discriminate.
  - intros Inv. unfold post_assigned. cbv zeta.
    rewrite (isEmpty_cons _ Inv). split; reflexivity.
Qed.

(** C8.  The role test guards the assignment of medicines but not the
    recording of visits.  POST api/doctorvisits answers every role as it
    answers an admin, and never 401 (Forbidden): an account with the
    role [patient] is told 404 when the patient it names is not stored,
    and 500 when patient and doctor are, where POST
    api/medicinesassigned refuses the same account with 401. *)
Theorem visit_recording_skips_role_check :
  (forall sch role b st,
      post_visits sch role b st = post_visits sch "admin" b st
      /\ classify (fst (post_visits sch role b st)) <> Forbidden)
  /\ post_visits Examples.schemas "patient" (Examples.visit 1 8 "3") Examples.ward_round
     = (Res 404 (Message "Patient not found"), Examples.ward_round)
  /\ fst (post_visits Examples.schemas "patient" (Examples.visit 7 8 "3") Examples.ward_round)
     = Res 500 (ServerError "Server Error")
  /\ visits (snd (post_visits Examples.schemas "patient" (Examples.visit 7 8 "3")
                    Examples.ward_round))
     = []
  /\ classify (fst (post_assigned Examples.schemas "patient"
                      (Examples.prescribe 1 9 "one at night" 2) Examples.ward_round))
     = Forbidden.
Proof.
  split; [|vm_compute; auto].
  intros sch role b st. split; [reflexivity|].
  unfold post_visits. cbv zeta.
  destruct (negb _); [discriminate|].
  unfold_keyed. repeat (branch; try discriminate).
Qed.

(** *** Updates *)

Lemma put_wards_update sch role id b st :
  snd (put_wards sch role id b st) = st
  \/ exists w, In w (wards st) /\ id = Oid (Ward._id w)
               /\ fst (put_wards sch role id b st) = Res 200 (Data (Some (Ward.assign b w)))
               /\ snd (put_wards sch role id b st)
                  = set_wards (replace_by_id (Ward.assign b w)) st.
Proof.
  unfold_keyed. cbv zeta.
  destruct (negb _); [left; reflexivity|].
  destruct (not_admin role); [left; reflexivity|].
  destruct id as [o|]; [|left; reflexivity]. cbn.
  destruct (find (has_id o) (wards st)) as [w|] eqn:F; [|left; reflexivity].
  destruct (ward_ok sch _); [|left; reflexivity]. cbn.
  apply find_some in F. destruct F as [Hin E]. apply has_id_true in E.
  right. exists w. repeat split; [exact Hin|]. f_equal. symmetry. exact E.
Qed.

Lemma put_visits_update sch role id b st :
  snd (put_visits sch role id b st) = st
  \/ exists v, In v (visits st) /\ id = Oid (DoctorVisit._id v)
               /\ fst (put_visits sch role id b st)
                  = Res 200 (Data (Some (DoctorVisit.assign b v)))
               /\ snd (put_visits sch role id b st)
                  = set_visits (replace_by_id (DoctorVisit.assign b v)) st.
Proof.
  unfold_keyed. cbv zeta.
  destruct (negb _); [left; reflexivity|].
  destruct id as [o|]; [|left; reflexivity]. cbn.
  destruct (find (has_id o) (visits st)) as [v|] eqn:F; [|left; reflexivity].
  destruct (not_doctor_admin_staff role); [left; reflexivity|].
  destruct (visit_ok sch _); [|left; reflexivity]. cbn.
  apply find_some in F. destruct F as [Hin E]. apply has_id_true in E.
  assert (Found : find (has_id (doc_id (DoctorVisit.assign b v))) (visits st) <> None).
  { apply (find_has_id_In _ _ v Hin). reflexivity. }
  change (DoctorVisit._id v) with (doc_id (DoctorVisit.assign b v)).
  rewrite (find_replace_by_id _ _ Found).
  right. exists v. repeat split; [exact Hin|]. f_equal. symmetry. exact E.
Qed.

Lemma put_assigned_update sch role id b st :
  snd (put_assigned sch role id b st) = st
  \/ exists a, In a (assigned st) /\ id = Oid (MedicineAssigned._id a)
               /\ fst (put_assigned sch role id b st)
                  = Res 200 (Data (Some (MedicineAssigned.assign b a)))
               /\ snd (put_assigned sch role id b st)
                  = set_assigned (replace_by_id (MedicineAssigned.assign b a)) st.
Proof.
  unfold_keyed. cbv zeta.
  destruct (negb _); [left; reflexivity|].
  destruct (not_doctor_admin_staff role); [left; reflexivity|].
  destruct id as [o|]; [|left; reflexivity]. cbn.
  destruct (find (has_id o) (assigned st)) as [a|] eqn:F; [|left; reflexivity].
  destruct (assigned_ok sch _); [|left; reflexivity]. cbn.
  apply find_some in F. destruct F as [Hin E]. apply has_id_true in E.
  assert (Found : find (has_id (doc_id (MedicineAssigned.assign b a))) (assigned st) <> None).
  { apply (find_has_id_In _ _ a Hin). reflexivity. }
  change (MedicineAssigned._id a) with (doc_id (MedicineAssigned.assign b a)).
  rewrite (find_replace_by_id _ _ Found).
  right. exists a. repeat split; [exact Hin|]. f_equal. symmetry. exact E.
Qed.

Lemma kept_unless {A B} (v : option A) (test : bool) (old new : B) :
  (v = None -> test = false) -> kept v old (if test then new else old).
Proof. intros T E. rewrite (T E). reflexivity. Qed.

Lemma ward_assign_frame b w : Ward.frame b w (Ward.assign b w).
Proof.
  unfold Ward.frame, Ward.assign. simpl.
  repeat split; apply kept_unless; intros ->; reflexivity.
Qed.

Lemma visit_assign_frame b v : DoctorVisit.frame b v (DoctorVisit.assign b v).
Proof.
  unfold DoctorVisit.frame, DoctorVisit.assign. simpl.
  repeat split; try (intros _; reflexivity).
  apply kept_unless; intros ->; reflexivity.
Qed.

Lemma assigned_assign_frame b a : MedicineAssigned.frame b a (MedicineAssigned.assign b a).
Proof.
  unfold MedicineAssigned.frame, MedicineAssigned.assign. simpl.
  repeat split; try (intros _; reflexivity);
    apply kept_unless; intros ->; reflexivity.
Qed.

(** *** Sample runs *)

(** Patient 7 is given medicine 9 twice, 3 units and then 4: two 500s,
    and no assignment is stored. *)
Example three_then_four_is_refused :
  fst (post_assigned Examples.schemas "doctor" (Examples.prescribe 7 9 "one in the morning" 3)
         Examples.ward_round)
  = Res 500 (ServerError "Server Error")
  /\ fst (post_assigned Examples.schemas "doctor" (Examples.prescribe 7 9 "one at night" 4)
            (snd (post_assigned Examples.schemas "doctor"
                    (Examples.prescribe 7 9 "one in the morning" 3) Examples.ward_round)))
     = Res 500 (ServerError "Server Error")
  /\ assigned (snd (post_assigned Examples.schemas "doctor"
                      (Examples.prescribe 7 9 "one at night" 4)
                      (snd (post_assigned Examples.schemas "doctor"
                              (Examples.prescribe 7 9 "one in the morning" 3)
                              Examples.ward_round))))
     = [].
Proof.
  assert (Rx1 : "one in the morning" <> "") by discriminate.
  assert (Rx2 : "one at night" <> "") by discriminate.
  assert (Hp : In (Patient.mk 7) (patients Examples.ward_round)) by (simpl; auto).
  assert (Hm : In (Medicine.mk 9) (medicines Examples.ward_round)) by (simpl; auto).
  assert (Reach : reachable (repository_schemas Examples.decimal) Examples.ward_round).
  { exists [Elsewhere [Patient.mk 7] [Doctor.mk 8] [Medicine.mk 9]]. reflexivity. }
  destruct (assign_medicine_is_refused Examples.decimal Examples.ward_round "doctor" 7 9
              "one in the morning" "one at night" 3 4
              Reach (or_introl eq_refl) Rx1 Rx2 Hp Hm) as (R1 & _ & R2 & A & _).
  split; [exact R1|]. split; [exact R2|exact A].
Defined.



(** A patient's own account asks for medicine 9 for a patient that does
    not exist. *)
Example patient_role_is_refused_first :
  classify (fst (post_assigned Examples.schemas "patient"
                   (Examples.prescribe 1 9 "one at night" 2) Examples.ward_round))
  = Forbidden
  /\ snd (post_assigned Examples.schemas "patient"
            (Examples.prescribe 1 9 "one at night" 2) Examples.ward_round)
     = Examples.ward_round.
Proof.
  apply (proj1 (authorization_precedes_lookups Examples.schemas "patient"
                  (Examples.prescribe 1 9 "one at night" 2) Examples.ward_round));
    [reflexivity|discriminate|discriminate|discriminate].
Defined.

(** The same account sends no field at all: the answer is 400 with the
    four failed checks, not 401. *)
Lemma unchecked_request_is_not_forbidden :
  post_assigned Examples.schemas "patient" no_assigned_fields Examples.ward_round
  = (Res 400 (Errors ["Patient ID is required"; "Medicine ID is required";
                      "Prescription details are required";
                      "Medicine quantity is required"]),
     Examples.ward_round)
  /\ classify (fst (post_assigned Examples.schemas "patient" no_assigned_fields
                      Examples.ward_round))
     <> Forbidden.
Proof. vm_compute. split; [reflexivity|discriminate]. Qed.

End KeyedFacts.

(* ------------------------------------------------------------------ *)
(** ** Partial updates, over both families of routes *)

Module UpdateFacts.

Import NumericFacts KeyedFacts.
Local Open Scope string_scope.
Local Open Scope list_scope.
Local Open Scope Z_scope.

(** C9. Partial-update frame property: every PUT handler (patients,
    doctors, medicines, wards, doctor visits, medicine assignments), on
    every request, either leaves the store as it was, or answers 200 with
    the target record rewritten, and then every field of the target that
    the payload does not carry is what it was ([frame]); the rewritten
    record is stored and every other stored record was there before. *)
Theorem partial_update_frame :
  (forall i b st,
      snd (Numeric.put_patients i b st) = st
      \/ exists p p',
          In p (Numeric.patients st) /\ i = Num (Numeric.Patient.id p)
          /\ fst (Numeric.put_patients i b st) = Res 200 (Data (Some p'))
          /\ Numeric.Patient.frame b p p'
          /\ In p' (Numeric.patients (snd (Numeric.put_patients i b st)))
          /\ forall q, In q (Numeric.patients (snd (Numeric.put_patients i b st))) ->
                       q = p' \/ In q (Numeric.patients st))
  /\ (forall i b st,
        snd (Numeric.put_doctors i b st) = st
        \/ exists d d',
            In d (Numeric.doctors st) /\ i = Num (Numeric.Doctor.id d)
            /\ fst (Numeric.put_doctors i b st) = Res 200 (Data (Some d'))
            /\ Numeric.Doctor.frame b d d'
            /\ In d' (Numeric.doctors (snd (Numeric.put_doctors i b st)))
            /\ forall q, In q (Numeric.doctors (snd (Numeric.put_doctors i b st))) ->
                         q = d' \/ In q (Numeric.doctors st))
  /\ (forall i b st,
        snd (Numeric.put_medicines i b st) = st
        \/ exists m m',
            In m (Numeric.medicines st) /\ i = Num (Numeric.Medicine.id m)
            /\ fst (Numeric.put_medicines i b st) = Res 200 (Data (Some m'))
            /\ Numeric.Medicine.frame b m m'
            /\ In m' (Numeric.medicines (snd (Numeric.put_medicines i b st)))
            /\ forall q, In q (Numeric.medicines (snd (Numeric.put_medicines i b st))) ->
                         q = m' \/ In q (Numeric.medicines st))
  /\ (forall sch role id b st,
        snd (Keyed.put_wards sch role id b st) = st
        \/ exists w w',
            In w (Keyed.wards st) /\ id = Keyed.Oid (Keyed.Ward._id w)
            /\ fst (Keyed.put_wards sch role id b st) = Res 200 (Data (Some w'))
            /\ Keyed.Ward.frame b w w'
            /\ In w' (Keyed.wards (snd (Keyed.put_wards sch role id b st)))
            /\ forall q, In q (Keyed.wards (snd (Keyed.put_wards sch role id b st))) ->
                         q = w' \/ In q (Keyed.wards st))
  /\ (forall sch role id b st,
        snd (Keyed.put_visits sch role id b st) = st
        \/ exists v v',
            In v (Keyed.visits st) /\ id = Keyed.Oid (Keyed.DoctorVisit._id v)
            /\ fst (Keyed.put_visits sch role id b st) = Res 200 (Data (Some v'))
            /\ Keyed.DoctorVisit.frame b v v'
            /\ In v' (Keyed.visits (snd (Keyed.put_visits sch role id b st)))
            /\ forall q, In q (Keyed.visits (snd (Keyed.put_visits sch role id b st))) ->
                         q = v' \/ In q (Keyed.visits st))
  /\ (forall sch role id b st,
        snd (Keyed.put_assigned sch role id b st) = st
        \/ exists a a',
            In a (Keyed.assigned st) /\ id = Keyed.Oid (Keyed.MedicineAssigned._id a)
            /\ fst (Keyed.put_assigned sch role id b st) = Res 200 (Data (Some a'))
            /\ Keyed.MedicineAssigned.frame b a a'
            /\ In a' (Keyed.assigned (snd (Keyed.put_assigned sch role id b st)))
            /\ forall q, In q (Keyed.assigned (snd (Keyed.put_assigned sch role id b st))) ->
                         q = a' \/ In q (Keyed.assigned st)).
Proof.
  repeat apply conj.
  - intros i b st.
    destruct (put_patients_effect i b st) as [E|(n & p & -> & F & E & R & _)];
      [left; exact E|].
    right. exists p, (Numeric.Patient.apply b p).
    destruct (findOne_some _ _ _ _ F) as [Hin [= K]]. rewrite E. cbn.
    split; [exact Hin|]. split; [congruence|]. split; [exact R|].
    split; [apply patient_apply_frame|].
    split; [eapply In_update_first_new; eauto|].
    intros q. apply In_update_first.
  - intros i b st.
    destruct (put_doctors_effect i b st) as [E|(n & d & -> & F & E & R & _)];
      [left; exact E|].
    right. exists d, (Numeric.Doctor.apply b d).
    destruct (findOne_some _ _ _ _ F) as [Hin [= K]]. rewrite E. cbn.
    split; [exact Hin|]. split; [congruence|]. split; [exact R|].
    split; [apply doctor_apply_frame|].
    split; [eapply In_update_first_new; eauto|].
    intros q. apply In_update_first.
  - intros i b st.
    destruct (put_medicines_effect i b st) as [E|(n & m & -> & F & E & R & _)];
      [left; exact E|].
    right. exists m, (Numeric.Medicine.apply b m).
    destruct (findOne_some _ _ _ _ F) as [Hin [= K]]. rewrite E. cbn.
    split; [exact Hin|]. split; [congruence|]. split; [exact R|].
    split; [apply medicine_apply_frame|].
    split; [eapply In_update_first_new; eauto|].
    intros q. apply In_update_first.
  - intros sch role id b st.
    destruct (put_wards_update sch role id b st) as [E|(w & Hin & Eid & R & E)];
      [left; exact E|].
    right. exists w, (Keyed.Ward.assign b w). rewrite E. cbn.
    split; [exact Hin|]. split; [exact Eid|]. split; [exact R|].
    split; [apply ward_assign_frame|].
    split; [|intros q; apply In_replace_by_id_inv].
    apply In_replace_by_id. apply (find_has_id_In _ _ w Hin). reflexivity.
  - intros sch role id b st.
    destruct (put_visits_update sch role id b st) as [E|(v & Hin & Eid & R & E)];
      [left; exact E|].
    right. exists v, (Keyed.DoctorVisit.assign b v). rewrite E. cbn.
    split; [exact Hin|]. split; [exact Eid|]. split; [exact R|].
    split; [apply visit_assign_frame|].
    split; [|intros q; apply In_replace_by_id_inv].
    apply In_replace_by_id. apply (find_has_id_In _ _ v Hin). reflexivity.
  - intros sch role id b st.
    destruct (put_assigned_update sch role id b st) as [E|(a & Hin & Eid & R & E)];
      [left; exact E|].
    right. exists a, (Keyed.MedicineAssigned.assign b a). rewrite E. cbn.
    split; [exact Hin|]. split; [exact Eid|]. split; [exact R|].
    split; [apply assigned_assign_frame|].
    split; [|intros q; apply In_replace_by_id_inv].
    apply In_replace_by_id. apply (find_has_id_In _ _ a Hin). reflexivity.
Qed.

(** A payload carrying only [paymentStatus] rewrites only that field, and
    one carrying only [price] rewrites only the medicine's price. *)
Example only_the_payload_is_written :
  Numeric.put_patients 1
    (Numeric.Patient.Body.mk None None None None None None None None None (Some "paid") None)
    (Examples.clinic [Numeric.Doctor.mk 1 1 300] [Examples.admitted 1 1])
  = (Res 200 (Data (Some (Numeric.Patient.mk 1 1 None 1 "2024-03-01" "O+" "1990-01-01"
                                              None None "paid" "fever"))),
     Examples.clinic [Numeric.Doctor.mk 1 1 300]
       [Numeric.Patient.mk 1 1 None 1 "2024-03-01" "O+" "1990-01-01" None None "paid" "fever"])
  /\ Numeric.put_medicines 4 (Numeric.Medicine.Body.mk None None (Some (Num 5)))
       (Examples.pharmacy 4)
     = (Res 200 (Data (Some (Numeric.Medicine.mk 4 "iodine" 5))),
        Numeric.Store [] [] [] [] [Numeric.Medicine.mk 4 "iodine" 5]).
Proof. split; reflexivity. Qed.

End UpdateFacts.

(* ------------------------------------------------------------------ *)
(** ** More on the routes over numeric ids *)

Section CollectionMore.
Context {D : Type} (key : D -> Z).

Lemma update_first_same (v : option Z) (d : D) (c : list D) :
  findOne key v c = Some d -> update_first key v d c = c.
Proof.
  unfold findOne. induction c as [|y c' IH]; simpl; [discriminate|].
  destruct (matches key v y).
  - intros [= ->]. reflexivity.
  - intros F. rewrite (IH F). reflexivity.
Qed.

Lemma findOne_update_first (v : option Z) (d d' : D) (c : list D) :
  findOne key v c = Some d -> matches key v d' = true ->
  findOne key v (update_first key v d' c) = Some d'.
Proof.
  unfold findOne. intros F M. induction c as [|y c' IH]; simpl in *; [discriminate|].
  destruct (matches key v y) eqn:E; simpl.
  - rewrite M. reflexivity.
  - rewrite E. apply IH. exact F.
Qed.

Lemma map_key_update_first (v : option Z) (d d' : D) (c : list D) :
  findOne key v c = Some d -> key d' = key d ->
  map key (update_first key v d' c) = map key c.
Proof.
  unfold findOne. intros F E. induction c as [|y c' IH]; simpl in *; [discriminate|].
  destruct (matches key v y).
  - injection F as ->. simpl. congruence.
  - simpl. rewrite (IH F). reflexivity.
Qed.

(** Moving a document to a key nobody holds keeps the keys distinct. *)
Lemma NoDup_update_first (v : option Z) (d d' : D) (c : list D) :
  findOne key v c = Some d -> ~ In (key d') (map key c) ->
  NoDup (map key c) -> NoDup (map key (update_first key v d' c)).
Proof.
  unfold findOne. intros F Free ND.
  induction c as [|y c' IH]; simpl in *; [constructor|].
  inversion ND as [|? ? Hy ND']; subst.
  destruct (matches key v y).
  - simpl. constructor; [|exact ND']. intros Hin. apply Free. right. exact Hin.
  - simpl. constructor.
    + intros Hin. apply in_map_iff in Hin. destruct Hin as (x & Ex & Hx).
      apply In_update_first in Hx. destruct Hx as [->|Hx].
      * apply Free. left. symmetry. exact Ex.
      * apply Hy. rewrite <- Ex. apply in_map. exact Hx.
    + apply IH; auto.
Qed.

Lemma NoDup_delete_first (v : option Z) (c : list D) :
  NoDup (map key c) -> NoDup (map key (delete_first key v c)).
Proof.
  induction c as [|y c' IH]; simpl; intros ND; [constructor|].
  inversion ND as [|? ? Hy ND']; subst.
  destruct (matches key v y); [exact ND'|].
  simpl. constructor; [|auto].
  intros Hin. apply Hy. apply in_map_iff in Hin. destruct Hin as (x & E & Hx).
  apply in_map_iff. exists x. split; [exact E|]. eapply In_delete_first; eauto.
Qed.

(** With distinct keys, deleting the first match for a key leaves no
    match for it. *)
Lemma findOne_delete_first (i : Z) (c : list D) :
  NoDup (map key c) -> findOne key (Some i) (delete_first key (Some i) c) = None.
Proof.
  unfold findOne. induction c as [|y c' IH]; simpl; intros ND; [reflexivity|].
  inversion ND as [|? ? Hy ND']; subst.
  destruct (Z.eqb_spec (key y) i) as [E|N].
  - destruct (find (matches key (Some i)) c') as [x|] eqn:F; [|reflexivity].
    exfalso. apply find_some in F. destruct F as [Hx Ex]. simpl in Ex.
    apply Z.eqb_eq in Ex. apply Hy. rewrite E, <- Ex. apply in_map. exact Hx.
  - simpl. destruct (Z.eqb_spec (key y) i); [contradiction|]. apply IH. exact ND'.
Qed.

Lemma In_delete_first_other (i : Z) (x : D) (c : list D) :
  In x c -> key x <> i -> In x (delete_first key (Some i) c).
Proof.
  intros Hx N. induction c as [|y c' IH]; simpl in *; [contradiction|].
  destruct (Z.eqb_spec (key y) i) as [E|_].
  - destruct Hx as [->|Hx]; [contradiction|exact Hx].
  - destruct Hx as [->|Hx]; [left; reflexivity|right; auto].
Qed.

Lemma length_delete_first (v : option Z) (d : D) (c : list D) :
  findOne key v c = Some d ->
  S (List.length (delete_first key v c)) = List.length c.
Proof.
  unfold findOne. induction c as [|y c' IH]; simpl; [discriminate|].
  destruct (matches key v y); [reflexivity|].
  intros F. simpl. rewrite (IH F). reflexivity.
Qed.

Lemma findOne_not_In (i : Z) (c : list D) :
  ~ In i (map key c) -> findOne key (Some i) c = None.
Proof.
  intros N. apply findOne_none. intros d Hd [= E]. apply N. rewrite E.
  apply in_map. exact Hd.
Qed.

(** After one more document with the allocated key, a safe integer,
    the allocator moves on by one. *)
Lemma newId_app (c : list D) (d : D) :
  key d = newId key c -> safe (key d) = true ->
  newId key (c ++ [d]) = newId key c + 1.
Proof.
  intros E S. rewrite (newId_max key (c ++ [d]) (key d)).
  - rewrite (js_succ_safe _ S), E. reflexivity.
  - apply in_map. apply in_or_app. right. left. reflexivity.
  - intros j Hj. rewrite map_app in Hj. apply in_app_or in Hj.
    destruct Hj as [Hj|[<-|[]]]; [|lia].
    apply in_map_iff in Hj. destruct Hj as (x & <- & Hx).
    pose proof (newId_ge key c x Hx). lia.
Qed.

(** With distinct keys, moving the only holder of a key away leaves no
    match for it. *)
Lemma findOne_update_first_moved (i : Z) (d d' : D) (c : list D) :
  NoDup (map key c) -> findOne key (Some i) c = Some d -> key d' <> i ->
  findOne key (Some i) (update_first key (Some i) d' c) = None.
Proof.
  unfold findOne. intros ND F N.
  induction c as [|y c' IH]; simpl in *; [discriminate|].
  inversion ND as [|? ? Hy ND']; subst.
  destruct (Z.eqb_spec (key y) i) as [E|Ny]; simpl.
  - destruct (Z.eqb_spec (key d') i); [contradiction|].
    destruct (find (matches key (Some i)) c') as [x|] eqn:Fx; [|reflexivity].
    exfalso. apply find_some in Fx. destruct Fx as [Hx Ex]. simpl in Ex.
    apply Z.eqb_eq in Ex. apply Hy. rewrite E, <- Ex. apply in_map. exact Hx.
  - destruct (Z.eqb_spec (key y) i); [contradiction|]. apply IH; assumption.
Qed.
Lemma delete_first_none (v : option Z) (c : list D) :
  findOne key v c = None -> delete_first key v c = c.
Proof.
  unfold findOne. induction c as [|y c' IH]; simpl; [reflexivity|].
  destruct (matches key v y); [discriminate|].
  intros F. rewrite (IH F). reflexivity.
Qed.
End CollectionMore.

Module NumericMore.
Import Numeric NumericFacts.
Local Open Scope string_scope.
Local Open Scope list_scope.
Local Open Scope Z_scope.

Ltac unfold_reads :=
  unfold get_patients_id, get_patients_id_body, get_patients_doctor,
    get_patients_doctor_body, get_doctors_id, get_doctors_id_body,
    get_medicines_id, get_medicines_id_body,
    Model_findOne, cast_filter,
    try_catch, bind, gets, ret, throw, modify, server_error in *.

(** *** What a request does to the store *)

Lemma post_doctors_created b st :
  snd (post_doctors b st) = st \/ exists d, body (fst (post_doctors b st)) = Data d.
Proof.
  unfold_handler.
  destruct (Doctor.Body.empId b) as [[e|]|]; simpl; auto;
    (destruct (findOne Employee.id _ _); simpl; auto);
    (destruct (findOne Doctor.empId _ _); simpl; auto);
    (destruct (Doctor.validate _ b); simpl; auto);
    (destruct (key_taken _ _ _); simpl; eauto).
Qed.

Lemma post_medicines_created b st :
  snd (post_medicines b st) = st \/ exists m, body (fst (post_medicines b st)) = Data m.
Proof.
  unfold_handler. simpl.
  destruct (Medicine.validate _ b); simpl; auto.
  destruct (key_taken _ _ _); simpl; eauto.
Qed.

(** How an update leaves the keys of its collection. *)
Lemma update_keeps_distinct {D} (key : D -> Z) (i : Z) (d d' : D) (c : list D) :
  findOne key (Some i) c = Some d ->
  key d' = key d \/ key_taken key (key d') c = false ->
  NoDup (map key c) -> NoDup (map key (update_first key (Some i) d' c)).
Proof.
  intros F [E|T] ND.
  - rewrite (map_key_update_first key _ d d' c F E). exact ND.
  - apply (NoDup_update_first key _ d d' c F); [|exact ND].
    intros Hin. apply key_taken_In in Hin. congruence.
Qed.

(** What a request does to the store: nothing, or one step on the
    collection of its own router. *)
Lemma handle_cases (r : request) (st : store) :
  handle r st = st
  \/ match r with
     | PostPatients b =>
         exists p, key_taken Patient.id (Patient.id p) (patients st) = false
                   /\ handle r st = set_patients (fun c => c ++ [p]) st
     | PutPatients x b =>
         exists i p, x = Num i
                   /\ findOne Patient.id (Some i) (patients st) = Some p
                   /\ (Patient.id (Patient.apply b p) = Patient.id p
                       \/ key_taken Patient.id (Patient.id (Patient.apply b p)) (patients st)
                          = false)
                   /\ handle r st
                      = set_patients (update_first Patient.id (Some i) (Patient.apply b p)) st
     | DeletePatients x =>
         exists i, x = Num i
                   /\ handle r st = set_patients (delete_first Patient.id (Some i)) st
     | PostDoctors b =>
         exists d, key_taken Doctor.id (Doctor.id d) (doctors st) = false
                   /\ handle r st = set_doctors (fun c => c ++ [d]) st
     | PutDoctors x b =>
         exists i d, x = Num i
                   /\ findOne Doctor.id (Some i) (doctors st) = Some d
                   /\ (Doctor.id (Doctor.apply b d) = Doctor.id d
                       \/ key_taken Doctor.id (Doctor.id (Doctor.apply b d)) (doctors st)
                          = false)
                   /\ handle r st
                      = set_doctors (update_first Doctor.id (Some i) (Doctor.apply b d)) st
     | DeleteDoctors x =>
         exists i, x = Num i
                   /\ handle r st = set_doctors (delete_first Doctor.id (Some i)) st
     | PostMedicines b =>
         exists m, key_taken Medicine.id (Medicine.id m) (medicines st) = false
                   /\ handle r st = set_medicines (fun c => c ++ [m]) st
     | PutMedicines x b =>
         exists i m, x = Num i
                   /\ findOne Medicine.id (Some i) (medicines st) = Some m
                   /\ (Medicine.id (Medicine.apply b m) = Medicine.id m
                       \/ key_taken Medicine.id (Medicine.id (Medicine.apply b m))
                            (medicines st) = false)
                   /\ handle r st
                      = set_medicines (update_first Medicine.id (Some i) (Medicine.apply b m)) st
     | DeleteMedicines x =>
         exists i, x = Num i
                   /\ handle r st = set_medicines (delete_first Medicine.id (Some i)) st
     end.
Proof.
  destruct r; cbn [handle].
  - destruct (post_patients_cases b st) as [U|[p B]]; [left; exact U|].
    destruct (post_patients b st) as [r st'] eqn:E. cbn [fst snd] in *.
    destruct (post_patients_data _ _ _ _ _ E B) as (_ & _ & _ & _ & -> & T).
    right. exists p. auto.
  - destruct (put_patients_effect id b st)
      as [U|(i & p & -> & F & U & _ & _ & _ & K & _)]; [left; exact U|].
    right. exists i, p. auto.
  - destruct (delete_patients_effect id st) as [U|(i & -> & U)]; [left; exact U|].
    right. exists i. auto.
  - destruct (post_doctors_created b st) as [U|[d B]]; [left; exact U|].
    destruct (post_doctors b st) as [r st'] eqn:E. cbn [fst snd] in *.
    destruct (post_doctors_data _ _ _ _ _ E B) as (_ & _ & _ & _ & -> & T).
    right. exists d. auto.
  - destruct (put_doctors_effect id b st)
      as [U|(i & d & -> & F & U & _ & _ & K)]; [left; exact U|].
    right. exists i, d. auto.
  - destruct (delete_doctors_effect id st) as [U|(i & -> & U)]; [left; exact U|].
    right. exists i. auto.
  - destruct (post_medicines_created b st) as [U|[m B]]; [left; exact U|].
    destruct (post_medicines b st) as [r st'] eqn:E. cbn [fst snd] in *.
    destruct (post_medicines_data _ _ _ _ _ E B) as (_ & _ & -> & T).
    right. exists m. auto.
  - destruct (put_medicines_effect id b st)
      as [U|(i & m & -> & F & U & _ & _ & _ & K)]; [left; exact U|].
    right. exists i, m. auto.
  - destruct id as [i|]; [|left; reflexivity].
    unfold_handler. simpl.
    destruct (findOne Medicine.id _ _); simpl; eauto.
Qed.

Lemma handle_keeps_distinct (r : request) (st : store) (e : entity) :
  NoDup (ids e st) -> NoDup (ids e (handle r st)).
Proof.
  intros ND. destruct (handle_cases r st) as [->|H]; [exact ND|].
  destruct r; cbn [handle] in H |- *.
  - destruct H as (p & T & ->). destruct e; simpl in *; try exact ND.
    rewrite map_app. apply NoDup_snoc; [exact ND|].
    intros Hin. apply key_taken_In in Hin. congruence.
  - destruct H as (i & p & _ & F & K & ->). destruct e; simpl in *; try exact ND.
    apply (update_keeps_distinct Patient.id i p); assumption.
  - destruct H as (i & _ & ->). destruct e; simpl in *; try exact ND.
    apply NoDup_delete_first. exact ND.
  - destruct H as (d & T & ->). destruct e; simpl in *; try exact ND.
    rewrite map_app. apply NoDup_snoc; [exact ND|].
    intros Hin. apply key_taken_In in Hin. congruence.
  - destruct H as (i & d & _ & F & K & ->). destruct e; simpl in *; try exact ND.
    apply (update_keeps_distinct Doctor.id i d); assumption.
  - destruct H as (i & _ & ->). destruct e; simpl in *; try exact ND.
    apply NoDup_delete_first. exact ND.
  - destruct H as (m & T & ->). destruct e; simpl in *; try exact ND.
    rewrite map_app. apply NoDup_snoc; [exact ND|].
    intros Hin. apply key_taken_In in Hin. congruence.
  - destruct H as (i & m & _ & F & K & ->). destruct e; simpl in *; try exact ND.
    apply (update_keeps_distinct Medicine.id i m); assumption.
  - destruct H as (i & _ & ->). destruct e; simpl in *; try exact ND.
    apply NoDup_delete_first. exact ND.
Qed.

(** X1. Ids stay distinct: if the stored records of an entity type
    (patient, doctor, medicine) have pairwise distinct ids, they still
    have after any sequence of POST, PUT and DELETE requests to the three
    routers.  Creation allocates an id above all stored ones, an update
    that moves an id onto a taken one is thrown back by the unique index,
    and deletion only removes. *)
Theorem ids_stay_distinct (rs : list request) (st : store) (e : entity) :
  NoDup (ids e st) -> NoDup (ids e (run rs st)).
Proof.
  revert st. induction rs as [|r rs IH]; simpl; intros st ND; [exact ND|].
  apply IH. apply handle_keeps_distinct. exact ND.
Qed.

Example ids_distinct_after_rekeying :
  NoDup (ids EDoctor
           (run [PutDoctors 1 (Doctor.Body.mk (Some (Num 2)) None None);
                 PostDoctors (Examples.hire 1 450);
                 PutDoctors 2 (Doctor.Body.mk (Some (Num 3)) None None)]
                (Examples.clinic [Doctor.mk 1 1 300; Doctor.mk 2 1 450] []))).
Proof.
  apply (ids_stay_distinct _ (Examples.clinic [Doctor.mk 1 1 300; Doctor.mk 2 1 450] [])).
  simpl. repeat constructor; simpl; intuition discriminate.
Defined.

(** X2. Each router writes its own collection only: no request to the
    patients, doctors or medicines router changes the users or the
    employees, and none changes the records of another entity type. *)
Theorem routers_write_their_own_collection (r : request) (st : store) :
  users (handle r st) = users st
  /\ employees (handle r st) = employees st
  /\ match entity_of r with
     | EPatient => doctors (handle r st) = doctors st
                   /\ medicines (handle r st) = medicines st
     | EDoctor => patients (handle r st) = patients st
                  /\ medicines (handle r st) = medicines st
     | EMedicine => patients (handle r st) = patients st
                    /\ doctors (handle r st) = doctors st
     end.
Proof.
  destruct (handle_cases r st) as [->|H].
  - destruct r; simpl; auto.
  - destruct r; cbn [handle entity_of] in H |- *;
      repeat match type of H with
             | exists _, _ => destruct H as [? H]
             | _ /\ _ => destruct H as [_ H]
             end;
      rewrite H; simpl; auto.
Qed.

(** X3. Create then read: the record a successful POST answers with is
    the one GET /:id finds under its id on the resulting store
    (patients, doctors and medicines); a created patient is also listed
    by GET /api/patients/doctor/:doctorId for its doctor. *)
Theorem created_record_is_found :
  (forall b st p st',
      post_patients b st = (Res 201 (Data p), st') ->
      get_patients_id (Patient.id p) st' = (Res 200 (Data p), st')
      /\ exists n l, get_patients_doctor (Patient.doctorId p) st' = (Res 200 (Data (n, l)), st')
                     /\ In p l /\ n = List.length l)
  /\ (forall b st d st',
        post_doctors b st = (Res 201 (Data d), st') ->
        get_doctors_id (Doctor.id d) st' = (Res 200 (Data d), st'))
  /\ (forall b st m st',
        post_medicines b st = (Res 201 (Data m), st') ->
        get_medicines_id (Medicine.id m) st' = (Res 200 (Data m), st')).
Proof.
  repeat apply conj.
  - intros b st p st' E.
    destruct (post_patients_data b st _ st' p E eq_refl) as (_ & _ & _ & _ & -> & T).
    assert (F : findOne Patient.id (Some (Patient.id p)) (patients st ++ [p]) = Some p).
    { apply findOne_app_fresh; [|reflexivity]. apply key_free. exact T. }
    split.
    + unfold_reads. cbn [number patients set_patients]. rewrite F. reflexivity.
    + unfold_reads. cbn [number patients set_patients]. do 2 eexists.
      split; [reflexivity|]. split; [|reflexivity].
      apply filter_In. split; [apply in_or_app; right; left; reflexivity|].
      simpl. apply Z.eqb_refl.
  - intros b st d st' E.
    destruct (post_doctors_data b st _ st' d E eq_refl) as (_ & _ & _ & _ & -> & T).
    assert (F : findOne Doctor.id (Some (Doctor.id d)) (doctors st ++ [d]) = Some d).
    { apply findOne_app_fresh; [|reflexivity]. apply key_free. exact T. }
    unfold_reads. cbn [number doctors set_doctors]. rewrite F. reflexivity.
  - intros b st m st' E.
    destruct (post_medicines_data b st _ st' m E eq_refl) as (_ & _ & -> & T).
    assert (F : findOne Medicine.id (Some (Medicine.id m)) (medicines st ++ [m]) = Some m).
    { apply findOne_app_fresh; [|reflexivity]. apply key_free. exact T. }
    unfold_reads. cbn [number medicines set_medicines]. rewrite F. reflexivity.
Qed.

Example admitted_patient_is_found :
  get_patients_id 6
    (snd (post_patients (Examples.admission 1)
            (Examples.clinic [Doctor.mk 1 1 300]
               [Examples.admitted 2 1; Examples.admitted 5 1])))
  = (Res 200 (Data (Examples.admitted 6 1)),
     snd (post_patients (Examples.admission 1)
            (Examples.clinic [Doctor.mk 1 1 300]
               [Examples.admitted 2 1; Examples.admitted 5 1]))).
Proof.
  apply (proj1 created_record_is_found (Examples.admission 1)
           (Examples.clinic [Doctor.mk 1 1 300]
              [Examples.admitted 2 1; Examples.admitted 5 1])
           (Examples.admitted 6 1)).
  reflexivity.
Defined.

(** X4. Delete then read: with distinct ids, once DELETE /:id has
    answered 200 the id is gone (GET and a second DELETE of it answer
    404), exactly one record was removed, and every record with another
    id is still stored; for patients, doctors and medicines. *)
Theorem deleted_record_is_gone :
  (forall (i : Z) st,
      NoDup (ids EPatient st) -> status (fst (delete_patients i st)) = 200 ->
      status (fst (get_patients_id i (snd (delete_patients i st)))) = 404
      /\ status (fst (delete_patients i (snd (delete_patients i st)))) = 404
      /\ S (List.length (patients (snd (delete_patients i st)))) = List.length (patients st)
      /\ forall q, In q (patients st) -> Patient.id q <> i ->
                   In q (patients (snd (delete_patients i st))))
  /\ (forall (i : Z) st,
        NoDup (ids EDoctor st) -> status (fst (delete_doctors i st)) = 200 ->
        status (fst (get_doctors_id i (snd (delete_doctors i st)))) = 404
        /\ status (fst (delete_doctors i (snd (delete_doctors i st)))) = 404
        /\ S (List.length (doctors (snd (delete_doctors i st)))) = List.length (doctors st)
        /\ forall q, In q (doctors st) -> Doctor.id q <> i ->
                     In q (doctors (snd (delete_doctors i st))))
  /\ (forall (i : Z) st,
        NoDup (ids EMedicine st) -> status (fst (delete_medicines i st)) = 200 ->
        status (fst (get_medicines_id i (snd (delete_medicines i st)))) = 404
        /\ status (fst (delete_medicines i (snd (delete_medicines i st)))) = 404
        /\ S (List.length (medicines (snd (delete_medicines i st))))
           = List.length (medicines st)
        /\ forall q, In q (medicines st) -> Medicine.id q <> i ->
                     In q (medicines (snd (delete_medicines i st)))).
Proof.
  repeat apply conj.
  - intros i st ND. unfold_reads. unfold_handler. cbn [number].
    destruct (findOne Patient.id (Some i) (patients st)) as [p|] eqn:F;
      cbn [fst snd status]; [intros _|discriminate].
    simpl. rewrite (findOne_delete_first Patient.id i (patients st) ND). simpl.
    repeat split.
    + apply (length_delete_first Patient.id _ p). exact F.
    + intros q Hq N. apply In_delete_first_other; assumption.
  - intros i st ND. unfold_reads. unfold_handler. cbn [number].
    destruct (findOne Doctor.id (Some i) (doctors st)) as [p|] eqn:F;
      cbn [fst snd status]; [intros _|discriminate].
    simpl. rewrite (findOne_delete_first Doctor.id i (doctors st) ND). simpl.
    repeat split.
    + apply (length_delete_first Doctor.id _ p). exact F.
    + intros q Hq N. apply In_delete_first_other; assumption.
  - intros i st ND. unfold_reads. unfold_handler. cbn [number].
    destruct (findOne Medicine.id (Some i) (medicines st)) as [p|] eqn:F;
      cbn [fst snd status]; [intros _|discriminate].
    simpl. rewrite (findOne_delete_first Medicine.id i (medicines st) ND). simpl.
    repeat split.
    + apply (length_delete_first Medicine.id _ p). exact F.
    + intros q Hq N. apply In_delete_first_other; assumption.
Qed.

Example discharged_patient_is_gone :
  status (fst (get_patients_id 2
                 (snd (delete_patients 2
                         (Examples.clinic [Doctor.mk 1 1 300]
                            [Examples.admitted 2 1; Examples.admitted 5 1])))))
  = 404.
Proof.
  apply (proj1 deleted_record_is_gone 2
           (Examples.clinic [Doctor.mk 1 1 300]
              [Examples.admitted 2 1; Examples.admitted 5 1])).
  - simpl. repeat constructor; simpl; intuition discriminate.
  - reflexivity.
Defined.

(** X5. Unknown target: when the [:id] of the request is a number [i]
    that no stored record of the type has, GET, PUT (whatever its
    payload) and DELETE answer 404 and leave the store as it was; when
    the [:id] does not cast to a number, they answer 500 and leave the
    store as it was; for patients, doctors and medicines. *)
Theorem unknown_id_is_not_found (st : store) :
  (forall i : Z,
      ~ In i (ids EPatient st) ->
      get_patients_id i st = (Res 404 (Message "Patient not found"), st)
      /\ (forall b, put_patients i b st = (Res 404 (Message "Patient not found"), st))
      /\ delete_patients i st = (Res 404 (Message "Patient not found"), st))
  /\ (forall i : Z,
      ~ In i (ids EDoctor st) ->
      get_doctors_id i st = (Res 404 (Message "Doctor not found"), st)
      /\ (forall b, put_doctors i b st = (Res 404 (Message "Doctor not found"), st))
      /\ delete_doctors i st = (Res 404 (Message "Doctor not found"), st))
  /\ (forall i : Z,
      ~ In i (ids EMedicine st) ->
      get_medicines_id i st = (Res 404 (Message "Medicine not found"), st)
      /\ (forall b, put_medicines i b st = (Res 404 (Message "Medicine not found"), st))
      /\ delete_medicines i st = (Res 404 (Message "Medicine not found"), st))
  /\ (get_patients_id NotANumber st = (Res 500 (ServerError "Cast failed"), st)
      /\ (forall b, put_patients NotANumber b st = (Res 500 (ServerError "Cast failed"), st))
      /\ delete_patients NotANumber st = (Res 500 (ServerError "Cast failed"), st))
  /\ (get_doctors_id NotANumber st = (Res 500 (ServerError "Cast failed"), st)
      /\ (forall b, put_doctors NotANumber b st = (Res 500 (ServerError "Cast failed"), st))
      /\ delete_doctors NotANumber st = (Res 500 (ServerError "Cast failed"), st))
  /\ (get_medicines_id NotANumber st = (Res 500 (ServerError "Cast failed"), st)
      /\ (forall b, put_medicines NotANumber b st = (Res 500 (ServerError "Cast failed"), st))
      /\ delete_medicines NotANumber st = (Res 500 (ServerError "Cast failed"), st)).
Proof.
  repeat apply conj; try reflexivity; try (intros b; reflexivity);
    intros i N; simpl in N.
  - pose proof (findOne_not_In Patient.id i (patients st) N) as F.
    repeat split; [|intros b|]; unfold_reads; unfold_handler; cbn [number];
      rewrite F; reflexivity.
  - pose proof (findOne_not_In Doctor.id i (doctors st) N) as F.
    repeat split; [|intros b|]; unfold_reads; unfold_handler; cbn [number];
      rewrite F; reflexivity.
  - pose proof (findOne_not_In Medicine.id i (medicines st) N) as F.
    repeat split; [|intros b|]; unfold_reads; unfold_handler; cbn [number];
      rewrite F; reflexivity.
Qed.

Example no_patient_nine :
  delete_patients 9 (Examples.clinic [] [Examples.admitted 2 1])
  = (Res 404 (Message "Patient not found"), Examples.clinic [] [Examples.admitted 2 1]).
Proof.
  apply (proj1 (unknown_id_is_not_found (Examples.clinic [] [Examples.admitted 2 1])) 9).
  simpl. intuition discriminate.
Defined.

(** X6. Update Patient checks the doctor it is given: for a stored
    patient and a payload whose [doctorId] is a non-zero number that is
    the id of no stored doctor, PUT /api/patients/:id answers 404
    "Doctor not found" and changes nothing, whatever else the payload
    carries. *)
Theorem update_to_unknown_doctor_is_refused (i d : Z) (b : Patient.Body.t) (st : store) :
  In i (ids EPatient st) ->
  Patient.Body.doctorId b = Some (Num d) -> d <> 0 ->
  ~ In d (ids EDoctor st) ->
  put_patients i b st = (Res 404 (Message "Doctor not found"), st).
Proof.
  intros Hi Eb Nz Nd. simpl in Hi, Nd.
  assert (Fp : findOne Patient.id (Some i) (patients st) <> None).
  { apply key_taken_findOne. apply key_taken_In. exact Hi. }
  pose proof (findOne_not_In Doctor.id d (doctors st) Nd) as Fd.
  unfold_handler. rewrite Eb. cbn [number].
  destruct (findOne Patient.id (Some i) (patients st)); [|congruence].
  simpl. destruct (Z.eqb_spec d 0); [contradiction|]. simpl.
  rewrite Fd. reflexivity.
Qed.

Example transfer_to_unknown_doctor :
  put_patients 2
    (Patient.Body.mk None None None (Some (Num 7)) None None None None None (Some "paid") None)
    (Examples.clinic [Doctor.mk 1 1 300] [Examples.admitted 2 1])
  = (Res 404 (Message "Doctor not found"),
     Examples.clinic [Doctor.mk 1 1 300] [Examples.admitted 2 1]).
Proof.
  apply (update_to_unknown_doctor_is_refused 2 7); simpl;
    [auto|reflexivity|discriminate|intuition discriminate].
Defined.

(** X7. What a POST answers, sequentially.  A payload the schema accepts
    is stored under the allocated id and answered 201, unless the unique
    index refuses the allocated id; a payload the schema rejects, or an
    allocated id that is taken, is answered 500, never 400, and nothing
    is stored.  While the stored ids are safe integers the allocated id
    is never taken.  For medicines this is the whole story; for patients
    it holds once the user and the doctor are found, for doctors once
    the employee is found and no doctor has that [empId]. *)
Theorem create_answers_201_or_500 (st : store) :
  (forall b,
      match Medicine.validate (newId Medicine.id (medicines st)) b with
      | Some m =>
          if key_taken Medicine.id (newId Medicine.id (medicines st)) (medicines st)
          then status (fst (post_medicines b st)) = 500 /\ snd (post_medicines b st) = st
          else post_medicines b st
               = (Res 201 (Data m), set_medicines (fun c => c ++ [m]) st)
      | None => status (fst (post_medicines b st)) = 500 /\ snd (post_medicines b st) = st
      end)
  /\ (forall b,
        findOne User.id (number (Patient.Body.userId b)) (users st) <> None ->
        findOne Doctor.id (number (Patient.Body.doctorId b)) (doctors st) <> None ->
        match Patient.validate (newId Patient.id (patients st)) b with
        | Some p =>
            if key_taken Patient.id (newId Patient.id (patients st)) (patients st)
            then status (fst (post_patients b st)) = 500 /\ snd (post_patients b st) = st
            else post_patients b st
                 = (Res 201 (Data p), set_patients (fun c => c ++ [p]) st)
        | None => status (fst (post_patients b st)) = 500 /\ snd (post_patients b st) = st
        end)
  /\ (forall b,
        findOne Employee.id (number (Doctor.Body.empId b)) (employees st) <> None ->
        findOne Doctor.empId (number (Doctor.Body.empId b)) (doctors st) = None ->
        match Doctor.validate (newId Doctor.id (doctors st)) b with
        | Some d =>
            if key_taken Doctor.id (newId Doctor.id (doctors st)) (doctors st)
            then status (fst (post_doctors b st)) = 500 /\ snd (post_doctors b st) = st
            else post_doctors b st
                 = (Res 201 (Data d), set_doctors (fun c => c ++ [d]) st)
        | None => status (fst (post_doctors b st)) = 500 /\ snd (post_doctors b st) = st
        end)
  /\ ((forall j, In j (ids EMedicine st) -> safe j = true) ->
      key_taken Medicine.id (newId Medicine.id (medicines st)) (medicines st) = false)
  /\ ((forall j, In j (ids EPatient st) -> safe j = true) ->
      key_taken Patient.id (newId Patient.id (patients st)) (patients st) = false)
  /\ ((forall j, In j (ids EDoctor st) -> safe j = true) ->
      key_taken Doctor.id (newId Doctor.id (doctors st)) (doctors st) = false).
Proof.
  repeat apply conj.
  - intros b. destruct (Medicine.validate _ b) as [m|] eqn:V.
    + destruct (key_taken _ _ _) eqn:T.
      * destruct (post_medicines_created b st) as [U|[m' B]].
        -- split; [|exact U]. revert U. unfold_handler. rewrite V. cbn.
           rewrite (validate_medicine_id _ _ _ V), T. reflexivity.
        -- destruct (post_medicines b st) as [r st'] eqn:E. cbn [fst] in B.
           destruct (post_medicines_data _ _ _ _ _ E B) as (V' & _ & _ & T').
           rewrite (validate_medicine_id _ _ _ V') in T'. congruence.
      * apply post_medicines_ok; assumption.
    + unfold_handler. rewrite V. split; reflexivity.
  - intros b Hu Hd. destruct (Patient.validate _ b) as [p|] eqn:V.
    + destruct (key_taken _ _ _) eqn:T.
      * destruct (post_patients_cases b st) as [U|[p' B]].
        -- split; [|exact U].
           pose proof (number_casts _ _ _ Hu) as Cu. pose proof (number_casts _ _ _ Hd) as Cd.
           unfold post_patients, post_patients_body, post_patients_create, try_catch, bind.
           rewrite (Model_findOne_found _ _ _ _ Hu).
           destruct (findOne User.id _ _); [|congruence].
           rewrite (Model_findOne_found _ _ _ _ Hd).
           destruct (findOne Doctor.id _ _); [|congruence].
           unfold create, bind, gets, throw. rewrite V. cbv beta iota.
           rewrite (validate_patient_id _ _ _ V), T. reflexivity.
        -- destruct (post_patients b st) as [r st'] eqn:E. cbn [fst] in B.
           destruct (post_patients_data _ _ _ _ _ E B) as (V' & _ & _ & _ & _ & T').
           rewrite (validate_patient_id _ _ _ V') in T'. congruence.
      * apply post_patients_ok; assumption.
    + unfold post_patients, post_patients_body, post_patients_create, try_catch, bind.
      rewrite (Model_findOne_found _ _ _ _ Hu).
      destruct (findOne User.id _ _); [|congruence].
      rewrite (Model_findOne_found _ _ _ _ Hd).
      destruct (findOne Doctor.id _ _); [|congruence].
      unfold gets, create. rewrite V. split; reflexivity.
  - intros b He Hd. destruct (Doctor.validate _ b) as [d|] eqn:V.
    + destruct (key_taken _ _ _) eqn:T.
      * unfold post_doctors, post_doctors_body, try_catch, bind.
        rewrite (post_doctors_checks_pass b st He Hd).
        unfold post_doctors_allocate, post_doctors_create, create, bind, gets, throw.
        rewrite V. cbv beta iota.
        rewrite (validate_doctor_id _ _ _ V), T. split; reflexivity.
      * apply post_doctors_ok; assumption.
    + unfold post_doctors, post_doctors_body, try_catch, bind.
      rewrite (post_doctors_checks_pass b st He Hd).
      unfold post_doctors_allocate, post_doctors_create, gets, create, bind.
      rewrite V. split; reflexivity.
  - intros S. apply newId_not_taken. apply ids_safe_medicines. exact S.
  - intros S. apply newId_not_taken. apply ids_safe_patients. exact S.
  - intros S. apply newId_not_taken. apply ids_safe_doctors. exact S.
Qed.

Example unknown_blood_group_is_500 :
  status (fst (post_patients
                 (Patient.Body.mk None (Some (Num 1)) None (Some (Num 1))
                    (Some (ADate "2024-03-01")) (Some "C+") (Some (ADate "1990-01-01"))
                    None None None (Some "fever"))
                 (Examples.clinic [Doctor.mk 1 1 300] [])))
  = 500
  /\ snd (post_patients
            (Patient.Body.mk None (Some (Num 1)) None (Some (Num 1))
               (Some (ADate "2024-03-01")) (Some "C+") (Some (ADate "1990-01-01"))
               None None None (Some "fever"))
            (Examples.clinic [Doctor.mk 1 1 300] []))
     = Examples.clinic [Doctor.mk 1 1 300] [].
Proof.
  apply (proj1 (proj2 (create_answers_201_or_500 (Examples.clinic [Doctor.mk 1 1 300] [])))
           (Patient.Body.mk None (Some (Num 1)) None (Some (Num 1))
              (Some (ADate "2024-03-01")) (Some "C+") (Some (ADate "1990-01-01"))
              None None None (Some "fever")));
    discriminate.
Defined.

Lemma set_req_twice {A} (v : option A) (old : A) :
  set_req v (set_req v old) = set_req v old.
Proof. destruct v; reflexivity. Qed.

Lemma set_opt_twice {A} (v : option A) (old : option A) :
  set_opt v (set_opt v old) = set_opt v old.
Proof. destruct v; reflexivity. Qed.

Lemma patient_apply_twice b p : Patient.apply b (Patient.apply b p) = Patient.apply b p.
Proof.
  unfold Patient.apply. simpl. rewrite !set_req_twice, !set_opt_twice. reflexivity.
Qed.

Lemma doctor_apply_twice b d : Doctor.apply b (Doctor.apply b d) = Doctor.apply b d.
Proof. unfold Doctor.apply. simpl. rewrite !set_req_twice. reflexivity. Qed.

Lemma medicine_apply_twice b m : Medicine.apply b (Medicine.apply b m) = Medicine.apply b m.
Proof. unfold Medicine.apply. simpl. rewrite !set_req_twice. reflexivity. Qed.

(** A second identical update of a collection with distinct keys finds
    either the record the first one wrote or none. *)
Lemma update_first_twice {D} (key : D -> Z) (patch : D -> D) (i : Z) (d d2 : D) (c : list D) :
  (forall x, patch (patch x) = patch x) ->
  NoDup (map key c) ->
  findOne key (Some i) c = Some d ->
  findOne key (Some i) (update_first key (Some i) (patch d) c) = Some d2 ->
  update_first key (Some i) (patch d2) (update_first key (Some i) (patch d) c)
  = update_first key (Some i) (patch d) c.
Proof.
  intros Idem ND F F2.
  destruct (Z.eq_dec (key (patch d)) i) as [E|N].
  - assert (M : matches key (Some i) (patch d) = true) by (simpl; apply Z.eqb_eq; exact E).
    rewrite (findOne_update_first key _ d (patch d) c F M) in F2.
    injection F2 as <-. rewrite Idem.
    apply update_first_same. apply (findOne_update_first key _ d); assumption.
  - rewrite (findOne_update_first_moved key i d (patch d) c ND F N) in F2. discriminate.
Qed.

Lemma delete_first_twice {D} (key : D -> Z) (i : Z) (c : list D) :
  NoDup (map key c) ->
  delete_first key (Some i) (delete_first key (Some i) c) = delete_first key (Some i) c.
Proof.
  intros ND. apply delete_first_none. apply findOne_delete_first. exact ND.
Qed.

Lemma post_creates_or_keeps (r : request) (st : store) :
  created_id r st = None ->
  match r with
  | PostPatients _ | PostDoctors _ | PostMedicines _ => handle r st = st
  | _ => True
  end.
Proof.
  destruct r; simpl; auto.
  - destruct (post_patients_cases b st) as [U|[p B]]; [auto|]. rewrite B. discriminate.
  - destruct (post_doctors_created b st) as [U|[d B]]; [auto|]. rewrite B. discriminate.
  - destruct (post_medicines_created b st) as [U|[m B]]; [auto|]. rewrite B. discriminate.
Qed.

(** X8. Sequential numbering: a series of POST /api/medicines requests
    whose payloads carry a name that is not empty and a price that is a
    number, served one after the other while the ids stay safe integers
    (the stored ones are, and the last id to be given is at most 2^53 -
    1), stores one medicine per request, and their ids are consecutive:
    n, n+1, n+2, ..., where n is one more than the highest id stored
    before (1 for an empty collection). *)
Theorem medicines_are_numbered_consecutively (bs : list Medicine.Body.t) (st : store) :
  Forall (fun b => exists n p, Medicine.Body.name b = Some n /\ n <> ""
                               /\ Medicine.Body.price b = Some (Num p)) bs ->
  (forall j, In j (ids EMedicine st) -> safe j = true) ->
  newId Medicine.id (medicines st) + Z.of_nat (List.length bs) <= 2 ^ 53 ->
  ids EMedicine (run (map PostMedicines bs) st)
  = ids EMedicine st
    ++ map (fun k => newId Medicine.id (medicines st) + Z.of_nat k) (seq 0 (List.length bs)).
Proof.
  intros V. revert st. induction V as [|b bs (n & p & Hn & Nn & Hp) _ IH]; intros st Safe Top.
  - simpl. rewrite app_nil_r. reflexivity.
  - set (m := Medicine.mk (newId Medicine.id (medicines st)) n p).
    assert (Hv : Medicine.validate (newId Medicine.id (medicines st)) b = Some m).
    { unfold Medicine.validate. rewrite Hn, Hp.
      destruct (String.eqb_spec n ""); [contradiction|reflexivity]. }
    pose proof (ids_safe_medicines st Safe) as Safe'.
    assert (Sm : safe (Medicine.id m) = true).
    { apply (newId_safe Medicine.id (medicines st) Safe').
      cbn [List.length] in Top. lia. }
    cbn [map run fold_left handle List.length seq].
    change (fold_left (fun s r => handle r s) (map PostMedicines bs) ?s)
      with (run (map PostMedicines bs) s).
    rewrite (post_medicines_ok b st m Hv (newId_not_taken Medicine.id _ Safe')). cbn [snd].
    rewrite IH.
    + simpl ids at 1. cbn [medicines set_medicines].
      rewrite (newId_app Medicine.id (medicines st) m eq_refl Sm).
      rewrite map_app, <- app_assoc. f_equal. simpl.
      rewrite Z.add_0_r. f_equal.
      rewrite <- seq_shift, map_map. apply map_ext. intros k. lia.
    + simpl. intros j Hj. rewrite map_app in Hj. apply in_app_or in Hj.
      destruct Hj as [Hj|[<-|[]]]; [apply Safe; exact Hj|exact Sm].
    + cbn [medicines set_medicines].
      rewrite (newId_app Medicine.id (medicines st) m eq_refl Sm).
      cbn [List.length] in Top. lia.
Qed.

Example three_drugs_after_id_4 :
  ids EMedicine
    (run (map PostMedicines
            [Examples.drug "aspirin" 5; Examples.drug "codeine" 9; Examples.drug "zinc" 2])
         (Examples.pharmacy 4))
  = [4; 5; 6; 7].
Proof.
  apply (medicines_are_numbered_consecutively
           [Examples.drug "aspirin" 5; Examples.drug "codeine" 9; Examples.drug "zinc" 2]
           (Examples.pharmacy 4)).
  - repeat constructor; do 2 eexists; (split; [reflexivity|split; [discriminate|reflexivity]]).
  - simpl. intros j [<-|[]]. reflexivity.
  - vm_compute. discriminate.
Defined.

(** X9. An update with an empty payload: PUT /api/patients/:id,
    /api/doctors/:id and /api/medicines/:id with a body that carries no
    field answer 200 with the stored record and leave the store as it
    was (on the modelled paths; the [updatedAt] stamp is outside the
    model). *)
Theorem empty_update_changes_nothing (i : Z) (st : store) :
  (forall p, findOne Patient.id (Some i) (patients st) = Some p ->
             put_patients i no_patient_fields st = (Res 200 (Data (Some p)), st))
  /\ (forall d, findOne Doctor.id (Some i) (doctors st) = Some d ->
                put_doctors i no_doctor_fields st = (Res 200 (Data (Some d)), st))
  /\ (forall m, findOne Medicine.id (Some i) (medicines st) = Some m ->
                put_medicines i no_medicine_fields st = (Res 200 (Data (Some m)), st)).
Proof.
  repeat apply conj.
  - intros p F. pose proof (update_first_same Patient.id _ p _ F) as U.
    assert (E : Patient.apply no_patient_fields p = p) by (destruct p; reflexivity).
    unfold put_patients, put_patients_body, try_catch, bind.
    rewrite Model_findOne_run. cbn [casts_num number]. rewrite F.
    change (truthy_num (Patient.Body.doctorId no_patient_fields)) with false.
    unfold ret. cbv beta iota.
    rewrite findOneAndUpdate_Num, F.
    change (Patient.casts no_patient_fields) with true.
    change (Patient.valid no_patient_fields) with true.
    cbn [negb]. cbv iota. rewrite E, Z.eqb_refl. cbn [negb andb]. cbv iota.
    unfold set_patients. rewrite U. destruct st; reflexivity.
  - intros d F. pose proof (update_first_same Doctor.id _ d _ F) as U.
    assert (E : Doctor.apply no_doctor_fields d = d) by (destruct d; reflexivity).
    unfold put_doctors, put_doctors_body, try_catch, bind.
    rewrite Model_findOne_run. cbn [casts_num number]. rewrite F.
    rewrite findOneAndUpdate_Num, F.
    change (Doctor.casts no_doctor_fields) with true.
    cbn [negb]. cbv iota. rewrite E, Z.eqb_refl. cbn [negb andb]. cbv iota.
    unfold set_doctors. rewrite U. destruct st; reflexivity.
  - intros m F. pose proof (update_first_same Medicine.id _ m _ F) as U.
    assert (E : Medicine.apply no_medicine_fields m = m) by (destruct m; reflexivity).
    unfold put_medicines, put_medicines_body, try_catch, bind.
    rewrite Model_findOne_run. cbn [casts_num number]. rewrite F.
    rewrite findOneAndUpdate_Num, F.
    change (Medicine.casts no_medicine_fields) with true.
    change (Medicine.valid no_medicine_fields) with true.
    cbn [negb]. cbv iota. rewrite E, Z.eqb_refl. cbn [negb andb]. cbv iota.
    unfold set_medicines. rewrite U. destruct st; reflexivity.
Qed.

Example empty_update_of_doctor_1 :
  put_doctors 1 no_doctor_fields (Examples.clinic [Doctor.mk 1 1 300] [])
  = (Res 200 (Data (Some (Doctor.mk 1 1 300))), Examples.clinic [Doctor.mk 1 1 300] []).
Proof.
  apply (proj1 (proj2 (empty_update_changes_nothing 1 (Examples.clinic [Doctor.mk 1 1 300] [])))).
  reflexivity.
Defined.

(** X10. Repeating a request: when the stored ids of the request's
    entity type are distinct, any request that creates no record (every
    PUT, every DELETE, and every POST that is refused) leaves, served a
    second time, the store exactly as the first time left it. *)
Theorem repeated_request_changes_nothing_more (r : request) (st : store) :
  created_id r st = None ->
  NoDup (ids (entity_of r) st) ->
  handle r (handle r st) = handle r st.
Proof.
  intros C ND. pose proof (post_creates_or_keeps r st C) as P.
  destruct (handle_cases r st) as [E|H]; [rewrite !E; reflexivity|].
  destruct r; cbn [entity_of ids] in ND;
    try (rewrite !P; reflexivity); clear P C.
  - destruct H as (i & p & -> & F & _ & E). rewrite E.
    destruct (handle_cases (PutPatients i b)
                (set_patients (update_first Patient.id (Some i) (Patient.apply b p)) st))
      as [E2|(i2 & p2 & [= <-] & F2 & _ & E2)]; [exact E2|].
    rewrite E2. cbn [patients set_patients] in F2 |- *. unfold set_patients. cbn.
    rewrite (update_first_twice Patient.id (Patient.apply b) i p p2 (patients st)
               (patient_apply_twice b) ND F F2). reflexivity.
  - destruct H as (i & -> & H). rewrite H.
    destruct (handle_cases (DeletePatients i)
                (set_patients (delete_first Patient.id (Some i)) st))
      as [E2|(i2 & [= <-] & E2)]; [exact E2|].
    rewrite E2. unfold set_patients. cbn.
    rewrite (delete_first_twice Patient.id i (patients st) ND). reflexivity.
  - destruct H as (i & d & -> & F & _ & E). rewrite E.
    destruct (handle_cases (PutDoctors i b)
                (set_doctors (update_first Doctor.id (Some i) (Doctor.apply b d)) st))
      as [E2|(i2 & d2 & [= <-] & F2 & _ & E2)]; [exact E2|].
    rewrite E2. cbn [doctors set_doctors] in F2 |- *. unfold set_doctors. cbn.
    rewrite (update_first_twice Doctor.id (Doctor.apply b) i d d2 (doctors st)
               (doctor_apply_twice b) ND F F2). reflexivity.
  - destruct H as (i & -> & H). rewrite H.
    destruct (handle_cases (DeleteDoctors i)
                (set_doctors (delete_first Doctor.id (Some i)) st))
      as [E2|(i2 & [= <-] & E2)]; [exact E2|].
    rewrite E2. unfold set_doctors. cbn.
    rewrite (delete_first_twice Doctor.id i (doctors st) ND). reflexivity.
  - destruct H as (i & m & -> & F & _ & E). rewrite E.
    destruct (handle_cases (PutMedicines i b)
                (set_medicines (update_first Medicine.id (Some i) (Medicine.apply b m)) st))
      as [E2|(i2 & m2 & [= <-] & F2 & _ & E2)]; [exact E2|].
    rewrite E2. cbn [medicines set_medicines] in F2 |- *. unfold set_medicines. cbn.
    rewrite (update_first_twice Medicine.id (Medicine.apply b) i m m2 (medicines st)
               (medicine_apply_twice b) ND F F2). reflexivity.
  - destruct H as (i & -> & H). rewrite H.
    destruct (handle_cases (DeleteMedicines i)
                (set_medicines (delete_first Medicine.id (Some i)) st))
      as [E2|(i2 & [= <-] & E2)]; [exact E2|].
    rewrite E2. unfold set_medicines. cbn.
    rewrite (delete_first_twice Medicine.id i (medicines st) ND). reflexivity.
Qed.

Example rekeying_twice_is_rekeying_once :
  handle (PutDoctors 1 (Doctor.Body.mk (Some (Num 4)) None (Some (Num 250))))
    (handle (PutDoctors 1 (Doctor.Body.mk (Some (Num 4)) None (Some (Num 250))))
       (Examples.clinic [Doctor.mk 1 1 300; Doctor.mk 2 2 100] []))
  = handle (PutDoctors 1 (Doctor.Body.mk (Some (Num 4)) None (Some (Num 250))))
      (Examples.clinic [Doctor.mk 1 1 300; Doctor.mk 2 2 100] []).
Proof.
  apply repeated_request_changes_nothing_more; [reflexivity|].
  simpl. repeat constructor; simpl; intuition discriminate.
Defined.



End NumericMore.

(* ------------------------------------------------------------------ *)
(** ** More on the routes over Mongo [_id]s *)

Module KeyedMore.
Import Keyed KeyedFacts.
Local Open Scope string_scope.
Local Open Scope list_scope.
Local Open Scope Z_scope.

Ltac unfold_ward_reads :=
  unfold get_wards_id, get_wards_id_body, get_wards_available, get_wards_available_body,
    findById, not_found_or_server_error, server_error,
    try_catch, bind, gets, ret, throw, modify in *.

Lemma not_admin_true role : role <> "admin" -> not_admin role = true.
Proof.
  intros N. unfold not_admin. destruct (String.eqb_spec role "admin"); [contradiction|].
  reflexivity.
Qed.

(** X12. Each router writes its own collection: a request to the
    medicines-assigned router leaves the wards and the visits as they
    were, one to the visits router the wards and the assignments, one
    to the wards router the visits and the assignments; none of the
    three writes a patient, a doctor or a medicine; and whatever happens
    to those three collections elsewhere leaves wards, visits and
    assignments alone. *)
Theorem keyed_routers_write_their_own_collection (sch : schemas) (r : request) (st : store) :
  let st' := handle sch r st in
  match r with
  | PostAssigned _ _ | PutAssigned _ _ _ | DeleteAssigned _ _ =>
      patients st' = patients st /\ doctors st' = doctors st /\ medicines st' = medicines st
      /\ wards st' = wards st /\ visits st' = visits st
  | PostVisits _ _ | PutVisits _ _ _ | DeleteVisits _ _ =>
      patients st' = patients st /\ doctors st' = doctors st /\ medicines st' = medicines st
      /\ wards st' = wards st /\ assigned st' = assigned st
  | PostWards _ _ | PutWards _ _ _ | DeleteWards _ _ =>
      patients st' = patients st /\ doctors st' = doctors st /\ medicines st' = medicines st
      /\ visits st' = visits st /\ assigned st' = assigned st
  | Elsewhere _ _ _ =>
      wards st' = wards st /\ visits st' = visits st /\ assigned st' = assigned st
  end.
Proof.
  destruct r; simpl; unfold_keyed; simpl; repeat (branch; simpl);
    repeat split; reflexivity.
Qed.

(** X13. Admin-only operations: for a caller whose role is not admin,
    POST api/wards and PUT api/wards/:id are answered 400 or 401,
    DELETE api/wards/:id and DELETE api/doctorvisits/:id are answered
    401 whatever the id (stored, unknown or malformed), and the store
    stays as it was. *)
Theorem only_admins_write_wards (sch : schemas) (role : string) (st : store) :
  role <> "admin" ->
  (forall b, snd (post_wards sch role b st) = st
             /\ (status (fst (post_wards sch role b st)) = 400
                 \/ fst (post_wards sch role b st)
                    = Res 401 (Message "Not authorized to add wards")))
  /\ (forall id b, snd (put_wards sch role id b st) = st
                   /\ (status (fst (put_wards sch role id b st)) = 400
                       \/ fst (put_wards sch role id b st)
                          = Res 401 (Message "Not authorized to update wards")))
  /\ (forall id, delete_wards role id st
                 = (Res 401 (Message "Not authorized to delete wards"), st))
  /\ (forall id, delete_visits role id st
                 = (Res 401 (Message "Not authorized to delete visit records"), st)).
Proof.
  intros N. apply not_admin_true in N. repeat apply conj.
  - intros b. unfold_keyed. cbv zeta. rewrite N.
    destruct (negb _); simpl; auto.
  - intros id b. unfold_keyed. cbv zeta. rewrite N.
    destruct (negb _); simpl; auto.
  - intros id. unfold_keyed. rewrite N. reflexivity.
  - intros id. unfold_keyed. rewrite N. reflexivity.
Qed.

Example staff_cannot_delete_ward_4 :
  delete_wards "staff" (Oid 4) Examples.ward_round
  = (Res 401 (Message "Not authorized to delete wards"), Examples.ward_round).
Proof.
  assert (N : "staff" <> "admin") by discriminate.
  exact (proj1 (proj2 (proj2
    (only_admins_write_wards Examples.schemas "staff" Examples.ward_round N))) (Oid 4)).
Defined.

(** X14. Callers that are neither doctor, admin nor staff: PUT and
    DELETE api/medicinesassigned/:id answer them 401 whatever the id
    (the role is tested before the lookup), while
    PUT api/doctorvisits/:id looks the visit up first and answers 404
    when the id is unknown or malformed and 401 only when the visit is
    stored -- both on a payload that passes the route's checks.  The
    store stays as it was in every case. *)
Theorem unprivileged_roles_are_refused (sch : schemas) (role : string) (st : store) :
  role <> "doctor" -> role <> "admin" -> role <> "staff" ->
  (forall id b, put_assigned_validation b = [] ->
                put_assigned sch role id b st
                = (Res 401 (Message "Not authorized to update medicine assignments"), st))
  /\ (forall id, delete_assigned role id st
                 = (Res 401 (Message "Not authorized to delete medicine assignments"), st))
  /\ (forall id b, put_visits_validation b = [] ->
                   put_visits sch role id b st
                   = (match id with
                      | Oid o =>
                          match find (has_id o) (visits st) with
                          | Some _ => Res 401 (Message "Not authorized to update visit records")
                          | None => Res 404 (Message "Visit record not found")
                          end
                      | Malformed => Res 404 (Message "Visit record not found")
                      end, st)).
Proof.
  intros Nd Na Ns. pose proof (role_refused role Nd Na Ns) as R. repeat apply conj.
  - intros id b V. unfold put_assigned. cbv zeta. rewrite (isEmpty_nil _ V).
    unfold_keyed. rewrite R. reflexivity.
  - intros id. unfold_keyed. rewrite R. reflexivity.
  - intros id b V. unfold put_visits. cbv zeta. rewrite (isEmpty_nil _ V).
    unfold_keyed. destruct id as [o|]; [|reflexivity]. cbn.
    destruct (find (has_id o) (visits st)); [|reflexivity].
    rewrite R. reflexivity.
Qed.

Example patient_learns_visit_3_is_unknown :
  put_visits Examples.schemas "patient" (Oid 3) no_visit_fields Examples.ward_round
  = (Res 404 (Message "Visit record not found"), Examples.ward_round).
Proof.
  assert (Nd : "patient" <> "doctor") by discriminate.
  assert (Na : "patient" <> "admin") by discriminate.
  assert (Ns : "patient" <> "staff") by discriminate.
  exact (proj2 (proj2
    (unprivileged_roles_are_refused Examples.schemas "patient" Examples.ward_round Nd Na Ns))
    (Oid 3) no_visit_fields eq_refl).
Defined.

(** X15. An id that is no ObjectId: GET, PUT and DELETE api/wards/:id,
    PUT and DELETE api/doctorvisits/:id and
    PUT and DELETE api/medicinesassigned/:id, called by a role the
    route admits with a payload that passes its checks, answer such an
    id 404 with the route's not-found message (the cast error is caught
    and told apart by its kind), and store nothing. *)
Theorem malformed_id_is_not_found (sch : schemas) (role : string) (st : store) :
  role = "doctor" \/ role = "admin" \/ role = "staff" ->
  get_wards_id Malformed st = (Res 404 (Message "Ward not found"), st)
  /\ (forall b, put_wards_validation b = [] ->
                put_wards sch "admin" Malformed b st
                = (Res 404 (Message "Ward not found"), st))
  /\ delete_wards "admin" Malformed st = (Res 404 (Message "Ward not found"), st)
  /\ (forall any b, put_visits_validation b = [] ->
                    put_visits sch any Malformed b st
                    = (Res 404 (Message "Visit record not found"), st))
  /\ delete_visits "admin" Malformed st = (Res 404 (Message "Visit record not found"), st)
  /\ (forall b, put_assigned_validation b = [] ->
                put_assigned sch role Malformed b st
                = (Res 404 (Message "Medicine assignment not found"), st))
  /\ delete_assigned role Malformed st
     = (Res 404 (Message "Medicine assignment not found"), st).
Proof.
  intros R. apply role_allowed in R. repeat apply conj.
  - reflexivity.
  - intros b V. unfold put_wards. cbv zeta. rewrite (isEmpty_nil _ V). reflexivity.
  - reflexivity.
  - intros any b V. unfold put_visits. cbv zeta. rewrite (isEmpty_nil _ V). reflexivity.
  - reflexivity.
  - intros b V. unfold put_assigned. cbv zeta. rewrite (isEmpty_nil _ V).
    unfold_keyed. rewrite R. reflexivity.
  - unfold_keyed. rewrite R. reflexivity.
Qed.

Example malformed_assignment_id :
  delete_assigned "staff" Malformed Examples.ward_round
  = (Res 404 (Message "Medicine assignment not found"), Examples.ward_round).
Proof.
  assert (R : "staff" = "doctor" \/ "staff" = "admin" \/ "staff" = "staff")
    by (right; right; reflexivity).
  exact (proj2 (proj2 (proj2 (proj2 (proj2 (proj2
    (malformed_id_is_not_found Examples.schemas "staff" Examples.ward_round R))))))).
Defined.

(** X16. A reference that is no ObjectId: POST api/medicinesassigned
    (from doctor, admin or staff) and POST api/doctorvisits (from
    anyone), on a payload that passes the route's checks but whose
    [pat_id] does not cast to an ObjectId, are answered 500, not 400 or
    404, and store nothing; so is one whose patient is stored but whose
    [medicine_id], respectively [doctor_id], does not cast. *)
Theorem malformed_reference_is_a_server_error (sch : schemas) (role : string) (st : store) :
  role = "doctor" \/ role = "admin" \/ role = "staff" ->
  (forall b, post_assigned_validation b = [] ->
             MedicineAssigned.Body.pat_id b = Some Malformed
             \/ (exists p, MedicineAssigned.Body.pat_id b = Some (Oid p)
                           /\ In (Patient.mk p) (patients st)
                           /\ MedicineAssigned.Body.medicine_id b = Some Malformed) ->
             post_assigned sch role b st = (Res 500 (ServerError "Server Error"), st))
  /\ (forall any b, post_visits_validation b = [] ->
                    DoctorVisit.Body.pat_id b = Some Malformed
                    \/ (exists p, DoctorVisit.Body.pat_id b = Some (Oid p)
                                  /\ In (Patient.mk p) (patients st)
                                  /\ DoctorVisit.Body.doctor_id b = Some Malformed) ->
                    post_visits sch any b st = (Res 500 (ServerError "Server Error"), st)).
Proof.
  intros R. apply role_allowed in R. split.
  - intros b V [E|(p & Ep & Hp & Em)]; unfold post_assigned; cbv zeta;
      rewrite (isEmpty_nil _ V); unfold_keyed; rewrite R.
    + rewrite E. reflexivity.
    + rewrite Ep, Em. cbn. apply find_patient in Hp.
      destruct (find (has_id p) (patients st)); [reflexivity|congruence].
  - intros any b V [E|(p & Ep & Hp & Ed)]; unfold post_visits; cbv zeta;
      rewrite (isEmpty_nil _ V); unfold_keyed.
    + rewrite E. reflexivity.
    + rewrite Ep, Ed. cbn. apply find_patient in Hp.
      destruct (find (has_id p) (patients st)); [reflexivity|congruence].
Qed.

Example visit_by_a_malformed_doctor :
  post_visits Examples.schemas "doctor"
    (DoctorVisit.Body.mk (Some (Oid 7)) (Some Malformed) (Some "2024-05-01"))
    Examples.ward_round
  = (Res 500 (ServerError "Server Error"), Examples.ward_round).
Proof.
  assert (R : "doctor" = "doctor" \/ "doctor" = "admin" \/ "doctor" = "staff")
    by (left; reflexivity).
  refine (proj2 (malformed_reference_is_a_server_error Examples.schemas "doctor"
                   Examples.ward_round R) "doctor"
            (DoctorVisit.Body.mk (Some (Oid 7)) (Some Malformed) (Some "2024-05-01"))
            eq_refl _).
  right. exists 7%N. simpl. auto.
Defined.



Ltac no_validation_error V :=
  cbv zeta; rewrite (isEmpty_nil _ V); unfold_keyed; simpl;
  repeat (branch; simpl); discriminate.

(** X22. The route's checks come first: on each of the six validated
    routes (POST and PUT of medicines assigned, doctor visits and
    wards) a payload that fails a check is answered 400 with the list
    of failed checks, whatever the caller's role, the id and the store,
    and nothing is stored; and no other path through the handler
    answers with a validation error. *)
Theorem failed_checks_are_answered_first (sch : schemas) (role : string) (st : store) :
  (forall b,
      (post_assigned_validation b <> [] ->
       post_assigned sch role b st = (Res 400 (Errors (post_assigned_validation b)), st))
      /\ (post_assigned_validation b = [] ->
          classify (fst (post_assigned sch role b st)) <> ValidationError))
  /\ (forall id b,
        (put_assigned_validation b <> [] ->
         put_assigned sch role id b st = (Res 400 (Errors (put_assigned_validation b)), st))
        /\ (put_assigned_validation b = [] ->
            classify (fst (put_assigned sch role id b st)) <> ValidationError))
  /\ (forall b,
        (post_visits_validation b <> [] ->
         post_visits sch role b st = (Res 400 (Errors (post_visits_validation b)), st))
        /\ (post_visits_validation b = [] ->
            classify (fst (post_visits sch role b st)) <> ValidationError))
  /\ (forall id b,
        (put_visits_validation b <> [] ->
         put_visits sch role id b st = (Res 400 (Errors (put_visits_validation b)), st))
        /\ (put_visits_validation b = [] ->
            classify (fst (put_visits sch role id b st)) <> ValidationError))
  /\ (forall b,
        (post_wards_validation b <> [] ->
         post_wards sch role b st = (Res 400 (Errors (post_wards_validation b)), st))
        /\ (post_wards_validation b = [] ->
            classify (fst (post_wards sch role b st)) <> ValidationError))
  /\ (forall id b,
        (put_wards_validation b <> [] ->
         put_wards sch role id b st = (Res 400 (Errors (put_wards_validation b)), st))
        /\ (put_wards_validation b = [] ->
            classify (fst (put_wards sch role id b st)) <> ValidationError)).
Proof.
  repeat apply conj; intros; split; intros V.
  - unfold post_assigned. cbv zeta. rewrite (isEmpty_cons _ V). reflexivity.
  - unfold post_assigned. no_validation_error V.
  - unfold put_assigned. cbv zeta. rewrite (isEmpty_cons _ V). reflexivity.
  - unfold put_assigned. no_validation_error V.
  - unfold post_visits. cbv zeta. rewrite (isEmpty_cons _ V). reflexivity.
  - unfold post_visits. no_validation_error V.
  - unfold put_visits. cbv zeta. rewrite (isEmpty_cons _ V). reflexivity.
  - unfold put_visits. no_validation_error V.
  - unfold post_wards. cbv zeta. rewrite (isEmpty_cons _ V). reflexivity.
  - unfold post_wards. no_validation_error V.
  - unfold put_wards. cbv zeta. rewrite (isEmpty_cons _ V). reflexivity.
  - unfold put_wards. no_validation_error V.
Qed.

Example empty_ward_is_refused_before_the_role_test :
  post_wards Examples.schemas "patient" no_ward_fields Examples.ward_round
  = (Res 400 (Errors ["Ward type is required"; "Charges must be a number";
                      "Availability status is required";
                      "Maximum capacity must be a number"]),
     Examples.ward_round).
Proof.
  refine (proj1 (proj1 (proj2 (proj2 (proj2 (proj2
    (failed_checks_are_answered_first Examples.schemas "patient" Examples.ward_round)))))
    no_ward_fields) _).
  discriminate.
Defined.


(** *** Under the repository's schemas *)

(** X24. Nothing is ever stored: the Ward, DoctorVisit and
    MedicineAssigned schemas of the repository require paths ([id],
    [maxCap], [patId], [doctorId], [medicineId], [medicineQty]) that no
    route sets, so every [save] is refused, and in every store a run of
    requests from the empty database ends in there is no ward, no visit
    and no assignment. *)
Theorem repository_stores_no_document (numeric : string -> bool) (st : store) :
  reachable (repository_schemas numeric) st ->
  wards st = [] /\ visits st = [] /\ assigned st = [].
Proof.
  intros [rs <-]. apply repository_run_keeps_empty. repeat split.
Qed.

Example three_creations_store_nothing :
  wards (run Examples.schemas
           [Elsewhere [Patient.mk 7] [Doctor.mk 8] [Medicine.mk 9];
            PostWards "admin" (Ward.Body.mk (Some "icu") (Some 700) (Some true) (Some 6));
            PostVisits "doctor" (Examples.visit 7 8 "3");
            PostAssigned "doctor" (Examples.prescribe 7 9 "one at night" 2)]
           empty)
  = []
  /\ visits (run Examples.schemas
               [Elsewhere [Patient.mk 7] [Doctor.mk 8] [Medicine.mk 9];
                PostWards "admin" (Ward.Body.mk (Some "icu") (Some 700) (Some true) (Some 6));
                PostVisits "doctor" (Examples.visit 7 8 "3");
                PostAssigned "doctor" (Examples.prescribe 7 9 "one at night" 2)]
               empty)
     = []
  /\ assigned (run Examples.schemas
                 [Elsewhere [Patient.mk 7] [Doctor.mk 8] [Medicine.mk 9];
                  PostWards "admin" (Ward.Body.mk (Some "icu") (Some 700) (Some true) (Some 6));
                  PostVisits "doctor" (Examples.visit 7 8 "3");
                  PostAssigned "doctor" (Examples.prescribe 7 9 "one at night" 2)]
                 empty)
     = [].
Proof.
  apply (repository_stores_no_document Examples.decimal).
  eexists. reflexivity.
Defined.

(** X25. Creating a ward: POST api/wards by an admin with a payload
    that passes the route's checks is answered 500, and no ward is
    stored: the document the route builds has no [id] and no [maxCap],
    which the Ward schema requires. *)
Theorem ward_creation_is_refused (numeric : string -> bool) (b : Ward.Body.t) (st : store) :
  post_wards_validation b = [] ->
  fst (post_wards (repository_schemas numeric) "admin" b st)
  = Res 500 (ServerError "Server Error")
  /\ wards (snd (post_wards (repository_schemas numeric) "admin" b st)) = wards st.
Proof.
  intros V. unfold post_wards. cbv zeta. rewrite (isEmpty_nil _ V).
  unfold_keyed. cbn. destruct (Ward.make _ b); split; reflexivity.
Qed.

Example icu_ward_is_refused :
  fst (post_wards Examples.schemas "admin"
         (Ward.Body.mk (Some "icu") (Some 700) (Some true) (Some 6)) Examples.ward_round)
  = Res 500 (ServerError "Server Error")
  /\ wards (snd (post_wards Examples.schemas "admin"
                   (Ward.Body.mk (Some "icu") (Some 700) (Some true) (Some 6))
                   Examples.ward_round))
     = wards Examples.ward_round.
Proof.
  apply (ward_creation_is_refused Examples.decimal
           (Ward.Body.mk (Some "icu") (Some 700) (Some true) (Some 6)) Examples.ward_round).
  reflexivity.
Defined.

(** X26. Recording a visit: in every store the API can reach, POST
    api/doctorvisits for a stored patient and a stored doctor with a
    non-empty [visits] is answered 500 whoever asks, and no visit is
    stored: either [visits] does not cast to the Number the schema
    declares, or the document built lacks the required [patId] and
    [doctorId]. *)
Theorem visit_recording_is_refused (numeric : string -> bool) (role : string)
    (p d : oid) (v : string) (st : store) :
  reachable (repository_schemas numeric) st ->
  v <> "" ->
  In (Patient.mk p) (patients st) ->
  In (Doctor.mk d) (doctors st) ->
  fst (post_visits (repository_schemas numeric) role
         (DoctorVisit.Body.mk (Some (Oid p)) (Some (Oid d)) (Some v)) st)
  = Res 500 (ServerError "Server Error")
  /\ visits (snd (post_visits (repository_schemas numeric) role
                    (DoctorVisit.Body.mk (Some (Oid p)) (Some (Oid d)) (Some v)) st))
     = [].
Proof.
  intros Reach V Hp Hd. apply repository_stores_nothing in Reach.
  destruct Reach as (_ & E & _).
  destruct (post_visits_refused numeric role p d v st V Hp Hd E) as (R & _ & _ & S).
  split; assumption.
Qed.

Example dated_visit_is_refused :
  fst (post_visits Examples.schemas "doctor" (Examples.visit 7 8 "2024-05-01")
         Examples.ward_round)
  = Res 500 (ServerError "Server Error")
  /\ visits (snd (post_visits Examples.schemas "doctor" (Examples.visit 7 8 "2024-05-01")
                    Examples.ward_round))
     = [].
Proof.
  assert (V : "2024-05-01" <> "") by discriminate.
  apply (visit_recording_is_refused Examples.decimal "doctor" 7 8 "2024-05-01"
           Examples.ward_round); [|exact V|simpl; auto|simpl; auto].
  exists [Elsewhere [Patient.mk 7] [Doctor.mk 8] [Medicine.mk 9]]. reflexivity.
Defined.

(** X27. Lookups by id find nothing: in every store the API can reach,
    GET, PUT and DELETE api/wards/:id, PUT and DELETE
    api/doctorvisits/:id and PUT and DELETE api/medicinesassigned/:id,
    called with an ObjectId by a role the route admits and with a
    payload that passes its checks, answer 404 and change nothing, and
    GET api/wards/status/available answers the empty list. *)
Theorem lookups_by_id_find_nothing (numeric : string -> bool) (role : string)
    (o : oid) (st : store) :
  reachable (repository_schemas numeric) st ->
  role = "doctor" \/ role = "admin" \/ role = "staff" ->
  get_wards_id (Oid o) st = (Res 404 (Message "Ward not found"), st)
  /\ get_wards_available st = (Res 200 (Data []), st)
  /\ (forall b, put_wards_validation b = [] ->
                put_wards (repository_schemas numeric) "admin" (Oid o) b st
                = (Res 404 (Message "Ward not found"), st))
  /\ delete_wards "admin" (Oid o) st = (Res 404 (Message "Ward not found"), st)
  /\ (forall any b, put_visits_validation b = [] ->
                    put_visits (repository_schemas numeric) any (Oid o) b st
                    = (Res 404 (Message "Visit record not found"), st))
  /\ delete_visits "admin" (Oid o) st = (Res 404 (Message "Visit record not found"), st)
  /\ (forall b, put_assigned_validation b = [] ->
                put_assigned (repository_schemas numeric) role (Oid o) b st
                = (Res 404 (Message "Medicine assignment not found"), st))
  /\ delete_assigned role (Oid o) st
     = (Res 404 (Message "Medicine assignment not found"), st).
Proof.
  intros Reach R. apply role_allowed in R.
  apply repository_stores_nothing in Reach. destruct Reach as (W & V & A).
  repeat apply conj.
  - unfold_ward_reads. rewrite W. reflexivity.
  - unfold_ward_reads. rewrite W. reflexivity.
  - intros b Vb. unfold put_wards. cbv zeta. rewrite (isEmpty_nil _ Vb).
    unfold_keyed. cbn. rewrite W. reflexivity.
  - unfold_keyed. cbn. rewrite W. reflexivity.
  - intros any b Vb. unfold put_visits. cbv zeta. rewrite (isEmpty_nil _ Vb).
    unfold_keyed. rewrite V. reflexivity.
  - unfold_keyed. cbn. rewrite V. reflexivity.
  - intros b Vb. unfold put_assigned. cbv zeta. rewrite (isEmpty_nil _ Vb).
    unfold_keyed. rewrite R, A. reflexivity.
  - unfold_keyed. rewrite R, A. reflexivity.
Qed.

Example no_ward_to_delete :
  delete_wards "admin" (Oid 0) Examples.ward_round
  = (Res 404 (Message "Ward not found"), Examples.ward_round).
Proof.
  assert (R : "admin" = "doctor" \/ "admin" = "admin" \/ "admin" = "staff")
    by (right; left; reflexivity).
  assert (Reach : reachable (repository_schemas Examples.decimal) Examples.ward_round).
  { exists [Elsewhere [Patient.mk 7] [Doctor.mk 8] [Medicine.mk 9]]. reflexivity. }
  exact (proj1 (proj2 (proj2 (proj2
    (lookups_by_id_find_nothing Examples.decimal "admin" 0 Examples.ward_round Reach R))))).
Defined.

End KeyedMore.
